(** * database-structure-comparer: the DDL-text pipeline and the schema differ

    A shallow embedding of [get-current-schema.py] (type mapping, statement
    splitter, CREATE TABLE parsing) and of [generate-schema-updates.py]
    (type normalisation and the column differ), with the properties the
    specification states about them.

    Text is modelled as [string]: a character is one of the code points
    U+0000..U+00FF, read the way Python reads a [str] (so the character
    classes below are the Unicode ones restricted to that range). *)

From Stdlib Require Import Bool Ascii String List ZArith NArith Lia.
From Stdlib Require Import Permutation Decimal DecimalString DecimalZ.
Import ListNotations.

Local Open Scope list_scope.
Local Open Scope string_scope.

(** ** Python's [str] operations used by the two scripts *)

Module Py.

Definition ord (c : ascii) : N := N_of_ascii c.

Definition between (lo hi : N) (c : ascii) : bool :=
  (lo <=? ord c)%N && (ord c <=? hi)%N.

(** [str.isspace] on one character, also the class [\s] of [re]. *)
Definition isspace (c : ascii) : bool :=
  between 9 13 c || between 28 32 c || (ord c =? 133)%N || (ord c =? 160)%N.

(** The class [\d] of [re]: the decimal digits. *)
Definition isdigit (c : ascii) : bool := between 48 57 c.

(** The class [[a-zA-Z0-9_]]. *)
Definition isident (c : ascii) : bool :=
  between 97 122 c || between 65 90 c || between 48 57 c || (ord c =? 95)%N.

(** The class [\w] of [re] on a [str]: alphanumeric characters and the
    underscore; past U+007F these are the letters and the numeric signs of
    Latin-1. *)
Definition isword (c : ascii) : bool :=
  isident c
  || (ord c =? 170)%N || (ord c =? 181)%N || (ord c =? 186)%N
  || between 178 179 c || (ord c =? 185)%N || between 188 190 c
  || between 192 214 c || between 216 246 c || between 248 255 c.

Definition lower_char (c : ascii) : ascii :=
  if between 65 90 c || between 192 214 c || between 216 222 c
  then ascii_of_N (ord c + 32) else c.

(** [str.upper] maps U+00DF, U+00B5 and U+00FF outside the modelled range
    (to "SS", U+039C and U+0178); they are left as they are, which none of
    the comparisons made here can tell apart: the constants compared with
    are ASCII words that hold no double S. *)
Definition upper_char (c : ascii) : ascii :=
  if between 97 122 c || between 224 246 c || between 248 254 c
  then ascii_of_N (ord c - 32) else c.

Fixpoint lower (s : string) : string :=
  match s with
  | EmptyString => EmptyString
  | String c s' => String (lower_char c) (lower s')
  end.

Fixpoint upper (s : string) : string :=
  match s with
  | EmptyString => EmptyString
  | String c s' => String (upper_char c) (upper s')
  end.

(** [bool(s)]: a string is true when it is not empty. *)
Definition truthy (s : string) : bool :=
  match s with EmptyString => false | String _ _ => true end.

(** The longest prefix whose characters satisfy [p], and what follows it. *)
Fixpoint span (p : ascii -> bool) (s : string) : string * string :=
  match s with
  | EmptyString => (EmptyString, EmptyString)
  | String c s' =>
      if p c then let (a, b) := span p s' in (String c a, b)
      else (EmptyString, s)
  end.

Fixpoint lstrip_by (p : ascii -> bool) (s : string) : string :=
  match s with
  | EmptyString => EmptyString
  | String c s' => if p c then lstrip_by p s' else s
  end.

Fixpoint rstrip_by (p : ascii -> bool) (s : string) : string :=
  match s with
  | EmptyString => EmptyString
  | String c s' =>
      match rstrip_by p s' with
      | EmptyString => if p c then EmptyString else String c EmptyString
      | r => String c r
      end
  end.

Definition strip_by (p : ascii -> bool) (s : string) : string :=
  rstrip_by p (lstrip_by p s).

Fixpoint char_in (chars : string) (c : ascii) : bool :=
  match chars with
  | EmptyString => false
  | String d chars' => Ascii.eqb c d || char_in chars' c
  end.

(** [s.strip()], [s.strip(chars)] and [s.rstrip(chars)]. *)
Definition strip (s : string) : string := strip_by isspace s.
Definition strip_chars (chars s : string) : string := strip_by (char_in chars) s.
Definition rstrip_chars (chars s : string) : string := rstrip_by (char_in chars) s.

(** [s.startswith(p)] and what is left of [s] after [p]. *)
Fixpoint after_prefix (p s : string) : option string :=
  match p, s with
  | EmptyString, _ => Some s
  | String a p', String b s' => if Ascii.eqb a b then after_prefix p' s' else None
  | String _ _, EmptyString => None
  end.

Definition startswith (s p : string) : bool :=
  match after_prefix p s with Some _ => true | None => false end.

(** [s.startswith((p1, ..., pn))]. *)
Definition startswith_any (s : string) (ps : list string) : bool :=
  existsb (startswith s) ps.

(** [sub in s]. *)
Fixpoint contains (s sub : string) : bool :=
  startswith s sub
  || match s with
     | EmptyString => false
     | String _ s' => contains s' sub
     end.

Fixpoint rev_string (s : string) : string :=
  match s with
  | EmptyString => EmptyString
  | String c s' => rev_string s' ++ String c EmptyString
  end.

Definition endswith (s p : string) : bool :=
  startswith (rev_string s) (rev_string p).

(** [s.split(sep)] for a separator of one character. *)
Fixpoint split_on (sep : ascii) (cur s : string) : list string :=
  match s with
  | EmptyString => [cur]
  | String c s' =>
      if Ascii.eqb c sep then cur :: split_on sep EmptyString s'
      else split_on sep (cur ++ String c EmptyString) s'
  end.

Definition split (s : string) (sep : ascii) : list string :=
  split_on sep EmptyString s.

(** The line boundaries of [str.splitlines] below U+0100, [\r\n] apart. *)
Definition is_linebreak (c : ascii) : bool :=
  between 10 13 c || between 28 30 c || (ord c =? 133)%N.

Fixpoint splitlines_from (cur s : string) : list string :=
  match s with
  | EmptyString => if truthy cur then [cur] else []
  | String c s' =>
      if is_linebreak c then
        match s' with
        | String d s'' =>
            if Ascii.eqb c "013" && Ascii.eqb d "010"
            then cur :: splitlines_from EmptyString s''
            else cur :: splitlines_from EmptyString s'
        | EmptyString => cur :: splitlines_from EmptyString s'
        end
      else splitlines_from (cur ++ String c EmptyString) s'
  end.

Definition splitlines (s : string) : list string :=
  splitlines_from EmptyString s.

(** [sep.join(l)]. *)
Fixpoint join (sep : string) (l : list string) : string :=
  match l with
  | [] => EmptyString
  | [x] => x
  | x :: l' => x ++ sep ++ join sep l'
  end.

(** [f"{n}"] for an integer. *)
Definition format_int (n : Z) : string := NilZero.string_of_int (Z.to_int n).

(** [s * n] *)
Fixpoint mul (s : string) (n : nat) : string :=
  match n with
  | O => EmptyString
  | S n' => s ++ mul s n'
  end.

End Py.

(** ** Exceptions: what a Python call returns, or the exception it raises *)

Inductive PyExc : Set := ValueError | KeyError | OSError | SQLParseError.

Inductive result (A : Type) : Type :=
| Ok (a : A)
| Raise (e : PyExc).
Arguments Ok {A} a.
Arguments Raise {A} e.

Definition bind {A B} (r : result A) (k : A -> result B) : result B :=
  match r with
  | Ok a => k a
  | Raise e => Raise e
  end.

Notation "x <- r ;; k" := (bind r (fun x => k))
  (at level 61, r at next level, right associativity).

Definition returns {A} (r : result A) : Prop := exists a, r = Ok a.

(** ** The statement splitter ([split_sql_definitions]) *)

Record SplitState : Type := mkSplit {
  parts : list string;
  buffer : string;
  parens : Z;
  in_quotes : bool;
  quote_char : string
}.

Definition str1 (c : ascii) : string := String c EmptyString.

(** The two quote characters, the apostrophe and the double quote (code 34). *)
Definition is_quote (c : ascii) : bool := Ascii.eqb c "'" || Ascii.eqb c "034".

(** The body of the [while] loop for the character [char] at index [i], the
    text after it being [rest]. *)
Fixpoint split_loop (definition_block : string) (st : SplitState) : SplitState :=
  match definition_block with
  | EmptyString => st
  | String char rest =>
      (* Handle quote start/end *)
      let '(buffer1, in_quotes1, quote_char1, skip) :=
        if is_quote char then
          if negb (in_quotes st) then (buffer st, true, str1 char, false)
          else if String.eqb (quote_char st) (str1 char) then
            match rest with
            | String next _ =>
                if String.eqb (str1 next) (quote_char st)
                then (buffer st ++ str1 char, true, quote_char st, true)
                else (buffer st, false, EmptyString, false)
            | EmptyString => (buffer st, false, EmptyString, false)
            end
          else (buffer st, in_quotes st, quote_char st, false)
        else (buffer st, in_quotes st, quote_char st, false) in
      let parens1 :=
        if negb in_quotes1 then
          if Ascii.eqb char "(" then (parens st + 1)%Z
          else if Ascii.eqb char ")" then (parens st - 1)%Z
          else parens st
        else parens st in
      if negb in_quotes1 && Ascii.eqb char "," && (parens1 =? 0)%Z then
        split_loop rest
          (mkSplit (parts st ++ [Py.strip buffer1])%list EmptyString parens1
                   in_quotes1 quote_char1)
      else
        let st' := mkSplit (parts st) (buffer1 ++ str1 char) parens1
                           in_quotes1 quote_char1 in
        if skip then
          match rest with
          | String _ rest' => split_loop rest' st'
          | EmptyString => st'
          end
        else split_loop rest st'
  end.

(** After the loop: the trailing buffer is a definition unless it is blank. *)
Definition finish (st : SplitState) : list string :=
  if Py.truthy (Py.strip (buffer st))
  then (parts st ++ [Py.strip (buffer st)])%list
  else parts st.

Definition split_sql_definitions (definition_block : string) : list string :=
  finish (split_loop definition_block
            (mkSplit [] EmptyString 0 false EmptyString)).


(** The splitter of the specification, section 4.2: three lexer states and a
    parenthesis depth; definitions are emitted as they are completed. *)

Inductive LexState : Set := normal | inSingleQuote | inDoubleQuote.

Definition closing_quote (state : LexState) : option ascii :=
  match state with
  | normal => None
  | inSingleQuote => Some "'"%char
  | inDoubleQuote => Some "034"%char
  end.

Definition final_definition (buf : string) : list string :=
  if Py.truthy (Py.strip buf) then [Py.strip buf] else [].

Fixpoint spec_split (s : string) (state : LexState) (depth : Z) (buf : string)
  : list string :=
  match s with
  | EmptyString => final_definition buf
  | String c rest =>
      match closing_quote state with
      | Some q =>
          if Ascii.eqb c q then
            match rest with
            | String c' rest' =>
                if Ascii.eqb c' q
                then spec_split rest' state depth (buf ++ String c (str1 c'))
                else spec_split rest normal depth (buf ++ str1 c)
            | EmptyString => spec_split rest normal depth (buf ++ str1 c)
            end
          else spec_split rest state depth (buf ++ str1 c)
      | None =>
          if Ascii.eqb c "'" then spec_split rest inSingleQuote depth (buf ++ str1 c)
          else if Ascii.eqb c "034" then spec_split rest inDoubleQuote depth (buf ++ str1 c)
          else if Ascii.eqb c "(" then spec_split rest normal (depth + 1) (buf ++ str1 c)
          else if Ascii.eqb c ")" then spec_split rest normal (depth - 1) (buf ++ str1 c)
          else if Ascii.eqb c "," && (depth =? 0)%Z
               then Py.strip buf :: spec_split rest normal depth EmptyString
          else spec_split rest normal depth (buf ++ str1 c)
      end
  end.

Definition spec_split_definitions (s : string) : list string :=
  spec_split s normal 0 EmptyString.

(** How the flags of the loop encode the lexer state. *)
Definition encodes (st : SplitState) (state : LexState) : Prop :=
  match closing_quote state with
  | None => in_quotes st = false /\ quote_char st = EmptyString
  | Some q => in_quotes st = true /\ quote_char st = str1 q
  end.

(** ** Dictionaries

    A Python [dict] keeps its keys in insertion order and assigning to a key
    it already has keeps the key's place: an association list whose keys are
    distinct. *)

Definition dict (V : Type) : Type := list (string * V).

Definition keys {V} (d : dict V) : list string := map fst d.

Fixpoint dict_get {V} (d : dict V) (k : string) : option V :=
  match d with
  | [] => None
  | (k', v) :: d' => if String.eqb k' k then Some v else dict_get d' k
  end.

(** [d.get(k, default)]. *)
Definition dict_get_or {V} (d : dict V) (k : string) (default : V) : V :=
  match dict_get d k with Some v => v | None => default end.

(** [k in d]. *)
Definition dict_in {V} (d : dict V) (k : string) : bool :=
  match dict_get d k with Some _ => true | None => false end.

(** [d[k]]. *)
Definition dict_getitem {V} (d : dict V) (k : string) : result V :=
  match dict_get d k with Some v => Ok v | None => Raise KeyError end.

(** [d[k] = v]. *)
Fixpoint dict_set {V} (d : dict V) (k : string) (v : V) : dict V :=
  match d with
  | [] => [(k, v)]
  | (k', v') :: d' =>
      if String.eqb k' k then (k', v) :: d' else (k', v') :: dict_set d' k v
  end.

(** The keys of a well-formed dictionary are distinct. *)
Fixpoint distinct (l : list string) : bool :=
  match l with
  | [] => true
  | x :: l' => negb (existsb (String.eqb x) l') && distinct l'
  end.

(** ** The type mapper ([TYPE_MAP], [map_sql_type]) *)

Definition TYPE_MAP : dict string :=
  [ ("varchar", "STRING");
    ("char", "STRING");
    ("int", "INTEGER");
    ("bigint", "INTEGER");
    ("datetime", "DATETIME");
    ("timestamp", "DATETIME");
    ("text", "STRING");
    ("tinyint", "INTEGER");
    ("boolean", "BOOLEAN") ].

(** One column of a canonical schema: the JSON object with the keys [type],
    [length], [acceptNULL], [required] and [primary], of which only [type]
    is always present. *)
Record ColumnInfo : Type := mkInfo {
  c_type : string;
  c_length : option Z;
  acceptNULL : option bool;
  required : option bool;
  primary : option bool
}.

Definition info_of_type (t : string) : ColumnInfo := mkInfo t None None None None.

Definition with_length (i : ColumnInfo) (n : Z) : ColumnInfo :=
  mkInfo (c_type i) (Some n) (acceptNULL i) (required i) (primary i).

Definition with_acceptNULL (i : ColumnInfo) (b : bool) : ColumnInfo :=
  mkInfo (c_type i) (c_length i) (Some b) (required i) (primary i).

Definition with_required (i : ColumnInfo) (b : bool) : ColumnInfo :=
  mkInfo (c_type i) (c_length i) (acceptNULL i) (Some b) (primary i).

Definition with_primary (i : ColumnInfo) (b : bool) : ColumnInfo :=
  mkInfo (c_type i) (c_length i) (acceptNULL i) (required i) (Some b).

(** The pattern of [map_sql_type], matched at the start of [sql_type] by
    [re.match]: one or more word characters (group 1) and, optionally, a
    parenthesised run of digits (group 2). The word run is taken whole; the optional
    group matches when "(", digits and ")" follow it at once. *)
Definition re_sql_type (sql_type : string) : option (string * option string) :=
  let (base, rest) := Py.span Py.isword sql_type in
  if Py.truthy base then
    match rest with
    | String "(" rest1 =>
        let (digits, rest2) := Py.span Py.isdigit rest1 in
        match rest2 with
        | String ")" _ =>
            if Py.truthy digits then Some (base, Some digits) else Some (base, None)
        | _ => Some (base, None)
        end
    | _ => Some (base, None)
    end
  else None.

(** The most digits that [int] converts, [sys.get_int_max_str_digits()]:
    4300 unless the interpreter is started with another limit. *)
Definition int_max_str_digits : nat := 4300.

(** [int(s)] on a text of decimal digits; any other text raises here (Python
    also accepts signs, blanks and underscores, which the digit group never
    yields). A text of more than [int_max_str_digits] digits raises
    ValueError; leading zeros count as digits. *)
Definition py_int (s : string) : result Z :=
  if Nat.ltb int_max_str_digits (String.length s) then Raise ValueError
  else
    match s with
    | EmptyString => Raise ValueError
    | String _ _ =>
        match NilEmpty.uint_of_string s with
        | Some u => Ok (Z.of_uint u)
        | None => Raise ValueError
        end
    end.

Definition map_sql_type (sql_type : string) : result ColumnInfo :=
  match re_sql_type sql_type with
  | None => Ok (info_of_type "STRING")
  | Some (base, length) =>
      let base := Py.lower base in
      let result := info_of_type (dict_get_or TYPE_MAP base "STRING") in
      match length with
      | Some digits =>
          if Py.truthy digits
          then n <- py_int digits ;; Ok (with_length result n)
          else Ok result
      | None => Ok result
      end
  end.

(** ** Regular expressions of the table parser *)

Definition nl : string := String "010" EmptyString.

(** [re.search]: the match at the leftmost position that has one. *)
Fixpoint re_search {A} (at_start : string -> option A) (s : string) : option A :=
  match at_start s with
  | Some r => Some r
  | None =>
      match s with
      | EmptyString => None
      | String _ s' => re_search at_start s'
      end
  end.

(** A literal under [re.IGNORECASE]. *)
Fixpoint after_prefix_ci (p s : string) : option string :=
  match p, s with
  | EmptyString, _ => Some s
  | String a p', String b s' =>
      if Ascii.eqb (Py.lower_char a) (Py.lower_char b)
      then after_prefix_ci p' s' else None
  | String _ _, EmptyString => None
  end.

Definition is_backtick (c : ascii) : bool := Ascii.eqb c "`".

(** An optional backtick. *)
Definition skip_backtick (s : string) : string :=
  match s with
  | String "`" s' => s'
  | _ => s
  end.

(** [table_pattern] with DOTALL and IGNORECASE, at the start of [s]: the
    words CREATE TABLE, one or more blanks, a backtick, one or more
    characters other than a backtick (group 1), a backtick, blanks, an
    opening parenthesis, and everything after it (group 2). *)
Definition table_pattern (s : string) : option (string * string) :=
  match after_prefix_ci "CREATE TABLE" s with
  | None => None
  | Some s0 =>
      let (blanks, s1) := Py.span Py.isspace s0 in
      if Py.truthy blanks then
        match s1 with
        | String "`" s2 =>
            let (name, s3) := Py.span (fun c => negb (is_backtick c)) s2 in
            if Py.truthy name then
              match s3 with
              | String "`" s4 =>
                  match snd (Py.span Py.isspace s4) with
                  | String "(" body => Some (name, body)
                  | _ => None
                  end
              | _ => None
              end
            else None
        | _ => None
        end
      else None
  end.

(** Whether characters other than a closing parenthesis and then a semicolon
    can be read at the start of [s]. *)
Fixpoint semicolon_follows (s : string) : bool :=
  match s with
  | EmptyString => false
  | String c s' =>
      if Ascii.eqb c ";" then true
      else if Ascii.eqb c ")" then false
      else semicolon_follows s'
  end.

(** The tail of the pattern of [parse_structure] at the start of [s]: any
    characters (the group), a closing parenthesis, characters other than a
    closing parenthesis, a semicolon. The group is greedy, so it stops at
    the last parenthesis that a semicolon follows. *)
Fixpoint greedy_body (s : string) : option string :=
  match s with
  | EmptyString => None
  | String c s' =>
      match greedy_body s' with
      | Some b => Some (String c b)
      | None =>
          if Ascii.eqb c ")" && semicolon_follows s' then Some EmptyString
          else None
      end
  end.

(** The pattern of [parse_structure] with DOTALL and IGNORECASE, at the
    start of [s]: the words CREATE TABLE, one or more blanks, an optional
    backtick, one or more word characters (group 1), an optional backtick,
    blanks, an opening parenthesis, then [greedy_body] (group 2). *)
Definition create_pattern (s : string) : option (string * string) :=
  match after_prefix_ci "CREATE TABLE" s with
  | None => None
  | Some s0 =>
      let (blanks, s1) := Py.span Py.isspace s0 in
      if Py.truthy blanks then
        let (name, s2) := Py.span Py.isword (skip_backtick s1) in
        if Py.truthy name then
          match snd (Py.span Py.isspace (skip_backtick s2)) with
          | String "(" s3 =>
              match greedy_body s3 with
              | Some body => Some (name, body)
              | None => None
              end
          | _ => None
          end
        else None
      else None
  end.

(** What [.] matches without DOTALL. *)
Definition not_newline (c : ascii) : bool := negb (Ascii.eqb c "010").

(** The column pattern, matched at the start of [col_line] by [re.match]: a
    backtick, word characters (group 1), a backtick, one or more blanks, the
    type (group 2: letters, digits and underscores, then optionally group 3,
    a parenthesised run of characters other than a closing parenthesis),
    and the rest of the line (group 4). *)
Definition column_pattern (col_line : string)
  : option (string * string * option string * string) :=
  match col_line with
  | String "`" s0 =>
      let (name, s1) := Py.span Py.isword s0 in
      if Py.truthy name then
        match s1 with
        | String "`" s2 =>
            let (blanks, s3) := Py.span Py.isspace s2 in
            if Py.truthy blanks then
              let (base, s4) := Py.span Py.isident s3 in
              if Py.truthy base then
                let plain := Some (name, base, None, fst (Py.span not_newline s4)) in
                match s4 with
                | String "(" s5 =>
                    let (inner, s6) :=
                      Py.span (fun c => negb (Ascii.eqb c ")")) s5 in
                    match s6 with
                    | String ")" s7 =>
                        if Py.truthy inner then
                          let group := "(" ++ inner ++ ")" in
                          Some (name, base ++ group, Some group,
                                fst (Py.span not_newline s7))
                        else plain
                    | _ => plain
                    end
                | _ => plain
                end
              else None
            else None
        | _ => None
        end
      else None
  | _ => None
  end.

(** The primary-key pattern at the start of [s]: the words PRIMARY KEY,
    blanks, an opening parenthesis, a lazy run of characters (the group) and
    a closing parenthesis. The result is the group and the text
    after the match. The lazy group ends at the first closing parenthesis,
    which has to come before any newline. *)
Definition primary_key_pattern (s : string) : option (string * string) :=
  match Py.after_prefix "PRIMARY KEY" s with
  | None => None
  | Some s0 =>
      match snd (Py.span Py.isspace s0) with
      | String "(" s1 =>
          let (group, s2) :=
            Py.span (fun c => negb (Ascii.eqb c ")") && not_newline c) s1 in
          match s2 with
          | String ")" s3 => Some (group, s3)
          | _ => None
          end
      | _ => None
      end
  end.

(** [re.findall] for that pattern: the groups of the matches found from left
    to right, each search resuming where the last match ended. [skip] counts
    the characters still inside the last match. *)
Fixpoint findall_primary_key (s : string) (skip : nat) : list string :=
  match skip with
  | S skip' =>
      match s with
      | EmptyString => []
      | String _ s' => findall_primary_key s' skip'
      end
  | O =>
      match primary_key_pattern s with
      | Some (group, after) =>
          group ::
          match s with
          | EmptyString => []
          | String _ s' =>
              findall_primary_key s' (String.length s - String.length after - 1)
          end
      | None =>
          match s with
          | EmptyString => []
          | String _ s' => findall_primary_key s' 0
          end
      end
  end.

(** ** The table definition parser *)

Definition index_prefixes : list string :=
  ["PRIMARY KEY"; "KEY"; "UNIQUE KEY"; "CONSTRAINT"; "FOREIGN KEY"].

Definition split_create_table_statement (create_sql : string)
  : list string * list string :=
  (* Match even if missing semicolon or final ENGINE clause *)
  match re_search table_pattern create_sql with
  | None => ([], [])
  | Some (table_name, group2) =>
      let column_block := Py.strip group2 in
      let definitions := split_sql_definitions column_block in
      let '(column_defs, index_defs) :=
        fold_left
          (fun '(column_defs, index_defs) line =>
             let line_upper := Py.upper line in
             if Py.startswith_any line_upper index_prefixes
             then (column_defs, (index_defs ++ [line])%list)
             else ((column_defs ++ [line])%list, index_defs))
          definitions ([], []) in
      (* Compose CREATE TABLE (only columns) *)
      let create_stmt :=
        "CREATE TABLE `" ++ table_name ++ "` (" ++ nl ++ "    "
        ++ Py.join ("," ++ nl ++ "    ") column_defs ++ nl ++ ");" in
      (* Compose ALTER TABLE for indexes/constraints *)
      ([create_stmt],
       map (fun index => "ALTER TABLE `" ++ table_name ++ "` ADD " ++ index ++ ";")
           index_defs)
  end.

(** The two entry points of the [sqlparse] library that [parse_structure]
    calls: [sqlparse.split(text)] and
    [sqlparse.format(text, strip_comments=True)]. The library is not part of
    the repository; the parser is stated over any implementation. Either
    call returns a value or raises (the library has limits of its own, and
    raises SQLParseError past them). *)
Record SqlParse : Type := mkSqlParse {
  sqlparse_split : string -> result (list string);
  sqlparse_format : string -> result string
}.

(** The library on a single statement that holds no comment, no blank at the
    end of a line and no semicolon but a final one: the statement comes back
    trimmed, the formatted text unchanged. *)
Definition sqlparse_plain : SqlParse :=
  mkSqlParse
    (fun text => Ok (if Py.truthy (Py.strip text) then [Py.strip text] else []))
    (fun text => Ok text).

(** Writing a file, [open(path, "w")] followed by [write(text)]. Whether it
    succeeds is a fact of the machine the script runs on (a directory that
    is missing, a name that is too long, a disk that is full):
    [fs_write written path text] is the exception raised, if any, when
    [written] are the files written so far. What a failed write leaves of
    the file is not recorded. *)
Record FileSystem : Type := mkFileSystem {
  fs_write : list (string * string) -> string -> string -> option PyExc
}.

(** A machine on which every write succeeds. *)
Definition fs_writable : FileSystem := mkFileSystem (fun _ _ _ => None).

Definition Tables : Type := dict (dict ColumnInfo).

(** [tables[k]] on the [defaultdict(dict)]: a missing key is inserted with
    an empty dictionary. *)
Definition default_getitem (tables : Tables) (k : string)
  : Tables * dict ColumnInfo :=
  match dict_get tables k with
  | Some d => (tables, d)
  | None => (dict_set tables k [], [])
  end.

Fixpoint foldM {A B} (f : A -> B -> result A) (l : list B) (a : A) : result A :=
  match l with
  | [] => Ok a
  | b :: l' => a' <- f a b ;; foldM f l' a'
  end.

(** The first loop over the lines of the body. *)
Fixpoint collect_columns (lines : list string) (current : string)
    (columns : list string) : list string :=
  match lines with
  | [] => columns
  | line :: lines' =>
      let line := Py.strip line in
      if negb (Py.truthy line) then collect_columns lines' current columns
      else
        let current := current ++ " " ++ line in
        if Py.endswith line "," || Py.endswith line ")"
           || Py.contains line "PRIMARY KEY" || Py.contains line "KEY"
        then collect_columns lines' EmptyString
               (columns ++ [Py.rstrip_chars "," (Py.strip current)])%list
        else collect_columns lines' current columns
  end.

(** The body of the loop over [columns]. *)
Definition parse_column (table_name : string) (tables : Tables)
    (col_line : string) : result Tables :=
  if Py.startswith_any (Py.upper col_line) ["PRIMARY KEY"; "UNIQUE KEY"; "KEY"]
  then Ok tables
  else
    match column_pattern col_line with
    | None => Ok tables
    | Some (col_name, col_type, _, rest) =>
        info <- map_sql_type col_type ;;
        let info :=
          with_acceptNULL info (negb (Py.contains (Py.upper rest) "NOT NULL")) in
        let info :=
          if Py.contains (Py.upper rest) "NOT NULL"
          then with_required info true else info in
        let (tables, columns) := default_getitem tables table_name in
        Ok (dict_set tables table_name (dict_set columns col_name info))
    end.

(** The body of the loop over the keys of one PRIMARY KEY group. *)
Definition mark_primary (table_name : string) (tables : Tables) (k : string)
  : result Tables :=
  let (tables, columns) := default_getitem tables table_name in
  if dict_in columns k then
    let (tables, columns) := default_getitem tables table_name in
    info <- dict_getitem columns k ;;
    Ok (dict_set tables table_name (dict_set columns k (with_primary info true)))
  else Ok tables.

Definition primary_keys_of (group : string) : list string :=
  map (Py.strip_chars "` ") (Py.split group ",").

(** What [parse_structure] has built at some point: the tables, and the
    files written (path and content, in the order written). *)
Record ParseState : Type := mkParse {
  tables : Tables;
  files : list (string * string)
}.

(** How a run of the parser ends: with what it built, or with an exception
    and the files written until then, which stay where they are. *)
Inductive Run : Type :=
| Done (st : ParseState)
| Failed (e : PyExc) (written : list (string * string)).

Definition tables_of (r : Run) : result Tables :=
  match r with
  | Done st => Ok (tables st)
  | Failed e _ => Raise e
  end.

(** The body of the loop over the statements, from the call of
    [sqlparse.format] on: what is done with a matching statement once its
    file is written. *)
Definition parse_body (sp : SqlParse) (table_name body : string)
    (tables : Tables) : result Tables :=
  formatted <- sqlparse_format sp body ;;
  let lines := Py.splitlines formatted in
  let columns := collect_columns lines EmptyString [] in
  tables1 <- foldM (parse_column table_name) columns tables ;;
  let pk_match := findall_primary_key body 0 in
  foldM (fun tables group =>
           foldM (mark_primary table_name) (primary_keys_of group) tables)
        pk_match tables1.

(** The body of the loop over the statements. *)
Definition parse_statement (sp : SqlParse) (fs : FileSystem) (OUTDIR : string)
    (st : ParseState) (stmt : string) : Run :=
  match re_search create_pattern stmt with
  | None => Done st
  | Some (table_name, body) =>
      let path := (OUTDIR ++ "/" ++ table_name ++ ".sql")%string in
      let text := (Py.strip stmt ++ nl)%string in
      match fs_write fs (files st) path text with
      | Some e => Failed e (files st)
      | None =>
          let files1 := (files st ++ [(path, text)])%list in
          match parse_body sp table_name body (tables st) with
          | Ok tables2 => Done (mkParse tables2 files1)
          | Raise e => Failed e files1
          end
      end
  end.

Fixpoint parse_statements (sp : SqlParse) (fs : FileSystem) (OUTDIR : string)
    (statements : list string) (st : ParseState) : Run :=
  match statements with
  | [] => Done st
  | stmt :: statements' =>
      match parse_statement sp fs OUTDIR st stmt with
      | Done st' => parse_statements sp fs OUTDIR statements' st'
      | Failed e written => Failed e written
      end
  end.

Definition parse_structure (sp : SqlParse) (fs : FileSystem)
    (OUTDIR : string) (sql_text : string) : Run :=
  match sqlparse_split sp sql_text with
  | Ok statements => parse_statements sp fs OUTDIR statements (mkParse [] [])
  | Raise e => Failed e []
  end.

(** ** The schema differ ([normalize_type], [compare_and_generate_sql]) *)

Definition normalize_type (sql_type : string) : string :=
  let sql_type := Py.lower sql_type in
  let base :=
    if Py.contains sql_type "("
    then hd EmptyString (Py.split sql_type "(")
    else sql_type in
  Py.strip base.

(** One row of SHOW FULL COLUMNS; the differ reads [row[0]], [row[1]] and
    [row[3]]. *)
Record ActualRow : Type := mkRow {
  Field : string;
  Type_ : string;
  Null : string
}.

(** The order in which a [for] loop visits a Python [set] of strings. It
    depends on the hashes of the elements and is not fixed by the language;
    all that is known is that each element is visited once. *)
Record SetOrder : Type := mkSetOrder {
  set_iter : list string -> list string;
  set_iter_perm : forall l, Permutation (set_iter l) l
}.

Definition insertion_order : SetOrder :=
  mkSetOrder (fun l => l) (fun l => Permutation_refl l).

Definition reverse_order : SetOrder :=
  mkSetOrder (fun l => List.rev l) (fun l => Permutation_sym (Permutation_rev l)).

(** [set(l)]: the distinct elements of [l]. *)
Definition set_of (l : list string) : list string := nodup string_dec l.

(** [x in s]. *)
Definition set_in (x : string) (s : list string) : bool :=
  existsb (String.eqb x) s.

(** [a - b]. *)
Definition set_diff (a b : list string) : list string :=
  filter (fun x => negb (set_in x b)) a.

(** [spec.get("acceptNULL", True)] *)
Definition expected_nullable (spec : ColumnInfo) : bool :=
  match acceptNULL spec with Some b => b | None => true end.

(** The SQL type the differ renders for a target column. *)
Definition mysql_type_of (spec : ColumnInfo) : string :=
  let col_type := Py.upper (c_type spec) in
  let length := c_length spec in
  dict_get_or
    [ ("STRING",
       match length with
       | Some n => if (n =? 0)%Z then "text" else "varchar(" ++ Py.format_int n ++ ")"
       | None => "text"
       end);
      ("INTEGER", "int");
      ("BOOLEAN", "tinyint(1)");
      ("DATETIME", "datetime") ]
    col_type "text".

Definition column_def (col : string) (spec : ColumnInfo) : string :=
  let nullable := if expected_nullable spec then "NULL" else "NOT NULL" in
  "`" ++ col ++ "` " ++ mysql_type_of spec ++ " " ++ nullable.

Definition add_clause (item : string * ColumnInfo) : string :=
  "ADD COLUMN " ++ column_def (fst item) (snd item).

Definition modify_clause (item : string * ColumnInfo) : string :=
  "MODIFY COLUMN " ++ column_def (fst item) (snd item).

Definition drop_clause (col : string) : string :=
  "DROP COLUMN `" ++ col ++ "`".

(** [actual_col_map = {row[0]: row for row in actual_fields}] *)
Definition actual_col_map_of (actual_fields : list ActualRow) : dict ActualRow :=
  fold_left (fun m row => dict_set m (Field row) row) actual_fields [].

(** The test that decides a MODIFY for a target column found in the actual
    structure. *)
Definition differs (spec : ColumnInfo) (actual : ActualRow) : bool :=
  let actual_type := normalize_type (Type_ actual) in
  let expected_type := normalize_type (mysql_type_of spec) in
  let actual_nullable := String.eqb (Null actual) "YES" in
  negb (String.eqb actual_type expected_type)
  || negb (Bool.eqb actual_nullable (expected_nullable spec)).

(** The body of the loop over [target_json.items()]. *)
Definition compare_column (actual_col_map : dict ActualRow)
    (actual_cols : list string) (acc : list string * list string)
    (item : string * ColumnInfo) : list string * list string :=
  let '(adds, modifies) := acc in
  let '(col, spec) := item in
  if negb (set_in col actual_cols) then
    ((adds ++ [add_clause (col, spec)])%list, modifies)
  else
    match dict_get actual_col_map col with
    | Some actual =>
        if differs spec actual
        then (adds, (modifies ++ [modify_clause (col, spec)])%list)
        else (adds, modifies)
    | None => (adds, modifies)
    end.

Definition compare_and_generate_sql (o : SetOrder)
    (target_json : dict ColumnInfo) (actual_fields : list ActualRow)
  : list string * list string * list string :=
  let actual_col_map := actual_col_map_of actual_fields in
  let actual_cols := set_of (keys actual_col_map) in
  let expected_cols := set_of (keys target_json) in
  let '(adds, modifies) :=
    fold_left (compare_column actual_col_map actual_cols) target_json ([], []) in
  let drops :=
    map drop_clause (set_iter o (set_diff actual_cols expected_cols)) in
  (adds, modifies, drops).

(** The call in [main]: a table missing from the live database is diffed
    against no column at all. *)
Definition diff_table (o : SetOrder) (actual_struct : dict (list ActualRow))
    (table : string) (expected : dict ColumnInfo)
  : list string * list string * list string :=
  compare_and_generate_sql o expected (dict_get_or actual_struct table []).

(** The target columns the differ adds, those it checks against the actual
    structure, those it modifies, and the actual columns it drops. *)
Definition is_added (actual_fields : list ActualRow) (item : string * ColumnInfo)
  : bool :=
  negb (set_in (fst item) (set_of (keys (actual_col_map_of actual_fields)))).

Definition is_checked (actual_fields : list ActualRow) (item : string * ColumnInfo)
  : bool :=
  set_in (fst item) (set_of (keys (actual_col_map_of actual_fields))).

Definition is_modified (actual_fields : list ActualRow) (item : string * ColumnInfo)
  : bool :=
  is_checked actual_fields item
  && match dict_get (actual_col_map_of actual_fields) (fst item) with
     | Some actual => differs (snd item) actual
     | None => false
     end.

Definition added (target_json : dict ColumnInfo) (actual_fields : list ActualRow)
  : dict ColumnInfo :=
  filter (is_added actual_fields) target_json.

Definition checked (target_json : dict ColumnInfo) (actual_fields : list ActualRow)
  : dict ColumnInfo :=
  filter (is_checked actual_fields) target_json.

Definition modified (target_json : dict ColumnInfo) (actual_fields : list ActualRow)
  : dict ColumnInfo :=
  filter (is_modified actual_fields) target_json.

(** The actual-only columns, in the order of the actual structure (an
    actual name counts once, where it first occurs). *)
Definition actual_only (target_json : dict ColumnInfo)
    (actual_fields : list ActualRow) : list string :=
  filter (fun c => negb (set_in c (keys target_json)))
         (keys (actual_col_map_of actual_fields)).

Definition dropped (o : SetOrder) (target_json : dict ColumnInfo)
    (actual_fields : list ActualRow) : list string :=
  set_iter o (set_diff (set_of (keys (actual_col_map_of actual_fields)))
                       (set_of (keys target_json))).

Definition adds_of (r : list string * list string * list string) : list string :=
  fst (fst r).
Definition modifies_of (r : list string * list string * list string) : list string :=
  snd (fst r).
Definition drops_of (r : list string * list string * list string) : list string :=
  snd r.

(** Whether the target and the actual structure name the same columns, and
    whether a target column agrees with the actual column of its name. *)
Definition same_column_set (target_json : dict ColumnInfo)
    (actual_fields : list ActualRow) : bool :=
  forallb (fun c => set_in c (map Field actual_fields)) (keys target_json)
  && forallb (fun c => set_in c (keys target_json)) (map Field actual_fields).

Definition column_matches (actual_fields : list ActualRow)
    (item : string * ColumnInfo) : bool :=
  match dict_get (actual_col_map_of actual_fields) (fst item) with
  | Some actual =>
      String.eqb (normalize_type (Type_ actual))
                 (normalize_type (mysql_type_of (snd item)))
      && Bool.eqb (String.eqb (Null actual) "YES") (expected_nullable (snd item))
  | None => false
  end.

(** Whether every character of [s] satisfies [p]. *)
Fixpoint all_chars (p : ascii -> bool) (s : string) : bool :=
  match s with
  | EmptyString => true
  | String c s' => p c && all_chars p s'
  end.

(** The reverse mapping applied to the forward mapping of a raw type. *)
Definition round_trip (raw : string) : result string :=
  info <- map_sql_type raw ;; Ok (mysql_type_of info).

(** A character that the splitter only copies when it is outside quotes:
    no quote, no parenthesis, no comma; and one that it only copies inside
    a parenthesis group: no quote, no parenthesis. *)
Definition no_quote_or_paren (c : ascii) : bool :=
  negb (is_quote c) && negb (Ascii.eqb c "(") && negb (Ascii.eqb c ")").

Definition ordinary (c : ascii) : bool :=
  no_quote_or_paren c && negb (Ascii.eqb c ",").

(** The statement of the specification's parsing scenario, on one line and
    with no semicolon, and the same statement the way mysqldump writes it:
    one definition per line and a final semicolon. *)
Definition scenario_statement : string :=
  "CREATE TABLE `t` (`id` int NOT NULL, `n` varchar(10) NULL, PRIMARY KEY (`id`))".

Definition dumped_body : string :=
  nl ++ "  `id` int NOT NULL," ++ nl ++ "  `n` varchar(10) NULL," ++ nl
  ++ "  PRIMARY KEY (`id`)" ++ nl.

Definition dumped_statement : string :=
  "CREATE TABLE `t` (" ++ dumped_body ++ ");".

Definition scenario_columns : dict ColumnInfo :=
  [ ("id", mkInfo "INTEGER" None (Some false) (Some true) (Some true));
    ("n", mkInfo "STRING" (Some 10%Z) (Some true) None None) ].

Definition not_semicolon (c : ascii) : bool := negb (Ascii.eqb c ";").

(** The lines of a body that the first loop of [parse_structure] looks at:
    trimmed, the blank ones left out; and that loop run on such lines. *)
Definition kept_lines (lines : list string) : list string :=
  filter Py.truthy (map Py.strip lines).

Fixpoint collect_kept (kept : list string) (current : string)
    (columns : list string) : list string :=
  match kept with
  | [] => columns
  | line :: kept' =>
      let current := current ++ " " ++ line in
      if Py.endswith line "," || Py.endswith line ")"
         || Py.contains line "PRIMARY KEY" || Py.contains line "KEY"
      then collect_kept kept' EmptyString
             (columns ++ [Py.rstrip_chars "," (Py.strip current)])%list
      else collect_kept kept' current columns
  end.

Definition scenario_lines : list string :=
  ["`id` int NOT NULL,"; "`n` varchar(10) NULL,"; "PRIMARY KEY (`id`)"].

(** A text that is empty or starts with a character outside [p]. *)
Definition starts_outside (p : ascii -> bool) (s : string) : bool :=
  match s with
  | EmptyString => true
  | String c _ => negb (p c)
  end.

Definition is_rparen (c : ascii) : bool := Ascii.eqb c ")".

(** A length of more digits than [int] converts. *)
Definition long_digits : string := Py.mul "9" (S int_max_str_digits).

(** Whether [int] converts the length that the pattern of [map_sql_type]
    finds in [sql_type], when it finds one. *)
Definition length_fits (sql_type : string) : bool :=
  match re_sql_type sql_type with
  | Some (_, Some digits) => Nat.leb (String.length digits) int_max_str_digits
  | _ => true
  end.





(** The column that a clause of the differ names: the text between the
    first backtick of the clause and the last. *)
Definition not_backtick (c : ascii) : bool := negb (is_backtick c).

Definition clause_column (clause : string) : string :=
  match snd (Py.span not_backtick clause) with
  | String _ after =>
      match snd (Py.span not_backtick (Py.rev_string after)) with
      | String _ name_rev => Py.rev_string name_rev
      | EmptyString => EmptyString
      end
  | EmptyString => EmptyString
  end.

Definition columns_of (clauses : list string) : list string :=
  map clause_column clauses.

(** ** The index parser ([parse_indexes]) *)

(** [s.split(sep)] for a separator of several characters: the pieces between
    the occurrences of [sep] found from left to right, none overlapping.
    [skip] counts the characters of the last occurrence still to pass. *)
Fixpoint split_str_from (sep cur s : string) (skip : nat) : list string :=
  match s with
  | EmptyString => [cur]
  | String c s' =>
      match skip with
      | S skip' => split_str_from sep cur s' skip'
      | O =>
          if Py.startswith s sep
          then cur :: split_str_from sep EmptyString s' (String.length sep - 1)
          else split_str_from sep (cur ++ str1 c) s' 0
      end
  end.

Definition split_str (s sep : string) : list string :=
  split_str_from sep EmptyString s 0.

(** The pattern of the ALTER TABLE statements, with DOTALL and IGNORECASE,
    at the start of [s]: the words ALTER TABLE and one blank, an optional
    backtick, one or more word characters (group 1), an optional backtick,
    one or more blanks, then the word ADD, a blank and at least one more
    character, to the end of the text (group 2, from ADD on). *)
Definition alter_pattern (s : string) : option (string * string) :=
  match after_prefix_ci "ALTER TABLE " s with
  | None => None
  | Some s0 =>
      let (name, s1) := Py.span Py.isword (skip_backtick s0) in
      if Py.truthy name then
        let (blanks, s2) := Py.span Py.isspace (skip_backtick s1) in
        if Py.truthy blanks then
          match after_prefix_ci "ADD " s2 with
          | Some (String _ _) => Some (name, s2)
          | _ => None
          end
        else None
      else None
  end.

(** The pattern of one index action, matched at the start of [action] by
    [re.match] with no flag: optionally the word UNIQUE and one or more
    blanks (group 1), the word KEY and a blank, an optional backtick, one or
    more word characters (group 2), an optional backtick, a blank, an
    opening parenthesis, a lazy run of one or more characters (group 3) and
    a closing parenthesis. *)
Definition index_pattern (action : string)
  : option (option string * string * string) :=
  let (is_unique, s0) :=
    match Py.after_prefix "UNIQUE" action with
    | Some r =>
        let (blanks, r') := Py.span Py.isspace r in
        if Py.truthy blanks then (Some ("UNIQUE" ++ blanks), r')
        else (None, action)
    | None => (None, action)
    end in
  match Py.after_prefix "KEY " s0 with
  | None => None
  | Some s1 =>
      let (name, s2) := Py.span Py.isword (skip_backtick s1) in
      if Py.truthy name then
        match Py.after_prefix " (" (skip_backtick s2) with
        | Some (String c0 s3) =>
            if not_newline c0 then
              let (more, s4) :=
                Py.span (fun c => negb (Ascii.eqb c ")") && not_newline c) s3 in
              match s4 with
              | String ")" _ => Some (is_unique, name, String c0 more)
              | _ => None
              end
            else None
        | _ => None
        end
      else None
  end.

(** One entry of the index file: the JSON object with the key [raw] and,
    when the action has the shape of a key, [name], [columns] and [unique]. *)
Record IndexInfo : Type := mkIndex {
  idx_raw : string;
  idx_name : option string;
  idx_columns : option (list string);
  idx_unique : option bool
}.

(** The body of the loop over [actions.split("ADD ")]; [index_map] is a
    [defaultdict(list)]. *)
Definition parse_action (table_name : string) (index_map : dict (list IndexInfo))
    (action : string) : dict (list IndexInfo) :=
  let action := Py.strip_chars ",;" (Py.strip action) in
  if negb (Py.truthy action) then index_map
  else
    let index_info :=
      match index_pattern action with
      | Some (is_unique, name, cols) =>
          mkIndex action (Some name)
            (Some (map (Py.strip_chars "` ") (Py.split cols ",")))
            (Some (match is_unique with Some u => Py.truthy u | None => false end))
      | None => mkIndex action None None None
      end in
    dict_set index_map table_name
      (dict_get_or index_map table_name [] ++ [index_info])%list.

(** The body of the loop over the statements. *)
Definition parse_index_statement (index_map : dict (list IndexInfo))
    (stmt : string) : dict (list IndexInfo) :=
  match re_search alter_pattern stmt with
  | None => index_map
  | Some (table_name, actions) =>
      fold_left (parse_action table_name) (split_str actions "ADD ") index_map
  end.

Definition parse_indexes (sp : SqlParse) (sql_text : string)
  : result (dict (list IndexInfo)) :=
  statements <- sqlparse_split sp sql_text ;;
  Ok (fold_left parse_index_statement statements []).

(** ** The loop of [run_mysqldump] over the lines of the structure file *)

(** [s.replace(a, b)] for two characters. *)
Fixpoint replace_char (a b : ascii) (s : string) : string :=
  match s with
  | EmptyString => EmptyString
  | String c s' => String (if Ascii.eqb c a then b else c) (replace_char a b s')
  end.

(** What is done with [current_line] when a statement ends. *)
Definition keep_table (current_line : string) (tables : list string)
  : list string :=
  let final_line := replace_char "010" " " current_line in
  if Py.startswith final_line "CREATE TABLE "
  then (tables ++ [final_line])%list
  else tables.

(** The loop over the lines of the file, each with its end of line. *)
Fixpoint read_lines (lines : list string) (current_line : string)
    (tables : list string) : list string * string :=
  match lines with
  | [] => (tables, current_line)
  | line :: lines' =>
      if Py.endswith line (";" ++ nl)
      then read_lines lines' EmptyString (keep_table current_line tables)
      else read_lines lines' (current_line ++ Py.strip line) tables
  end.

Definition dumped_tables (lines : list string) : list string :=
  let (tables, current_line) := read_lines lines EmptyString [] in
  if negb (String.eqb current_line EmptyString)
  then keep_table current_line tables
  else tables.

(** [indexes], one list of statements per table, and the text written to
    the index file. *)
Definition dumped_indexes (lines : list string) : list (list string) :=
  map (fun line => snd (split_create_table_statement line)) (dumped_tables lines).

Definition indexes_file (lines : list string) : string :=
  String.concat EmptyString
    (map (fun ndx => ndx ++ nl) (List.concat (dumped_indexes lines))).

(** ** The update script of one table ([main] of the differ) *)

(** [bool(l)] for a list. *)
Definition nonempty {A} (l : list A) : bool :=
  match l with [] => false | _ :: _ => true end.

Definition alter_line (table cmd : string) : string :=
  "ALTER TABLE `" ++ table ++ "` " ++ cmd ++ ";" ++ nl.

Definition write_all (table : string) (cmds : list string) : string :=
  String.concat EmptyString (map (alter_line table) cmds).

(** The text written to the file of [table]: the note when the table is not
    in the live structure, then the adds and the modifies, then the drops.
    The statement that creates the missing table with its one column
    [dummy_column] goes to the database, not to the file, and the file
    of the dump that the code opens before it writes the note is taken to
    be there. *)
Definition table_script (o : SetOrder) (actual_struct : dict (list ActualRow))
    (table : string) (expected : dict ColumnInfo) : string :=
  let note :=
    if negb (dict_in actual_struct table)
    then "// Table " ++ table ++ " created with dummy_column" ++ nl
    else EmptyString in
  let '(adds, modifies, drops) :=
    compare_and_generate_sql o expected (dict_get_or actual_struct table []) in
  let changes :=
    if nonempty adds || nonempty modifies
    then write_all table (adds ++ modifies)
    else EmptyString in
  let removals :=
    if nonempty drops then write_all table drops else EmptyString in
  note ++ changes ++ removals.

(** ** Notions used to state further properties of the code *)

(** The four canonical types. *)
Definition canonical_types : list string :=
  ["STRING"; "INTEGER"; "DATETIME"; "BOOLEAN"].

Definition not_lparen (c : ascii) : bool := negb (Ascii.eqb c "(").

(** A character that lowercasing leaves as it is. *)
Definition is_lowered (c : ascii) : bool := Ascii.eqb (Py.lower_char c) c.

(** How many times the character [a] occurs in [s]. *)
Fixpoint count_char (a : ascii) (s : string) : nat :=
  match s with
  | EmptyString => 0
  | String c s' => (if Ascii.eqb c a then 1 else 0) + count_char a s'
  end.

(** The test of [split_create_table_statement] on one definition. *)
Definition is_index_definition (line : string) : bool :=
  Py.startswith_any (Py.upper line) index_prefixes.


(** Whether every value of a dictionary satisfies [p]. *)
Definition dict_all {V} (p : V -> bool) (d : dict V) : bool :=
  forallb (fun kv => p (snd kv)) d.

(** A column as [parse_structure] stores it: a canonical type, a length
    that is absent or not negative, acceptNULL present, and required
    present (and true) exactly when acceptNULL is false. *)
Definition column_ok (i : ColumnInfo) : bool :=
  set_in (c_type i) canonical_types
  && match c_length i with Some n => (0 <=? n)%Z | None => true end
  && match acceptNULL i, required i with
     | Some true, None => true
     | Some false, Some true => true
     | _, _ => false
     end.

Definition tables_ok (t : Tables) : bool := dict_all (dict_all column_ok) t.

(** The column [c] of the table [table], and a column without its primary
    mark. *)
Definition column_of (t : Tables) (table c : string) : option ColumnInfo :=
  dict_get (dict_get_or t table []) c.

Definition forget_primary (i : ColumnInfo) : ColumnInfo :=
  mkInfo (c_type i) (c_length i) (acceptNULL i) (required i) None.


(** The entry [parse_indexes] makes of a trimmed action. *)
Definition index_info_of (action : string) : IndexInfo :=
  match index_pattern action with
  | Some (is_unique, name, cols) =>
      mkIndex action (Some name)
        (Some (map (Py.strip_chars "` ") (Py.split cols ",")))
        (Some (match is_unique with Some u => Py.truthy u | None => false end))
  | None => mkIndex action None None None
  end.

(** An entry of the index file as the code builds it: its raw text is not
    empty and has no comma or semicolon at either end, and the keys name,
    columns and unique are all there or all missing. *)
Definition index_ok (i : IndexInfo) : bool :=
  Py.truthy (idx_raw i)
  && String.eqb (Py.strip_chars ",;" (idx_raw i)) (idx_raw i)
  && match idx_name i, idx_columns i, idx_unique i with
     | Some _, Some _, Some _ => true
     | None, None, None => true
     | _, _, _ => false
     end.

(** What the differ reads of a target column: the type, the length and
    the nullability, where a missing [acceptNULL] counts as true. *)
Definition as_read (spec : ColumnInfo) : ColumnInfo :=
  mkInfo (c_type spec) (c_length spec) (Some (expected_nullable spec)) None None.

Definition map_values {V W} (f : V -> W) (d : dict V) : dict W :=
  map (fun kv => (fst kv, f (snd kv))) d.

(** The note that [main] writes for a table missing from the database, and
    the row that SHOW FULL COLUMNS has for the column of the stub table. *)
Definition missing_note (table : string) : string :=
  "// Table " ++ table ++ " created with dummy_column" ++ nl.

Definition dummy_row (type_ null : string) : ActualRow :=
  mkRow "dummy_column" type_ null.

(** ** The JSON files handed from one script to the other *)

(** What [write_jsons] writes: one file for each table, named after it, and
    the file of the indexes. The text that [json.dump] makes of a value is
    not modelled; a file holds the value. *)
Inductive JsonValue : Type :=
  | TableJson (fields : dict ColumnInfo)
  | IndexesJson (indexes : dict (list IndexInfo)).

Definition json_path (OUTDIR table : string) : string :=
  OUTDIR ++ "/" ++ table ++ ".json".

Definition indexes_json_path (OUTDIR : string) : string :=
  OUTDIR ++ "/all-tables-indexes.json".

Definition write_jsons (OUTDIR : string) (structure : Tables)
    (indexes : dict (list IndexInfo)) : list (string * JsonValue) :=
  (map (fun item => (json_path OUTDIR (fst item), TableJson (snd item))) structure
   ++ [(indexes_json_path OUTDIR, IndexesJson indexes)])%list.

Definition not_slash (c : ascii) : bool := negb (Ascii.eqb c "/").
Definition not_dot (c : ascii) : bool := negb (Ascii.eqb c ".").

(** [glob(base_path + "/*.json")] over the entries of the directory
    [base_path], in the order in which the directory lists them: the names
    that end with .json and do not start with a dot. [base_path] is taken to
    hold no character that [glob] reads as a pattern. *)
Definition glob_json (base_path : string) (entries : list string) : list string :=
  map (fun name => base_path ++ "/" ++ name)
      (filter (fun name => Py.endswith name ".json"
                           && negb (Py.startswith name "."))
              entries).

(** [Path(f).stem] for a path as [glob] returns it: the last component,
    without its last suffix when it has one. *)
Definition basename (f : string) : string :=
  Py.rev_string (fst (Py.span not_slash (Py.rev_string f))).

Definition stem (f : string) : string :=
  let name := basename f in
  let (suffix_rev, rest) := Py.span not_dot (Py.rev_string name) in
  match rest with
  | String _ stem_rev =>
      if Py.truthy suffix_rev && Py.truthy stem_rev
      then Py.rev_string stem_rev
      else name
  | EmptyString => name
  end.

(** [load_json_tables]: [load f] is what [json.load(open(f))] gives. *)
Definition load_json_tables {V} (base_path : string) (entries : list string)
    (load : string -> V) : dict V :=
  fold_left (fun d f => dict_set d (stem f) (load f))
            (filter (fun f => negb (Py.endswith f "indexes.json"))
                    (glob_json base_path entries))
            [].
(** ** The statement splitter refines the lexer of the specification *)

Lemma append_assoc (a b c : string) : (a ++ b) ++ c = a ++ (b ++ c).
Proof. induction a as [|x a IH]; simpl; [reflexivity | now rewrite IH]. Qed.

Lemma finish_final st :
  finish st = (parts st ++ final_definition (buffer st))%list.
Proof.
  unfold finish, final_definition.
  destruct (Py.truthy (Py.strip (buffer st))); [reflexivity | now rewrite app_nil_r].
Qed.

Lemma str1_eqb (a b : ascii) : String.eqb (str1 a) (str1 b) = Ascii.eqb a b.
Proof. unfold str1. simpl. now destruct (Ascii.eqb a b). Qed.

Lemma closing_quote_is_quote state q :
  closing_quote state = Some q -> is_quote q = true.
Proof. destruct state; intros [= <-]; reflexivity. Qed.

Ltac use_IH IH st' :=
  rewrite (IH _ _ st'); [ | simpl in *; lia | now split ];
  cbn [parts parens buffer]; rewrite ?append_assoc, <- ?app_assoc; try reflexivity.

Lemma split_loop_refines (n : nat) :
  forall s st state,
    String.length s <= n ->
    encodes st state ->
    finish (split_loop s st)
    = (parts st ++ spec_split s state (parens st) (buffer st))%list.
Proof.
  induction n as [|n IH]; intros s st state Hlen Henc.
  - destruct s; [apply finish_final | simpl in Hlen; lia].
  - destruct s as [|c rest]; [apply finish_final|].
    simpl in Hlen. assert (Hrest : String.length rest <= n) by lia.
    destruct st as [ps buf d iq qc]. unfold encodes in Henc.
    cbn [split_loop spec_split in_quotes quote_char buffer parens parts].
    destruct (closing_quote state) as [q|] eqn:Hq;
      cbn [in_quotes quote_char] in Henc; destruct Henc as [-> ->].
    + (* inside a quoted run that q closes *)
      pose proof (closing_quote_is_quote _ _ Hq) as Hqq.
      rewrite str1_eqb, (Ascii.eqb_sym q c). cbn [negb].
      destruct (Ascii.eqb c q) eqn:E1.
      * apply Ascii.eqb_eq in E1; subst c. rewrite Hqq.
        assert (Hc : Ascii.eqb q "," = false)
          by (destruct state; inversion Hq; reflexivity).
        assert (Hp : (if Ascii.eqb q "(" then (d + 1)%Z
                      else if Ascii.eqb q ")" then (d - 1)%Z else d) = d)
          by (destruct state; inversion Hq; reflexivity).
        destruct rest as [|c' rest'].
        { cbn [negb andb]. rewrite Hc, Hp. cbn [andb]. apply finish_final. }
        rewrite str1_eqb.
        destruct (Ascii.eqb c' q) eqn:E2; cbn [negb andb].
        -- apply Ascii.eqb_eq in E2; subst c'.
           rewrite (IH rest' _ state);
             [ | simpl in *; lia | unfold encodes; now rewrite Hq ].
           cbn [parts parens buffer]. now rewrite append_assoc.
        -- rewrite Hc, Hp. cbn [andb]. use_IH IH normal.
      * assert (Henc : forall b p, encodes (mkSplit p b d true (str1 q)) state)
          by (intros; unfold encodes; now rewrite Hq).
        destruct (is_quote c); cbn [negb andb];
          rewrite (IH rest _ state); auto.
    + (* outside quotes *)
      unfold is_quote.
      destruct (Ascii.eqb c "'") eqn:E1.
      { apply Ascii.eqb_eq in E1; subst c. destruct state; try discriminate.
        cbn -[split_loop spec_split Py.strip]. use_IH IH inSingleQuote. }
      destruct (Ascii.eqb c "034") eqn:E2.
      { apply Ascii.eqb_eq in E2; subst c. destruct state; try discriminate.
        cbn -[split_loop spec_split Py.strip]. use_IH IH inDoubleQuote. }
      cbn [orb negb andb].
      destruct (Ascii.eqb c "(") eqn:E3.
      { apply Ascii.eqb_eq in E3; subst c.
        cbn -[split_loop spec_split Py.strip]. use_IH IH normal. }
      destruct (Ascii.eqb c ")") eqn:E4.
      { apply Ascii.eqb_eq in E4; subst c.
        cbn -[split_loop spec_split Py.strip]. use_IH IH normal. }
      destruct (Ascii.eqb c ",") eqn:E5; cbn [andb].
      * destruct (d =? 0)%Z eqn:E6; use_IH IH normal.
      * use_IH IH normal.
Qed.

Lemma split_refines s : split_sql_definitions s = spec_split_definitions s.
Proof.
  unfold split_sql_definitions, spec_split_definitions.
  now rewrite (split_loop_refines (String.length s) s _ normal).
Qed.

(** Inside a quoted run nothing but the quote that opened it is looked at. *)
Lemma spec_split_quoted_run state q inner rest depth buf :
  closing_quote state = Some q ->
  all_chars (fun c => negb (Ascii.eqb c q)) inner = true ->
  spec_split (inner ++ rest) state depth buf
  = spec_split rest state depth (buf ++ inner).
Proof.
  intros Hq. revert buf. induction inner as [|c inner IH]; intros buf Hall.
  - simpl. f_equal. induction buf; simpl; congruence.
  - simpl in Hall. apply andb_true_iff in Hall. destruct Hall as [Hc Hall].
    apply negb_true_iff in Hc.
    change ((String c inner ++ rest)) with (String c (inner ++ rest)).
    cbn [spec_split]. rewrite Hq, Hc, (IH _ Hall).
    rewrite append_assoc. reflexivity.
Qed.

Lemma rstrip_by_keeps (p : ascii -> bool) (s : string) (c : ascii) :
  p c = false -> Py.rstrip_by p (s ++ str1 c) = s ++ str1 c.
Proof.
  intros Hc. induction s as [|x s IH]; simpl.
  - now rewrite Hc.
  - rewrite IH. destruct (s ++ str1 c) eqn:E; [|reflexivity].
    destruct s; discriminate.
Qed.

Lemma strip_between (x y : ascii) (inner : string) :
  Py.isspace x = false -> Py.isspace y = false ->
  Py.strip (String x (inner ++ str1 y)) = String x (inner ++ str1 y).
Proof.
  intros Hx Hy. unfold Py.strip, Py.strip_by. cbn [Py.lstrip_by]. rewrite Hx.
  change (String x (inner ++ str1 y)) with (String x inner ++ str1 y).
  now apply rstrip_by_keeps.
Qed.

Lemma is_quote_not_space q : is_quote q = true -> Py.isspace q = false.
Proof.
  unfold is_quote. intros Hq. apply orb_true_iff in Hq.
  destruct Hq as [H|H]; apply Ascii.eqb_eq in H; subst; reflexivity.
Qed.

Lemma append_nil_r (s : string) : s ++ EmptyString = s.
Proof. induction s; simpl; congruence. Qed.

(** Outside quotes, a character that is no quote and no parenthesis is
    copied, and so is a comma when the depth is not 0. *)
Lemma spec_split_copies inner rest depth buf :
  all_chars no_quote_or_paren inner = true ->
  depth <> 0%Z \/ all_chars ordinary inner = true ->
  spec_split (inner ++ rest) normal depth buf
  = spec_split rest normal depth (buf ++ inner).
Proof.
  revert buf. induction inner as [|c inner IH]; intros buf Hall Hd.
  - simpl. now rewrite append_nil_r.
  - simpl in Hall. apply andb_true_iff in Hall. destruct Hall as [Hc Hall].
    unfold no_quote_or_paren, is_quote in Hc.
    rewrite !andb_true_iff, !negb_true_iff, orb_false_iff in Hc.
    destruct Hc as [[[Hq1 Hq2] Hp1] Hp2].
    change (String c inner ++ rest) with (String c (inner ++ rest)).
    cbn [spec_split closing_quote]. rewrite Hq1, Hq2, Hp1, Hp2.
    assert (Hcomma : Ascii.eqb c "," && (depth =? 0)%Z = false).
    { destruct Hd as [Hd|Hd].
      - apply Z.eqb_neq in Hd. rewrite Hd. apply andb_false_r.
      - simpl in Hd. unfold ordinary in Hd.
        rewrite !andb_true_iff, negb_true_iff in Hd.
        destruct Hd as [[_ Hd] _]. now rewrite Hd. }
    rewrite Hcomma, IH, append_assoc; [reflexivity | assumption |].
    destruct Hd as [Hd|Hd]; [now left | right].
    simpl in Hd. now apply andb_true_iff in Hd.
Qed.

Lemma ordinary_no_quote_or_paren s :
  all_chars ordinary s = true -> all_chars no_quote_or_paren s = true.
Proof.
  induction s as [|c s IH]; simpl; [reflexivity|].
  unfold ordinary at 1. rewrite !andb_true_iff. intros [[H _] Hs].
  split; [assumption | now apply IH].
Qed.

(** ** The statement splitter: the property of the specification *)

(** C1. The splitter is the lexer of the specification: it cuts at the
    commas met outside quotes at depth 0 and nowhere else, a quoted run ends
    at the quote that opened it, and that quote doubled stays in the run.
    So a quoted run is one definition whatever commas and parentheses it
    holds, a parenthesis group is one definition whatever commas it holds,
    and a comma between two plain texts cuts them apart; the text of the
    example gives two definitions, the first one with the comma of the
    quoted default, and so do an enum list and a default that is a function
    call. *)
Theorem splitter_is_quote_and_paren_aware
    (q : ascii) (quoted grouped left right : string) :
  is_quote q = true ->
  all_chars (fun c => negb (Ascii.eqb c q)) quoted = true ->
  all_chars no_quote_or_paren grouped = true ->
  all_chars ordinary left = true ->
  all_chars ordinary right = true ->
  (forall definition_block,
      split_sql_definitions definition_block
      = spec_split_definitions definition_block)
  /\ split_sql_definitions (String q (quoted ++ str1 q))
     = [String q (quoted ++ str1 q)]
  /\ split_sql_definitions (String "(" (grouped ++ ")"))
     = [String "(" (grouped ++ ")")]
  /\ split_sql_definitions (left ++ String "," right)
     = Py.strip left :: final_definition right
  /\ split_sql_definitions "`a` varchar(10) DEFAULT 'x,y', `b` int"
     = ["`a` varchar(10) DEFAULT 'x,y'"; "`b` int"]
  /\ split_sql_definitions "`a` text DEFAULT 'it''s, (ok', `b` int"
     = ["`a` text DEFAULT 'it''s, (ok'"; "`b` int"]
  /\ split_sql_definitions "`a` enum('x','y','z') NOT NULL, `b` int"
     = ["`a` enum('x','y','z') NOT NULL"; "`b` int"]
  /\ split_sql_definitions "`d` datetime DEFAULT (NOW()), KEY `k` (`a`,`d`)"
     = ["`d` datetime DEFAULT (NOW())"; "KEY `k` (`a`,`d`)"].
Proof.
  intros Hq Hquoted Hgrouped Hleft Hright. split; [exact split_refines|].
  split; [|split; [|split; [|repeat split; vm_compute; reflexivity]]].
  - rewrite split_refines. unfold spec_split_definitions.
    assert (Hstate : exists state,
               closing_quote state = Some q
               /\ spec_split (String q (quoted ++ str1 q)) normal 0 EmptyString
                  = spec_split (quoted ++ str1 q) state 0 (str1 q)).
    { unfold is_quote in Hq. apply orb_true_iff in Hq.
      destruct Hq as [H|H]; apply Ascii.eqb_eq in H; subst q.
      - exists inSingleQuote. split; reflexivity.
      - exists inDoubleQuote. split; reflexivity. }
    destruct Hstate as (state & Hc & ->).
    rewrite (spec_split_quoted_run state q quoted (str1 q) 0 (str1 q) Hc Hquoted).
    unfold str1 at 1. cbn [spec_split]. rewrite Hc, Ascii.eqb_refl.
    unfold final_definition.
    change (str1 q ++ quoted) with (String q quoted).
    change (String q quoted ++ str1 q) with (String q (quoted ++ str1 q)).
    rewrite (strip_between q q quoted) by now apply is_quote_not_space.
    reflexivity.
  - rewrite split_refines. unfold spec_split_definitions.
    cbn [spec_split closing_quote Ascii.eqb Bool.eqb].
    change (0 + 1)%Z with 1%Z.
    rewrite (spec_split_copies grouped ")" 1 _ Hgrouped) by (left; discriminate).
    cbn. unfold final_definition.
    change (String "(" grouped ++ ")") with (String "(" (grouped ++ str1 ")")).
    rewrite (strip_between "(" ")" grouped) by reflexivity. reflexivity.
  - rewrite split_refines. unfold spec_split_definitions.
    rewrite (spec_split_copies left (String "," right) 0 EmptyString
               (ordinary_no_quote_or_paren _ Hleft) (or_intror Hleft)).
    cbn [spec_split closing_quote Ascii.eqb Bool.eqb andb Z.eqb append].
    f_equal.
    rewrite <- (append_nil_r right) at 1.
    rewrite (spec_split_copies right EmptyString 0 EmptyString
               (ordinary_no_quote_or_paren _ Hright) (or_intror Hright)).
    reflexivity.
Qed.

Lemma splitter_is_quote_and_paren_aware_witness :
  split_sql_definitions (String "'" ("a,b),(c" ++ str1 "'")) = ["'a,b),(c'"]
  /\ split_sql_definitions (String "(" ("`a`,`d`" ++ ")")) = ["(`a`,`d`)"]
  /\ split_sql_definitions ("`a` int " ++ String "," " `b` text")
     = ["`a` int"; "`b` text"].
Proof.
  destruct (splitter_is_quote_and_paren_aware "'" "a,b),(c" "`a`,`d`"
              "`a` int " " `b` text" eq_refl eq_refl eq_refl eq_refl eq_refl)
    as (_ & H1 & H2 & H3 & _).
  exact (conj H1 (conj H2 H3)).
Defined.

(** ** Text *)

Lemma span_append (p : ascii -> bool) (a : string) (c : ascii) (rest : string) :
  all_chars p a = true -> p c = false ->
  Py.span p (a ++ String c rest) = (a, String c rest).
Proof.
  intros Ha Hc. induction a as [|x a IH]; simpl in *.
  - now rewrite Hc.
  - apply andb_true_iff in Ha. destruct Ha as [Hx Ha].
    now rewrite Hx, (IH Ha).
Qed.

Lemma span_all_end (p : ascii -> bool) (a : string) :
  all_chars p a = true -> Py.span p a = (a, EmptyString).
Proof.
  intros Ha. induction a as [|x a IH]; simpl in *; [reflexivity|].
  apply andb_true_iff in Ha. destruct Ha as [Hx Ha].
  now rewrite Hx, (IH Ha).
Qed.

Lemma span_fst_all (p : ascii -> bool) (s : string) :
  all_chars p (fst (Py.span p s)) = true.
Proof.
  induction s as [|x s IH]; simpl; [reflexivity|].
  destruct (p x) eqn:Hx; [|reflexivity].
  destruct (Py.span p s). simpl in *. now rewrite Hx.
Qed.

Lemma rev_string_app (a b : string) :
  Py.rev_string (a ++ b) = Py.rev_string b ++ Py.rev_string a.
Proof.
  induction a as [|c a IH]; cbn [append Py.rev_string].
  - now rewrite append_nil_r.
  - now rewrite IH, append_assoc.
Qed.

Lemma rev_string_involutive (s : string) : Py.rev_string (Py.rev_string s) = s.
Proof.
  induction s as [|c s IH]; [reflexivity|].
  cbn [Py.rev_string]. rewrite rev_string_app, IH. reflexivity.
Qed.

Lemma all_chars_app (p : ascii -> bool) (a b : string) :
  all_chars p (a ++ b) = all_chars p a && all_chars p b.
Proof.
  induction a as [|c a IH]; [reflexivity|].
  cbn [append all_chars]. now rewrite IH, andb_assoc.
Qed.

Lemma all_chars_rev (p : ascii -> bool) (s : string) :
  all_chars p (Py.rev_string s) = all_chars p s.
Proof.
  induction s as [|c s IH]; [reflexivity|].
  cbn [Py.rev_string all_chars]. rewrite all_chars_app, IH.
  cbn [all_chars]. rewrite andb_true_r. apply andb_comm.
Qed.

Lemma truthy_rev (s : string) : Py.truthy (Py.rev_string s) = Py.truthy s.
Proof.
  destruct s as [|c s]; [reflexivity|]. cbn [Py.rev_string].
  destruct (Py.rev_string s); reflexivity.
Qed.

Lemma all_chars_weaken (p q : ascii -> bool) (s : string) :
  (forall c, p c = true -> q c = true) ->
  all_chars p s = true -> all_chars q s = true.
Proof.
  intros Hpq. induction s as [|c s IH]; [reflexivity|].
  cbn [all_chars]. intros H. apply andb_true_iff in H. destruct H as [Hc Hs].
  now rewrite (Hpq c Hc), (IH Hs).
Qed.

(** ** Decimal numbers *)

Lemma isdigit_uint_of_char c u :
  Py.isdigit c = true -> exists u', uint_of_char c (Some u) = Some u'.
Proof.
  destruct c as [[|] [|] [|] [|] [|] [|] [|] [|]]; intros H;
    try discriminate H; simpl; eexists; reflexivity.
Qed.

Lemma digits_uint_of_string s :
  all_chars Py.isdigit s = true -> exists u, NilEmpty.uint_of_string s = Some u.
Proof.
  induction s as [|c s IH]; simpl; intros H.
  - now exists Nil.
  - apply andb_true_iff in H. destruct H as [Hc Hs].
    destruct (IH Hs) as [u ->]. now apply isdigit_uint_of_char.
Qed.

Lemma py_int_returns s :
  Py.truthy s = true -> all_chars Py.isdigit s = true ->
  String.length s <= int_max_str_digits ->
  returns (py_int s).
Proof.
  intros Ht Hd Hlen. unfold py_int.
  rewrite (proj2 (Nat.ltb_ge _ _) Hlen).
  destruct s as [|c s]; [discriminate|].
  destruct (digits_uint_of_string _ Hd) as [u ->].
  now exists (Z.of_uint u).
Qed.

Lemma py_int_long s :
  int_max_str_digits < String.length s -> py_int s = Raise ValueError.
Proof.
  intros Hlen. unfold py_int. now rewrite (proj2 (Nat.ltb_lt _ _) Hlen).
Qed.

Lemma string_of_uint_digits u : all_chars Py.isdigit (NilEmpty.string_of_uint u) = true.
Proof. induction u; simpl; try rewrite IHu; reflexivity. Qed.

Lemma format_int_pos (n : Z) :
  (0 < n)%Z ->
  exists u, Py.format_int n = NilEmpty.string_of_uint u
            /\ u <> Nil /\ Z.of_uint u = n.
Proof.
  intros Hn. destruct n as [|p|p]; try lia.
  exists (Pos.to_uint p). unfold Py.format_int. cbn [Z.to_int NilZero.string_of_int].
  assert (Hnz : Pos.to_uint p <> Nil).
  { intros E. pose proof (DecimalPos.Unsigned.of_to p) as H. rewrite E in H. discriminate. }
  repeat split; [|assumption|].
  - unfold NilZero.string_of_uint. destruct (Pos.to_uint p); congruence.
  - unfold Z.of_uint. now rewrite DecimalPos.Unsigned.of_to.
Qed.

Lemma format_int_digits n : (0 < n)%Z -> all_chars Py.isdigit (Py.format_int n) = true.
Proof.
  intros Hn. destruct (format_int_pos n Hn) as (u & -> & _ & _).
  apply string_of_uint_digits.
Qed.

Lemma format_int_truthy n : (0 < n)%Z -> Py.truthy (Py.format_int n) = true.
Proof.
  intros Hn. destruct (format_int_pos n Hn) as (u & -> & Hu & _).
  destruct u; try reflexivity. congruence.
Qed.

Lemma py_int_format_int n :
  (0 < n)%Z -> String.length (Py.format_int n) <= int_max_str_digits ->
  py_int (Py.format_int n) = Ok n.
Proof.
  intros Hn Hlen. pose proof (format_int_truthy n Hn) as Ht.
  unfold py_int. rewrite (proj2 (Nat.ltb_ge _ _) Hlen).
  destruct (format_int_pos n Hn) as (u & E & Hu & Hv). rewrite E in *.
  destruct (NilEmpty.string_of_uint u) eqn:Es; [discriminate|].
  rewrite <- Es, NilEmpty.usu. now rewrite Hv.
Qed.

(** ** The type mapper *)

Lemma re_sql_type_with_length base digits rest :
  Py.truthy base = true -> all_chars Py.isword base = true ->
  Py.truthy digits = true -> all_chars Py.isdigit digits = true ->
  re_sql_type (base ++ "(" ++ digits ++ ")" ++ rest) = Some (base, Some digits).
Proof.
  intros Hb Hw Hd Hg. unfold re_sql_type.
  change (base ++ "(" ++ digits ++ ")" ++ rest)
    with (base ++ String "(" (digits ++ String ")" rest)).
  rewrite (span_append Py.isword base "(" _ Hw eq_refl), Hb.
  rewrite (span_append Py.isdigit digits ")" _ Hg eq_refl), Hd.
  reflexivity.
Qed.

Lemma re_sql_type_bare base :
  Py.truthy base = true -> all_chars Py.isword base = true ->
  re_sql_type base = Some (base, None).
Proof.
  intros Hb Hw. unfold re_sql_type. now rewrite (span_all_end _ _ Hw), Hb.
Qed.

Lemma re_sql_type_digits s base digits :
  re_sql_type s = Some (base, Some digits) ->
  Py.truthy digits = true /\ all_chars Py.isdigit digits = true.
Proof.
  unfold re_sql_type. destruct (Py.span Py.isword s) as [b rest].
  destruct (Py.truthy b); [|discriminate].
  destruct rest as [|c rest1]; [discriminate|].
  destruct (Ascii.eqb_spec c "(") as [->|Hc].
  - pose proof (span_fst_all Py.isdigit rest1) as Hall.
    destruct (Py.span Py.isdigit rest1) as [d rest2]. cbn [fst] in Hall.
    destruct rest2 as [|c2 rest3]; [discriminate|].
    destruct (Ascii.eqb_spec c2 ")") as [->|Hc2].
    + destruct (Py.truthy d) eqn:Ht; intros [= <- <-]. now split.
    + destruct c2 as [[|] [|] [|] [|] [|] [|] [|] [|]]; try discriminate.
      now contradiction Hc2.
  - destruct c as [[|] [|] [|] [|] [|] [|] [|] [|]]; try discriminate.
    now contradiction Hc.
Qed.

Lemma span_concat (p : ascii -> bool) (s : string) :
  fst (Py.span p s) ++ snd (Py.span p s) = s.
Proof.
  induction s as [|c s IH]; [reflexivity|]. cbn [Py.span].
  destruct (p c); [|reflexivity].
  destruct (Py.span p s) as [a b]. cbn [fst snd append] in *. now rewrite IH.
Qed.


(** What the pattern has matched when it finds a length. *)
Lemma re_sql_type_shape s base digits :
  re_sql_type s = Some (base, Some digits) ->
  exists rest,
    s = base ++ "(" ++ digits ++ ")" ++ rest
    /\ Py.truthy base = true /\ all_chars Py.isword base = true
    /\ Py.truthy digits = true /\ all_chars Py.isdigit digits = true.
Proof.
  unfold re_sql_type.
  pose proof (span_concat Py.isword s) as Hs.
  pose proof (span_fst_all Py.isword s) as Hw.
  destruct (Py.span Py.isword s) as [b rest]. cbn [fst snd] in Hs, Hw.
  destruct (Py.truthy b) eqn:Hb; [|discriminate].
  destruct rest as [|c rest1]; [discriminate|].
  destruct (Ascii.eqb_spec c "(") as [->|Hc].
  - pose proof (span_concat Py.isdigit rest1) as Hr.
    pose proof (span_fst_all Py.isdigit rest1) as Hall.
    destruct (Py.span Py.isdigit rest1) as [d rest2]. cbn [fst snd] in Hr, Hall.
    destruct rest2 as [|c2 rest3]; [discriminate|].
    destruct (Ascii.eqb_spec c2 ")") as [->|Hc2].
    + destruct (Py.truthy d) eqn:Ht; intros [= <- <-].
      exists rest3. subst s rest1. repeat split; assumption.
    + destruct c2 as [[|] [|] [|] [|] [|] [|] [|] [|]]; try discriminate.
      now contradiction Hc2.
  - destruct c as [[|] [|] [|] [|] [|] [|] [|] [|]]; try discriminate.
    now contradiction Hc.
Qed.

(** [map_sql_type] returns when [int] converts the length, and raises
    ValueError when it does not. *)
Lemma map_sql_type_fits sql_type :
  length_fits sql_type = true -> returns (map_sql_type sql_type).
Proof.
  unfold length_fits, map_sql_type.
  destruct (re_sql_type sql_type) as [[base [digits|]]|] eqn:E;
    try (eexists; reflexivity).
  intros Hlen. apply Nat.leb_le in Hlen.
  destruct (re_sql_type_digits _ _ _ E) as [Ht Hd]. rewrite Ht.
  destruct (py_int_returns digits Ht Hd Hlen) as [n ->]. eexists; reflexivity.
Qed.

Lemma map_sql_type_overflows sql_type :
  length_fits sql_type = false -> map_sql_type sql_type = Raise ValueError.
Proof.
  unfold length_fits, map_sql_type.
  destruct (re_sql_type sql_type) as [[base [digits|]]|] eqn:E;
    try discriminate.
  intros Hlen. apply Nat.leb_gt in Hlen.
  destruct (re_sql_type_digits _ _ _ E) as [Ht Hd]. rewrite Ht.
  now rewrite (py_int_long digits Hlen).
Qed.


(** ** Type normalisation *)

Lemma normalize_varchar (arg : string) :
  normalize_type ("varchar(" ++ arg) = "varchar".
Proof. reflexivity. Qed.

Lemma mysql_type_of_string n a r p :
  n <> 0%Z ->
  mysql_type_of (mkInfo "STRING" (Some n) a r p) = "varchar(" ++ Py.format_int n ++ ")".
Proof.
  intros H. apply Z.eqb_neq in H. unfold mysql_type_of. cbn [c_type c_length].
  rewrite H. reflexivity.
Qed.

Lemma span_app_outside (p : ascii -> bool) (a tail : string) :
  all_chars p a = true -> starts_outside p tail = true ->
  Py.span p (a ++ tail) = (a, tail).
Proof.
  intros Ha Ht. destruct tail as [|t tail].
  - rewrite append_nil_r. now apply span_all_end.
  - apply span_append; [exact Ha|]. now apply negb_true_iff in Ht.
Qed.

Lemma re_sql_type_separated base sep other :
  Py.truthy base = true -> all_chars Py.isword base = true ->
  Py.isword sep = false -> Ascii.eqb sep "(" = false ->
  re_sql_type (base ++ String sep other) = Some (base, None).
Proof.
  intros Hb Hw Hs Hp. unfold re_sql_type.
  rewrite (span_append Py.isword base sep other Hw Hs), Hb.
  destruct sep as [[|] [|] [|] [|] [|] [|] [|] [|]];
    try reflexivity; discriminate Hp.
Qed.

Lemma re_sql_type_unclosed base ds tail :
  Py.truthy base = true -> all_chars Py.isword base = true ->
  all_chars Py.isdigit ds = true ->
  starts_outside Py.isdigit tail = true ->
  starts_outside is_rparen tail = true ->
  re_sql_type (base ++ "(" ++ ds ++ tail) = Some (base, None).
Proof.
  intros Hb Hw Hd Ht Hr. unfold re_sql_type.
  change (base ++ "(" ++ ds ++ tail) with (base ++ String "(" (ds ++ tail)).
  rewrite (span_append Py.isword base "(" _ Hw eq_refl), Hb.
  rewrite (span_app_outside Py.isdigit ds tail Hd Ht).
  destruct tail as [|t tail]; [reflexivity|].
  cbn [starts_outside] in Hr. unfold is_rparen in Hr.
  destruct t as [[|] [|] [|] [|] [|] [|] [|] [|]];
    try reflexivity; discriminate Hr.
Qed.

Lemma re_sql_type_empty_group base rest :
  Py.truthy base = true -> all_chars Py.isword base = true ->
  re_sql_type (base ++ "()" ++ rest) = Some (base, None).
Proof.
  intros Hb Hw. unfold re_sql_type.
  change (base ++ "()" ++ rest) with (base ++ String "(" (String ")" rest)).
  now rewrite (span_append Py.isword base "(" _ Hw eq_refl), Hb.
Qed.

(** ** The type mapper: the properties of the specification *)

(** C2, as amended. A raw type that is a base name followed at once by (N),
    N a run of at most 4300 digits, maps to the canonical type of the
    lowercased base, STRING when the table does not have it, and N is kept
    as the length whatever that canonical type is. Without such a group the
    result carries no length: the bare base name; a base followed by
    anything but an opening parenthesis (a blank before the parenthesis
    among them); a group that is not closed after its digits or holds
    something else than digits, as in decimal(10,2); an empty group; and a
    text that does not start with a word character, which is STRING. An N
    of more than 4300 digits makes [int] raise ValueError. *)
Theorem map_sql_type_keeps_any_length
    (base digits rest : string) (c : ascii) (other : string)
    (sep : ascii) (ds tail long : string) :
  Py.truthy base = true -> all_chars Py.isword base = true ->
  Py.truthy digits = true -> all_chars Py.isdigit digits = true ->
  String.length digits <= int_max_str_digits ->
  Py.isword c = false ->
  Py.isword sep = false -> Ascii.eqb sep "(" = false ->
  all_chars Py.isdigit ds = true ->
  starts_outside Py.isdigit tail = true ->
  starts_outside is_rparen tail = true ->
  all_chars Py.isdigit long = true ->
  int_max_str_digits < String.length long ->
  exists n,
    py_int digits = Ok n
    /\ map_sql_type (base ++ "(" ++ digits ++ ")" ++ rest)
       = Ok (mkInfo (dict_get_or TYPE_MAP (Py.lower base) "STRING") (Some n)
                    None None None)
    /\ map_sql_type base
       = Ok (mkInfo (dict_get_or TYPE_MAP (Py.lower base) "STRING") None
                    None None None)
    /\ map_sql_type (String c other) = Ok (mkInfo "STRING" None None None None)
    /\ map_sql_type EmptyString = Ok (mkInfo "STRING" None None None None)
    /\ map_sql_type (base ++ String sep other)
       = Ok (mkInfo (dict_get_or TYPE_MAP (Py.lower base) "STRING") None
                    None None None)
    /\ map_sql_type (base ++ "(" ++ ds ++ tail)
       = Ok (mkInfo (dict_get_or TYPE_MAP (Py.lower base) "STRING") None
                    None None None)
    /\ map_sql_type (base ++ "()" ++ rest)
       = Ok (mkInfo (dict_get_or TYPE_MAP (Py.lower base) "STRING") None
                    None None None)
    /\ map_sql_type (base ++ "(" ++ long ++ ")" ++ rest) = Raise ValueError.
Proof.
  intros Hb Hw Hd Hg Hlen Hc Hsep Hparen Hds Htail Hclose Hlong Hover.
  destruct (py_int_returns digits Hd Hg Hlen) as [n Hn].
  exists n. split; [assumption|]. unfold map_sql_type.
  split; [|split; [|split; [|split; [|split; [|split; [|split]]]]]].
  - rewrite re_sql_type_with_length by assumption. now rewrite Hd, Hn.
  - now rewrite re_sql_type_bare.
  - unfold re_sql_type. cbn [Py.span]. now rewrite Hc.
  - reflexivity.
  - now rewrite re_sql_type_separated.
  - now rewrite re_sql_type_unclosed.
  - now rewrite re_sql_type_empty_group.
  - assert (Ht : Py.truthy long = true).
    { destruct long; [cbn in Hover; lia | reflexivity]. }
    rewrite re_sql_type_with_length by assumption.
    now rewrite Ht, (py_int_long long Hover).
Qed.

Lemma map_sql_type_keeps_any_length_witness :
  map_sql_type "BigInt(20) unsigned"
  = Ok (mkInfo "INTEGER" (Some 20%Z) None None None)
  /\ map_sql_type "BigInt(10,2)" = Ok (mkInfo "INTEGER" None None None None)
  /\ map_sql_type "BigInt (11)" = Ok (mkInfo "INTEGER" None None None None)
  /\ map_sql_type ("BigInt(" ++ long_digits ++ ") unsigned") = Raise ValueError.
Proof.
  assert (Hover : int_max_str_digits < String.length long_digits).
  { apply Nat.ltb_lt. vm_compute. reflexivity. }
  assert (Hlong : all_chars Py.isdigit long_digits = true).
  { vm_compute. reflexivity. }
  destruct (map_sql_type_keeps_any_length "BigInt" "20" " unsigned" "(" "(11)"
              " " "10" ",2)" long_digits
              eq_refl eq_refl eq_refl eq_refl
              (proj1 (Nat.leb_le 2 int_max_str_digits) eq_refl)
              eq_refl eq_refl eq_refl eq_refl eq_refl eq_refl Hlong Hover)
    as (n & Hn & H1 & _ & _ & _ & H2 & H3 & _ & H4).
  assert (En : n = 20%Z) by (vm_compute in Hn; now inversion Hn).
  subst n. repeat split; assumption.
Defined.

(** C2, the claim as stated fails: the base of int(11) maps to INTEGER and
    the result carries the length 11. *)
Lemma integer_type_carries_length :
  dict_get TYPE_MAP "int" = Some "INTEGER"
  /\ exists info,
       map_sql_type "int(11)" = Ok info
       /\ c_type info = "INTEGER"
       /\ c_length info = Some 11%Z
       /\ c_length info <> None.
Proof.
  split; [reflexivity|].
  exists (mkInfo "INTEGER" (Some 11%Z) None None None).
  repeat split; try (vm_compute; reflexivity). discriminate.
Qed.

(** C8, as amended. The round trip gives back the raw form for varchar(N)
    with N positive and of at most 4300 digits, text, int and datetime; for
    every row of the table it gives the rendering of the row's canonical
    type, which for char, bigint, tinyint, timestamp and boolean is another
    raw type. (With an N of more digits the forward mapping raises
    ValueError and there is no round trip.) *)
Theorem round_trip_of_type_table (n : Z) :
  (0 < n)%Z ->
  String.length (Py.format_int n) <= int_max_str_digits ->
  round_trip ("varchar(" ++ Py.format_int n ++ ")")
  = Ok ("varchar(" ++ Py.format_int n ++ ")")
  /\ (forall m : Z,
        (0 < m)%Z -> int_max_str_digits < String.length (Py.format_int m) ->
        round_trip ("varchar(" ++ Py.format_int m ++ ")") = Raise ValueError)
  /\ round_trip "text" = Ok "text"
  /\ round_trip "int" = Ok "int"
  /\ round_trip "datetime" = Ok "datetime"
  /\ (forall raw canonical,
        In (raw, canonical) TYPE_MAP ->
        round_trip raw = Ok (mysql_type_of (info_of_type canonical)))
  /\ round_trip "char" = Ok "text"
  /\ round_trip "varchar" = Ok "text"
  /\ round_trip "bigint" = Ok "int"
  /\ round_trip "tinyint" = Ok "int"
  /\ round_trip "timestamp" = Ok "datetime"
  /\ round_trip "boolean" = Ok "tinyint(1)".
Proof.
  intros Hn Hlen. split; [|split].
  - unfold round_trip, map_sql_type.
    change ("varchar(" ++ Py.format_int n ++ ")")
      with ("varchar" ++ "(" ++ Py.format_int n ++ ")" ++ "").
    rewrite re_sql_type_with_length;
      [ | reflexivity | reflexivity | now apply format_int_truthy
        | now apply format_int_digits ].
    rewrite format_int_truthy, py_int_format_int by assumption.
    cbn [bind]. f_equal.
    change (mysql_type_of (mkInfo "STRING" (Some n) None None None)
            = "varchar(" ++ Py.format_int n ++ ")").
    apply mysql_type_of_string. lia.
  - intros m Hm Hover. unfold round_trip, map_sql_type.
    change ("varchar(" ++ Py.format_int m ++ ")")
      with ("varchar" ++ "(" ++ Py.format_int m ++ ")" ++ "").
    rewrite re_sql_type_with_length;
      [ | reflexivity | reflexivity | now apply format_int_truthy
        | now apply format_int_digits ].
    now rewrite format_int_truthy, (py_int_long _ Hover) by assumption.
  - do 3 (split; [vm_compute; reflexivity|]).
    split; [|repeat (split; [vm_compute; reflexivity|]); vm_compute; reflexivity].
    intros raw canonical Hin. simpl in Hin.
    repeat (destruct Hin as [Hin|Hin]; [inversion Hin; subst; vm_compute; reflexivity|]).
    contradiction.
Qed.

Lemma round_trip_of_type_table_witness :
  round_trip ("varchar(" ++ Py.format_int 255 ++ ")")
  = Ok ("varchar(" ++ Py.format_int 255 ++ ")").
Proof.
  exact (proj1 (round_trip_of_type_table 255 eq_refl
                  (proj1 (Nat.leb_le 3 int_max_str_digits) eq_refl))).
Defined.

(** C8, the claim as stated fails: the row (bigint, INTEGER) of the table
    comes back as int, which is neither the raw form nor its normal form. *)
Lemma round_trip_loses_bigint :
  In ("bigint", "INTEGER") TYPE_MAP
  /\ round_trip "bigint" = Ok "int"
  /\ normalize_type "bigint" = "bigint"
  /\ round_trip "bigint" <> Ok (normalize_type "bigint")
  /\ round_trip "bigint" <> Ok "bigint".
Proof.
  repeat split; try (vm_compute; reflexivity);
    try (vm_compute; discriminate). simpl. tauto.
Qed.

(** ** Dictionaries and sets *)

Lemma set_in_In x l : set_in x l = true <-> In x l.
Proof.
  unfold set_in. rewrite existsb_exists. split.
  - intros [y [Hy E]]. apply String.eqb_eq in E. now subst.
  - intros H. exists x. split; [assumption | apply String.eqb_refl].
Qed.

Lemma set_in_false x l : set_in x l = false <-> ~ In x l.
Proof.
  rewrite <- set_in_In. destruct (set_in x l); split; congruence.
Qed.

Lemma set_in_set_of x l : set_in x (set_of l) = set_in x l.
Proof.
  destruct (set_in x l) eqn:E.
  - apply set_in_In. apply nodup_In. now apply set_in_In.
  - apply set_in_false. rewrite set_in_false in E. unfold set_of.
    now rewrite nodup_In.
Qed.

Lemma dict_get_keys {V} (d : dict V) k : dict_get d k = None <-> ~ In k (keys d).
Proof.
  induction d as [|[k' v] d IH]; simpl.
  - tauto.
  - destruct (String.eqb_spec k' k) as [->|Hne].
    + split; [discriminate | intros H; exfalso; apply H; now left].
    + rewrite IH. tauto.
Qed.

Lemma keys_dict_set {V} (d : dict V) k v :
  keys (dict_set d k v) = if set_in k (keys d) then keys d else (keys d ++ [k])%list.
Proof.
  induction d as [|[k' v'] d IH]; simpl; [reflexivity|].
  rewrite (String.eqb_sym k k').
  destruct (String.eqb_spec k' k) as [->|Hne]; simpl; [reflexivity|].
  rewrite IH. now destruct (set_in k (keys d)).
Qed.

Lemma dict_get_set_same {V} (d : dict V) k v : dict_get (dict_set d k v) k = Some v.
Proof.
  induction d as [|[k' v'] d IH]; simpl.
  - now rewrite String.eqb_refl.
  - destruct (String.eqb_spec k' k) as [->|Hne]; simpl.
    + now rewrite String.eqb_refl.
    + apply String.eqb_neq in Hne. now rewrite Hne.
Qed.

Lemma distinct_NoDup l : distinct l = true <-> NoDup l.
Proof.
  induction l as [|x l IH]; simpl.
  - split; [constructor | reflexivity].
  - rewrite andb_true_iff, negb_true_iff, IH. fold (set_in x l).
    rewrite set_in_false. split.
    + intros [H1 H2]. now constructor.
    + intros H. inversion H; subst. now split.
Qed.

Lemma keys_dict_set_NoDup {V} (d : dict V) k v :
  NoDup (keys d) -> NoDup (keys (dict_set d k v)).
Proof.
  intros H. rewrite keys_dict_set. destruct (set_in k (keys d)) eqn:E; [assumption|].
  apply set_in_false in E.
  apply NoDup_rev in H. rewrite <- (rev_involutive (keys d ++ [k])).
  apply NoDup_rev. rewrite rev_app_distr. simpl. constructor; [|assumption].
  now rewrite <- in_rev.
Qed.

Lemma actual_col_map_acc (rows : list ActualRow) :
  forall m : dict ActualRow,
    let m' := fold_left (fun m row => dict_set m (Field row) row) rows m in
    (NoDup (keys m) -> NoDup (keys m'))
    /\ (forall c, In c (keys m') <-> In c (keys m) \/ In c (map Field rows)).
Proof.
  induction rows as [|r rows IH]; intros m; simpl.
  - split; [tauto | intros c; tauto].
  - destruct (IH (dict_set m (Field r) r)) as [IH1 IH2]. split.
    + intros H. apply IH1. now apply keys_dict_set_NoDup.
    + intros c. rewrite IH2, keys_dict_set.
      destruct (set_in (Field r) (keys m)) eqn:E.
      * apply set_in_In in E. split; [tauto|].
        intros [H|[H|H]]; subst; tauto.
      * rewrite in_app_iff. simpl. tauto.
Qed.

Lemma actual_col_map_NoDup rows : NoDup (keys (actual_col_map_of rows)).
Proof. apply (actual_col_map_acc rows []). constructor. Qed.

Lemma actual_col_map_In rows c :
  In c (keys (actual_col_map_of rows)) <-> In c (map Field rows).
Proof.
  unfold actual_col_map_of.
  rewrite (proj2 (actual_col_map_acc rows [])). simpl. tauto.
Qed.

Lemma keys_filter {V} (p : string -> bool) (d : dict V) :
  keys (filter (fun item => p (fst item)) d) = filter p (keys d).
Proof.
  induction d as [|[k v] d IH]; simpl; [reflexivity|].
  destruct (p k); simpl; now rewrite IH.
Qed.

Lemma count_occ_filter_split (p : string -> bool) l c :
  count_occ string_dec (filter p l) c
  + count_occ string_dec (filter (fun x => negb (p x)) l) c
  = count_occ string_dec l c.
Proof.
  induction l as [|x l IH]; simpl; [reflexivity|].
  destruct (p x); simpl; destruct (string_dec x c); lia.
Qed.

(** ** The differ: what the loop over the target builds *)

Lemma compare_loop (actual_fields : list ActualRow) (target : dict ColumnInfo) :
  forall adds modifies,
    fold_left (compare_column (actual_col_map_of actual_fields)
                              (set_of (keys (actual_col_map_of actual_fields))))
              target (adds, modifies)
    = ((adds ++ map add_clause (filter (is_added actual_fields) target))%list,
       (modifies ++ map modify_clause (filter (is_modified actual_fields) target))%list).
Proof.
  induction target as [|[col spec] target IH]; intros adds modifies.
  - simpl. now rewrite !app_nil_r.
  - cbn [fold_left filter]. unfold compare_column at 2, is_added at 1, is_modified at 1, is_checked.
    cbn [fst snd].
    destruct (set_in col (set_of (keys (actual_col_map_of actual_fields)))) eqn:E;
      cbn [negb andb].
    + destruct (dict_get (actual_col_map_of actual_fields) col) as [actual|] eqn:G.
      * destruct (differs spec actual); rewrite IH; cbn [map];
          now rewrite <- ?app_assoc.
      * now rewrite IH.
    + rewrite IH. cbn [map]. now rewrite <- app_assoc.
Qed.

Lemma compare_decomposed o target actual_fields :
  compare_and_generate_sql o target actual_fields
  = (map add_clause (added target actual_fields),
     map modify_clause (modified target actual_fields),
     map drop_clause (dropped o target actual_fields)).
Proof.
  unfold compare_and_generate_sql. rewrite compare_loop. reflexivity.
Qed.

Lemma filter_all {A} (p : A -> bool) (l : list A) :
  (forall x, In x l -> p x = true) -> filter p l = l.
Proof.
  induction l as [|x l IH]; intros H; simpl; [reflexivity|].
  rewrite (H x (or_introl eq_refl)). f_equal. apply IH. intros y Hy. apply H. now right.
Qed.

Lemma filter_none {A} (p : A -> bool) (l : list A) :
  (forall x, In x l -> p x = false) -> filter p l = [].
Proof.
  induction l as [|x l IH]; intros H; simpl; [reflexivity|].
  rewrite (H x (or_introl eq_refl)). apply IH. intros y Hy. apply H. now right.
Qed.

Lemma set_iter_nil o : set_iter o [] = [].
Proof. apply Permutation_nil. apply Permutation_sym, set_iter_perm. Qed.

Lemma count_keys_filter_le {V} (p q : string * V -> bool) (d : dict V) c :
  (forall x, q x = true -> p x = true) ->
  count_occ string_dec (keys (filter q d)) c
  <= count_occ string_dec (keys (filter p d)) c.
Proof.
  intros H. induction d as [|x d IH]; simpl; [lia|].
  destruct (q x) eqn:Q.
  - rewrite (H x Q). simpl. destruct (string_dec (fst x) c); lia.
  - destruct (p x); simpl; [destruct (string_dec (fst x) c)|]; lia.
Qed.

Lemma set_of_fixed l : NoDup l -> set_of l = l.
Proof. apply nodup_fixed_point. Qed.

(** The lists of one diff: the target, the actual rows and the set order are
    fixed. *)
Section DiffLists.

Variable o : SetOrder.
Variable target : dict ColumnInfo.
Variable actual_fields : list ActualRow.

Lemma keys_added :
  keys (added target actual_fields)
  = filter (fun k => negb (set_in k (set_of (keys (actual_col_map_of actual_fields)))))
           (keys target).
Proof. unfold added. apply (keys_filter (fun k => negb (set_in k _))). Qed.

Lemma keys_checked :
  keys (checked target actual_fields)
  = filter (fun k => set_in k (set_of (keys (actual_col_map_of actual_fields))))
           (keys target).
Proof. unfold checked. apply (keys_filter (fun k => set_in k _)). Qed.

Lemma modified_le_checked c :
  count_occ string_dec (keys (modified target actual_fields)) c
  <= count_occ string_dec (keys (checked target actual_fields)) c.
Proof.
  apply count_keys_filter_le. intros x H. unfold is_modified in H.
  now apply andb_true_iff in H.
Qed.

Lemma dropped_perm :
  Permutation (dropped o target actual_fields) (actual_only target actual_fields).
Proof.
  unfold dropped, actual_only, set_diff.
  rewrite (set_of_fixed _ (actual_col_map_NoDup actual_fields)).
  eapply Permutation_trans; [apply set_iter_perm|].
  erewrite filter_ext; [apply Permutation_refl|].
  intros c. cbv beta. now rewrite set_in_set_of.
Qed.

Lemma actual_only_NoDup :
  NoDup (actual_only target actual_fields).
Proof. apply NoDup_filter, actual_col_map_NoDup. Qed.

Lemma actual_only_In c :
  In c (actual_only target actual_fields)
  <-> In c (map Field actual_fields) /\ ~ In c (keys target).
Proof.
  unfold actual_only. rewrite filter_In, actual_col_map_In, negb_true_iff, set_in_false.
  tauto.
Qed.

Lemma count_dropped c :
  count_occ string_dec (dropped o target actual_fields) c
  = count_occ string_dec (actual_only target actual_fields) c.
Proof.
  revert c. apply (Permutation_count_occ string_dec), dropped_perm.
Qed.

End DiffLists.

Lemma count_NoDup_le l c : NoDup l -> count_occ string_dec l c <= 1.
Proof. intros H. now apply (proj1 (NoDup_count_occ string_dec l)). Qed.

(** ** The differ: the properties of the specification *)

(** C3, as amended. The MODIFY COLUMN clauses are those of the target
    columns found in the actual structure whose normalised base type or
    nullability differs from the actual column's, and of no other column.
    Between two lengths other than zero, and against an actual varchar of
    any length, the length of a STRING column has no part in the decision.
    (A STRING target with no length, or with length 0, is rendered as text,
    and text against varchar is a different base type.) *)
Theorem modify_iff_base_type_or_nullability
    (o : SetOrder) (target : dict ColumnInfo) (actual_fields : list ActualRow)
    (n m : Z) :
  n <> 0%Z -> m <> 0%Z ->
  modifies_of (compare_and_generate_sql o target actual_fields)
  = map modify_clause (modified target actual_fields)
  /\ (forall col spec actual,
        In (col, spec) target ->
        dict_get (actual_col_map_of actual_fields) col = Some actual ->
        (In (col, spec) (modified target actual_fields)
         <-> normalize_type (Type_ actual) <> normalize_type (mysql_type_of spec)
             \/ String.eqb (Null actual) "YES" <> expected_nullable spec))
  /\ (forall a r p actual,
        differs (mkInfo "STRING" (Some n) a r p) actual
        = differs (mkInfo "STRING" (Some m) a r p) actual)
  /\ (forall spec col arg arg' null,
        differs spec (mkRow col ("varchar(" ++ arg ++ ")") null)
        = differs spec (mkRow col ("varchar(" ++ arg' ++ ")") null))
  /\ (forall a r p col arg null,
        String.eqb null "YES" = expected_nullable (mkInfo "STRING" (Some n) a r p) ->
        differs (mkInfo "STRING" (Some n) a r p)
                (mkRow col ("varchar(" ++ arg ++ ")") null) = false).
Proof.
  intros Hn Hm. split; [|split; [|split; [|split]]].
  - now rewrite compare_decomposed.
  - intros col spec actual Hin Hget. unfold modified. rewrite filter_In.
    unfold is_modified, is_checked. cbn [fst snd]. rewrite Hget.
    assert (Hc : set_in col (set_of (keys (actual_col_map_of actual_fields))) = true).
    { rewrite set_in_set_of. apply set_in_In.
      destruct (in_dec string_dec col (keys (actual_col_map_of actual_fields))) as [H|H];
        [assumption | apply dict_get_keys in H; congruence]. }
    rewrite Hc. cbn [andb]. unfold differs.
    rewrite orb_true_iff, !negb_true_iff.
    rewrite String.eqb_neq.
    destruct (String.eqb (Null actual) "YES"), (expected_nullable spec); cbn [Bool.eqb];
      intuition congruence.
  - intros a r p actual. unfold differs.
    now rewrite !mysql_type_of_string, !normalize_varchar by assumption.
  - intros spec col arg arg' null. unfold differs. cbn [Type_ Null].
    now rewrite !normalize_varchar.
  - intros a r p col arg null Hnull. unfold differs. cbn [Type_ Null].
    rewrite mysql_type_of_string, !normalize_varchar, Hnull by assumption.
    now rewrite Bool.eqb_reflx.
Qed.

Lemma modify_iff_base_type_or_nullability_witness :
  modifies_of (compare_and_generate_sql insertion_order
                 [("a", mkInfo "STRING" (Some 50%Z) None None None)]
                 [mkRow "a" "varchar(255)" "YES"])
  = map modify_clause
        (modified [("a", mkInfo "STRING" (Some 50%Z) None None None)]
                  [mkRow "a" "varchar(255)" "YES"]).
Proof.
  exact (proj1 (modify_iff_base_type_or_nullability insertion_order
                  [("a", mkInfo "STRING" (Some 50%Z) None None None)]
                  [mkRow "a" "varchar(255)" "YES"] 50 10
                  ltac:(discriminate) ltac:(discriminate))).
Defined.

(** C3, the claim as stated fails: with the actual column varchar(50), the
    target STRING of length 50 yields no MODIFY, and the same target with
    the length taken away, or set to 0, yields one. *)
Lemma length_change_produces_modify :
  modifies_of (compare_and_generate_sql insertion_order
                 [("a", mkInfo "STRING" (Some 50%Z) None None None)]
                 [mkRow "a" "varchar(50)" "YES"]) = []
  /\ modifies_of (compare_and_generate_sql insertion_order
                    [("a", mkInfo "STRING" None None None None)]
                    [mkRow "a" "varchar(50)" "YES"])
     = ["MODIFY COLUMN `a` text NULL"]
  /\ modifies_of (compare_and_generate_sql insertion_order
                    [("a", mkInfo "STRING" (Some 0%Z) None None None)]
                    [mkRow "a" "varchar(50)" "YES"])
     = ["MODIFY COLUMN `a` text NULL"]
  /\ modifies_of (compare_and_generate_sql insertion_order
                    [("a", mkInfo "STRING" None None None None)]
                    [mkRow "a" "varchar(50)" "YES"])
     <> [].
Proof. repeat split; try (vm_compute; reflexivity). vm_compute. discriminate. Qed.

(** ** The column a clause names *)

Lemma isdigit_not_backtick c : Py.isdigit c = true -> not_backtick c = true.
Proof.
  destruct c as [[|] [|] [|] [|] [|] [|] [|] [|]]; intros H;
    try discriminate H; reflexivity.
Qed.

Lemma format_int_no_backtick (n : Z) :
  all_chars not_backtick (Py.format_int n) = true.
Proof.
  assert (H : forall d, all_chars not_backtick (NilZero.string_of_uint d) = true).
  { intros d. unfold NilZero.string_of_uint.
    destruct d; try reflexivity;
      apply (all_chars_weaken Py.isdigit _ _ isdigit_not_backtick),
            string_of_uint_digits. }
  unfold Py.format_int. destruct (Z.to_int n) as [d|d];
    cbn [NilZero.string_of_int all_chars]; now rewrite H.
Qed.

Lemma mysql_type_of_no_backtick (spec : ColumnInfo) :
  all_chars not_backtick (mysql_type_of spec) = true.
Proof.
  unfold mysql_type_of, dict_get_or. cbn [dict_get].
  repeat match goal with
         | |- context [String.eqb ?a ?b] => destruct (String.eqb a b)
         end; try reflexivity.
  destruct (c_length spec) as [n|]; [|reflexivity].
  destruct (n =? 0)%Z; [reflexivity|].
  rewrite !all_chars_app, format_int_no_backtick. reflexivity.
Qed.

Lemma clause_column_between (keyword col after : string) :
  all_chars not_backtick keyword = true ->
  all_chars not_backtick after = true ->
  clause_column (keyword ++ "`" ++ col ++ "`" ++ after) = col.
Proof.
  intros Hk Ha. unfold clause_column.
  change (keyword ++ "`" ++ col ++ "`" ++ after)
    with (keyword ++ String "`" (col ++ String "`" after)).
  rewrite (span_append not_backtick keyword "`" _ Hk eq_refl). cbn [snd].
  rewrite rev_string_app. cbn [Py.rev_string].
  rewrite append_assoc. cbn [append].
  rewrite (span_append not_backtick (Py.rev_string after) "`" _);
    [| now rewrite all_chars_rev | reflexivity].
  cbn [snd]. apply rev_string_involutive.
Qed.

Lemma clause_column_add item : clause_column (add_clause item) = fst item.
Proof.
  unfold add_clause, column_def.
  apply (clause_column_between "ADD COLUMN " (fst item)
           (" " ++ mysql_type_of (snd item) ++ " "
            ++ (if expected_nullable (snd item) then "NULL" else "NOT NULL")));
    [reflexivity|].
  cbn [append all_chars]. rewrite all_chars_app, mysql_type_of_no_backtick.
  now destruct (expected_nullable (snd item)).
Qed.

Lemma clause_column_modify item : clause_column (modify_clause item) = fst item.
Proof.
  unfold modify_clause, column_def.
  apply (clause_column_between "MODIFY COLUMN " (fst item)
           (" " ++ mysql_type_of (snd item) ++ " "
            ++ (if expected_nullable (snd item) then "NULL" else "NOT NULL")));
    [reflexivity|].
  cbn [append all_chars]. rewrite all_chars_app, mysql_type_of_no_backtick.
  now destruct (expected_nullable (snd item)).
Qed.

Lemma clause_column_drop col : clause_column (drop_clause col) = col.
Proof.
  unfold drop_clause.
  now apply (clause_column_between "DROP COLUMN " col EmptyString).
Qed.

Lemma columns_of_adds (l : dict ColumnInfo) :
  columns_of (map add_clause l) = keys l.
Proof.
  unfold columns_of, keys. rewrite map_map. apply map_ext, clause_column_add.
Qed.

Lemma columns_of_modifies (l : dict ColumnInfo) :
  columns_of (map modify_clause l) = keys l.
Proof.
  unfold columns_of, keys. rewrite map_map. apply map_ext, clause_column_modify.
Qed.

Lemma columns_of_drops (l : list string) :
  columns_of (map drop_clause l) = l.
Proof.
  unfold columns_of. rewrite map_map.
  rewrite (map_ext _ (fun c => c) clause_column_drop). apply map_id.
Qed.

(** C4. For a target whose keys are distinct (a Python dict), and reading
    the column of a clause off the clause itself (the name between its
    backticks): a target column that the actual structure lacks is named
    by exactly one ADD COLUMN clause, and one that the actual structure has
    by none; it is then checked, and named by at most one MODIFY COLUMN
    clause; a MODIFY COLUMN clause names none but a checked column; every
    column of the actual structure that the target lacks is named by
    exactly one DROP COLUMN clause, and a DROP COLUMN clause names none but
    such a column; and no column is named more than once in the three lists
    together. The clauses keep the names apart: two clauses of one kind
    with the same text name the same column. *)
Theorem diff_partitions_columns
    (o : SetOrder) (target : dict ColumnInfo) (actual_fields : list ActualRow) :
  distinct (keys target) = true ->
  compare_and_generate_sql o target actual_fields
  = (map add_clause (added target actual_fields),
     map modify_clause (modified target actual_fields),
     map drop_clause (dropped o target actual_fields))
  /\ (forall item, clause_column (add_clause item) = fst item
                   /\ clause_column (modify_clause item) = fst item
                   /\ clause_column (drop_clause (fst item)) = fst item)
  /\ (forall item item',
        add_clause item = add_clause item'
        \/ modify_clause item = modify_clause item'
        \/ drop_clause (fst item) = drop_clause (fst item') ->
        fst item = fst item')
  /\ (forall c, In c (keys target) ->
        count_occ string_dec
          (columns_of (adds_of (compare_and_generate_sql o target actual_fields))) c
        = (if set_in c (map Field actual_fields) then 0 else 1)
        /\ count_occ string_dec
             (columns_of (adds_of (compare_and_generate_sql o target actual_fields))) c
           + count_occ string_dec (keys (checked target actual_fields)) c = 1)
  /\ (forall c,
        count_occ string_dec
          (columns_of (modifies_of (compare_and_generate_sql o target actual_fields))) c
        <= count_occ string_dec (keys (checked target actual_fields)) c
        /\ (In c (columns_of (modifies_of
                                (compare_and_generate_sql o target actual_fields))) ->
            In c (keys target) /\ In c (map Field actual_fields)))
  /\ (forall c, In c (map Field actual_fields) -> ~ In c (keys target) ->
        count_occ string_dec
          (columns_of (drops_of (compare_and_generate_sql o target actual_fields))) c
        = 1)
  /\ (forall c,
        In c (columns_of (drops_of (compare_and_generate_sql o target actual_fields))) ->
        In c (map Field actual_fields) /\ ~ In c (keys target))
  /\ (forall c,
        count_occ string_dec
          (columns_of (adds_of (compare_and_generate_sql o target actual_fields))) c
        + count_occ string_dec
            (columns_of (modifies_of (compare_and_generate_sql o target actual_fields))) c
        + count_occ string_dec
            (columns_of (drops_of (compare_and_generate_sql o target actual_fields))) c
        <= 1).
Proof.
  intros Hd. apply distinct_NoDup in Hd.
  assert (Hsplit : forall c,
             count_occ string_dec (keys (added target actual_fields)) c
             + count_occ string_dec (keys (checked target actual_fields)) c
             = count_occ string_dec (keys target) c).
  { intros c. rewrite keys_added, keys_checked, Nat.add_comm.
    apply (count_occ_filter_split
             (fun k => set_in k (set_of (keys (actual_col_map_of actual_fields))))). }
  assert (Hin_checked : forall c,
             In c (keys (checked target actual_fields)) ->
             In c (keys target) /\ In c (map Field actual_fields)).
  { intros c. rewrite keys_checked, filter_In, set_in_set_of, set_in_In,
      actual_col_map_In. tauto. }
  rewrite compare_decomposed. unfold adds_of, modifies_of, drops_of.
  cbn [fst snd]. rewrite columns_of_adds, columns_of_modifies, columns_of_drops.
  split; [reflexivity|].
  split; [intros item; split; [apply clause_column_add|
                               split; [apply clause_column_modify|
                                       apply clause_column_drop]]|].
  split.
  { intros item item' [H|[H|H]]; apply (f_equal clause_column) in H.
    - now rewrite !clause_column_add in H.
    - now rewrite !clause_column_modify in H.
    - now rewrite !clause_column_drop in H. }
  split; [|split; [|split; [|split]]].
  - intros c Hc. split.
    + rewrite keys_added.
      destruct (set_in c (map Field actual_fields)) eqn:E.
      * apply count_occ_not_In. rewrite filter_In, negb_true_iff,
          set_in_set_of, set_in_false, actual_col_map_In.
        apply set_in_In in E. tauto.
      * apply NoDup_count_occ'; [now apply NoDup_filter|].
        rewrite filter_In, negb_true_iff, set_in_set_of, set_in_false,
          actual_col_map_In.
        apply set_in_false in E. tauto.
    + rewrite Hsplit. now apply NoDup_count_occ'.
  - intros c. split; [apply modified_le_checked|].
    intros Hin. apply Hin_checked.
    apply (count_occ_In string_dec). apply (count_occ_In string_dec) in Hin.
    pose proof (modified_le_checked target actual_fields c). lia.
  - intros c Ha Ht. rewrite count_dropped.
    apply NoDup_count_occ'; [apply actual_only_NoDup | now apply actual_only_In].
  - intros c Hin. apply (actual_only_In target actual_fields).
    apply (Permutation_in c (dropped_perm o target actual_fields) Hin).
  - intros c. rewrite count_dropped.
    pose proof (modified_le_checked target actual_fields c) as Hm.
    pose proof (Hsplit c) as Hs.
    pose proof (count_NoDup_le (keys target) c Hd) as Ht.
    pose proof (count_NoDup_le _ c (actual_only_NoDup target actual_fields)) as Hdr.
    destruct (in_dec string_dec c (keys target)) as [Hin|Hout].
    + assert (count_occ string_dec (actual_only target actual_fields) c = 0).
      { apply count_occ_not_In. rewrite actual_only_In. tauto. }
      lia.
    + assert (count_occ string_dec (keys target) c = 0)
        by now apply count_occ_not_In.
      lia.
Qed.

Lemma diff_partitions_columns_witness :
  count_occ string_dec
    (columns_of
       (drops_of
          (compare_and_generate_sql reverse_order
             [("id", mkInfo "INTEGER" None (Some false) None (Some true));
              ("name", mkInfo "STRING" (Some 50%Z) None None None)]
             [mkRow "id" "int" "NO"; mkRow "legacy" "text" "YES"])))
    "legacy" = 1
  /\ count_occ string_dec
       (columns_of
          (adds_of
             (compare_and_generate_sql reverse_order
                [("id", mkInfo "INTEGER" None (Some false) None (Some true));
                 ("name", mkInfo "STRING" (Some 50%Z) None None None)]
                [mkRow "id" "int" "NO"; mkRow "legacy" "text" "YES"])))
       "name" = 1.
Proof.
  destruct (diff_partitions_columns reverse_order
              [("id", mkInfo "INTEGER" None (Some false) None (Some true));
               ("name", mkInfo "STRING" (Some 50%Z) None None None)]
              [mkRow "id" "int" "NO"; mkRow "legacy" "text" "YES"] eq_refl)
    as (_ & _ & _ & Hadd & _ & Hdrop & _).
  split.
  - apply Hdrop.
    + simpl. right. left. reflexivity.
    + simpl. intros [H|[H|[]]]; discriminate.
  - apply (proj1 (Hadd "name" (or_intror (or_introl eq_refl)))).
Defined.

(** C5. When the target and the actual structure name the same columns and
    every target column has the normalised base type and the nullability of
    the actual column of its name, the three lists are empty. *)
Theorem diff_of_matching_structure_is_empty
    (o : SetOrder) (target : dict ColumnInfo) (actual_fields : list ActualRow) :
  same_column_set target actual_fields = true ->
  forallb (column_matches actual_fields) target = true ->
  compare_and_generate_sql o target actual_fields = ([], [], []).
Proof.
  intros Hsame Hmatch. unfold same_column_set in Hsame.
  apply andb_true_iff in Hsame. destruct Hsame as [Hta Hat].
  rewrite forallb_forall in Hta, Hat, Hmatch.
  rewrite compare_decomposed.
  assert (Ha : added target actual_fields = []).
  { apply filter_none. intros [col spec] Hin. unfold is_added. cbn [fst].
    rewrite set_in_set_of. apply negb_false_iff, set_in_In, actual_col_map_In.
    apply set_in_In, Hta. apply (in_map fst) in Hin. exact Hin. }
  assert (Hm : modified target actual_fields = []).
  { apply filter_none. intros [col spec] Hin. specialize (Hmatch _ Hin).
    unfold column_matches in Hmatch. unfold is_modified. cbn [fst snd] in *.
    destruct (dict_get (actual_col_map_of actual_fields) col) as [actual|];
      [|apply andb_false_r].
    apply andb_true_iff in Hmatch. destruct Hmatch as [H1 H2].
    unfold differs. rewrite H1, H2. apply andb_false_r. }
  assert (Hdr : dropped o target actual_fields = []).
  { apply Permutation_nil. apply Permutation_sym.
    replace (@nil string) with (actual_only target actual_fields);
      [apply dropped_perm|].
    apply filter_none. intros c Hc. apply negb_false_iff, Hat.
    now apply actual_col_map_In. }
  now rewrite Ha, Hm, Hdr.
Qed.

Lemma diff_of_matching_structure_is_empty_witness :
  compare_and_generate_sql reverse_order
    [("id", mkInfo "INTEGER" None (Some false) None (Some true));
     ("name", mkInfo "STRING" (Some 50%Z) None None None)]
    [mkRow "name" "VARCHAR(255)" "YES"; mkRow "id" "int(11)" "NO"]
  = ([], [], []).
Proof.
  apply diff_of_matching_structure_is_empty; reflexivity.
Defined.

(** C6, as amended. The ADD COLUMN and MODIFY COLUMN clauses follow the
    iteration order of the target; the DROP COLUMN clauses are those of the
    actual-only columns, one each, in the order in which the set difference
    is iterated, which need not be the order of the actual structure. *)
Theorem diff_clause_order
    (o : SetOrder) (target : dict ColumnInfo) (actual_fields : list ActualRow) :
  adds_of (compare_and_generate_sql o target actual_fields)
  = map add_clause (filter (is_added actual_fields) target)
  /\ modifies_of (compare_and_generate_sql o target actual_fields)
     = map modify_clause (filter (is_modified actual_fields) target)
  /\ drops_of (compare_and_generate_sql o target actual_fields)
     = map drop_clause
         (set_iter o (set_diff (set_of (keys (actual_col_map_of actual_fields)))
                               (set_of (keys target))))
  /\ Permutation (drops_of (compare_and_generate_sql o target actual_fields))
                 (map drop_clause (actual_only target actual_fields)).
Proof.
  rewrite compare_decomposed. unfold adds_of, modifies_of, drops_of. cbn [fst snd].
  repeat split. apply Permutation_map, dropped_perm.
Qed.

(** C6, the claim as stated fails: a set of two names that is iterated in
    the other order drops the columns against the order of the actual
    structure. *)
Lemma drops_follow_set_order :
  drops_of (compare_and_generate_sql reverse_order []
              [mkRow "a" "int" "NO"; mkRow "b" "text" "YES"])
  = ["DROP COLUMN `b`"; "DROP COLUMN `a`"]
  /\ map drop_clause
       (actual_only [] [mkRow "a" "int" "NO"; mkRow "b" "text" "YES"])
     = ["DROP COLUMN `a`"; "DROP COLUMN `b`"]
  /\ drops_of (compare_and_generate_sql reverse_order []
                 [mkRow "a" "int" "NO"; mkRow "b" "text" "YES"])
     <> map drop_clause
          (actual_only [] [mkRow "a" "int" "NO"; mkRow "b" "text" "YES"]).
Proof. repeat split; try (vm_compute; reflexivity). vm_compute. discriminate. Qed.

(** C10. Against an empty actual column sequence the differ returns one ADD
    COLUMN clause per target column, in target order, and nothing else;
    that is the call [main] makes for a table missing from the live
    database. *)
Theorem diff_against_no_column
    (o : SetOrder) (target : dict ColumnInfo)
    (actual_struct : dict (list ActualRow)) (table : string) :
  dict_in actual_struct table = false ->
  compare_and_generate_sql o target [] = (map add_clause target, [], [])
  /\ diff_table o actual_struct table target = (map add_clause target, [], []).
Proof.
  intros Hmiss.
  assert (H : compare_and_generate_sql o target [] = (map add_clause target, [], [])).
  { rewrite compare_decomposed. unfold added, modified, dropped.
    rewrite (filter_all (is_added []) target) by reflexivity.
    rewrite (filter_none (is_modified []) target) by reflexivity.
    cbn. now rewrite set_iter_nil. }
  split; [exact H|].
  unfold diff_table, dict_get_or. unfold dict_in in Hmiss.
  destruct (dict_get actual_struct table); [discriminate | exact H].
Qed.

Lemma diff_against_no_column_witness :
  diff_table insertion_order [("other", [mkRow "x" "int" "NO"])] "t"
    [("id", mkInfo "INTEGER" None (Some false) None (Some true));
     ("name", mkInfo "STRING" (Some 50%Z) None None None)]
  = (["ADD COLUMN `id` int NOT NULL"; "ADD COLUMN `name` varchar(50) NULL"], [], []).
Proof.
  apply (diff_against_no_column insertion_order
           [("id", mkInfo "INTEGER" None (Some false) None (Some true));
            ("name", mkInfo "STRING" (Some 50%Z) None None None)]
           [("other", [mkRow "x" "int" "NO"])] "t").
  reflexivity.
Defined.

(** The differ scenario of the specification, for every set order. *)
Example diff_scenario (o : SetOrder) :
  compare_and_generate_sql o
    [("id", mkInfo "INTEGER" None (Some false) None (Some true));
     ("name", mkInfo "STRING" (Some 50%Z) None None None)]
    [mkRow "id" "int" "NO"; mkRow "legacy" "text" "YES"]
  = (["ADD COLUMN `name` varchar(50) NULL"], [], ["DROP COLUMN `legacy`"]).
Proof.
  rewrite compare_decomposed.
  assert (H : dropped o
                [("id", mkInfo "INTEGER" None (Some false) None (Some true));
                 ("name", mkInfo "STRING" (Some 50%Z) None None None)]
                [mkRow "id" "int" "NO"; mkRow "legacy" "text" "YES"]
              = ["legacy"]).
  { apply Permutation_length_1_inv, Permutation_sym.
    exact (dropped_perm o _ _). }
  rewrite H. vm_compute. reflexivity.
Qed.

(** ** When the table parser returns and when it raises *)


Lemma default_getitem_again (t : Tables) (k : string) :
  default_getitem (fst (default_getitem t k)) k = default_getitem t k.
Proof.
  unfold default_getitem. destruct (dict_get t k) as [d|] eqn:E; cbn [fst].
  - now rewrite E.
  - now rewrite dict_get_set_same.
Qed.









Lemma parse_statement_skips sp fs OUTDIR st stmt :
  re_search create_pattern stmt = None ->
  parse_statement sp fs OUTDIR st stmt = Done st.
Proof. intros H. unfold parse_statement. now rewrite H. Qed.




(** ** A statement without a semicolon *)

Lemma all_chars_span_snd (p q : ascii -> bool) (s : string) :
  all_chars p s = true -> all_chars p (snd (Py.span q s)) = true.
Proof.
  induction s as [|c s IH]; simpl; intros H; [reflexivity|].
  apply andb_true_iff in H. destruct H as [Hc Hs].
  destruct (q c).
  - specialize (IH Hs). destruct (Py.span q s). exact IH.
  - simpl. now rewrite Hc, Hs.
Qed.

Lemma all_chars_after_prefix_ci (p : ascii -> bool) (pre s r : string) :
  after_prefix_ci pre s = Some r -> all_chars p s = true -> all_chars p r = true.
Proof.
  revert s. induction pre as [|a pre IH]; intros s; simpl.
  - now intros [= ->].
  - destruct s as [|b s]; [discriminate|].
    destruct (Ascii.eqb _ _); [|discriminate].
    intros H Hs. simpl in Hs. apply andb_true_iff in Hs. apply (IH s H), Hs.
Qed.

Lemma all_chars_skip_backtick (p : ascii -> bool) (s : string) :
  all_chars p s = true -> all_chars p (skip_backtick s) = true.
Proof.
  intros H. unfold skip_backtick. destruct s as [|c s]; [reflexivity|].
  simpl in H. apply andb_true_iff in H. destruct H as [Hc Hs].
  destruct c as [[|] [|] [|] [|] [|] [|] [|] [|]]; simpl; rewrite ?Hc; assumption.
Qed.

Lemma all_chars_tail (p : ascii -> bool) (c : ascii) (s : string) :
  all_chars p (String c s) = true -> all_chars p s = true.
Proof. simpl. intros H. now apply andb_true_iff in H. Qed.

Lemma semicolon_follows_none s :
  all_chars not_semicolon s = true -> semicolon_follows s = false.
Proof.
  induction s as [|c s IH]; simpl; intros H; [reflexivity|].
  apply andb_true_iff in H. destruct H as [Hc Hs]. unfold not_semicolon in Hc.
  apply negb_true_iff in Hc. rewrite Hc. destruct (Ascii.eqb c ")"); auto.
Qed.

Lemma greedy_body_none s :
  all_chars not_semicolon s = true -> greedy_body s = None.
Proof.
  induction s as [|c s IH]; simpl; intros H; [reflexivity|].
  apply andb_true_iff in H. destruct H as [Hc Hs].
  rewrite (IH Hs), (semicolon_follows_none s Hs). now rewrite andb_false_r.
Qed.

Lemma create_pattern_needs_semicolon s :
  all_chars not_semicolon s = true -> create_pattern s = None.
Proof.
  intros H. unfold create_pattern.
  destruct (after_prefix_ci "CREATE TABLE" s) as [s0|] eqn:E0; [|reflexivity].
  pose proof (all_chars_after_prefix_ci _ _ _ _ E0 H) as H0.
  pose proof (all_chars_span_snd not_semicolon Py.isspace s0 H0) as H1.
  destruct (Py.span Py.isspace s0) as [blanks s1]. cbn [snd] in H1.
  destruct (Py.truthy blanks); [|reflexivity].
  pose proof (all_chars_span_snd not_semicolon Py.isword _
                (all_chars_skip_backtick _ _ H1)) as H2.
  destruct (Py.span Py.isword (skip_backtick s1)) as [name s2]. cbn [snd] in H2.
  destruct (Py.truthy name); [|reflexivity].
  pose proof (all_chars_span_snd not_semicolon Py.isspace _
                (all_chars_skip_backtick _ _ H2)) as H3.
  destruct (snd (Py.span Py.isspace (skip_backtick s2))) as [|c s3]; [reflexivity|].
  apply all_chars_tail in H3. rewrite (greedy_body_none s3 H3).
  destruct c as [[|] [|] [|] [|] [|] [|] [|] [|]]; reflexivity.
Qed.

Lemma search_needs_semicolon s :
  all_chars not_semicolon s = true -> re_search create_pattern s = None.
Proof.
  induction s as [|c s IH]; intros H.
  - reflexivity.
  - cbn [re_search]. rewrite (create_pattern_needs_semicolon _ H).
    apply IH. now apply all_chars_tail in H.
Qed.

(** ** The pattern of [split_create_table_statement] *)

Lemma table_pattern_matches name body :
  Py.truthy name = true ->
  all_chars (fun c => negb (is_backtick c)) name = true ->
  re_search table_pattern ("CREATE TABLE `" ++ name ++ "` (" ++ body)
  = Some (name, body).
Proof.
  intros Ht Hn.
  assert (H : table_pattern ("CREATE TABLE `" ++ name ++ "` (" ++ body)
              = Some (name, body)).
  { unfold table_pattern.
    change (after_prefix_ci "CREATE TABLE" ("CREATE TABLE `" ++ name ++ "` (" ++ body))
      with (Some (String " " (String "`" (name ++ String "`" (" (" ++ body))))).
    cbv iota.
    change (Py.span Py.isspace (String " " (String "`" (name ++ String "`" (" (" ++ body)))))
      with (" ", String "`" (name ++ String "`" (" (" ++ body))).
    cbv iota beta. cbn [Py.truthy].
    rewrite (span_append _ name "`" _ Hn eq_refl), Ht. reflexivity. }
  destruct ("CREATE TABLE `" ++ name ++ "` (" ++ body); cbn [re_search]; now rewrite H.
Qed.

(** ** The lines of a body *)

Lemma collect_columns_kept lines :
  forall current columns,
    collect_columns lines current columns
    = collect_kept (kept_lines lines) current columns.
Proof.
  induction lines as [|line lines IH]; intros current columns; [reflexivity|].
  cbn [collect_columns]. unfold kept_lines. cbn [map filter].
  destruct (Py.truthy (Py.strip line)); cbn [negb collect_kept].
  - destruct (_ || _ || _ || _); apply IH.
  - apply IH.
Qed.

(** ** The table parser: the properties of the specification *)

(** C7, as amended. [split_create_table_statement] finds the table name and
    everything after the opening parenthesis whatever follows, semicolon or
    not, and from the one-line statement of the scenario it makes the two
    column definitions and one index definition, that of the primary key
    (which keeps the parenthesis that closes the statement).
    [parse_structure] reads no table from a statement that holds no
    semicolon, the one-line statement among them; from the same statement
    written one definition per line and closed by a semicolon it builds the
    column map of the scenario. The hypotheses on [sp] say what the library
    does with these texts: each is one statement, and formatting the body
    keeps its three lines; the hypothesis on [fs] says that the file of the
    table can be written. *)
Theorem table_parser_scenario
    (sp : SqlParse) (fs : FileSystem) (OUTDIR name body stmt formatted : string)
    (st : ParseState) :
  Py.truthy name = true ->
  all_chars (fun c => negb (is_backtick c)) name = true ->
  all_chars not_semicolon stmt = true ->
  sqlparse_split sp scenario_statement = Ok [scenario_statement] ->
  sqlparse_split sp dumped_statement = Ok [dumped_statement] ->
  sqlparse_format sp dumped_body = Ok formatted ->
  kept_lines (Py.splitlines formatted) = scenario_lines ->
  fs_write fs [] (OUTDIR ++ "/" ++ "t" ++ ".sql") (Py.strip dumped_statement ++ nl)
  = None ->
  re_search table_pattern ("CREATE TABLE `" ++ name ++ "` (" ++ body)
  = Some (name, body)
  /\ split_create_table_statement scenario_statement
     = (["CREATE TABLE `t` (" ++ nl ++ "    `id` int NOT NULL," ++ nl
         ++ "    `n` varchar(10) NULL" ++ nl ++ ");"],
        ["ALTER TABLE `t` ADD PRIMARY KEY (`id`));"])
  /\ parse_statement sp fs OUTDIR st stmt = Done st
  /\ tables_of (parse_structure sp fs OUTDIR scenario_statement) = Ok []
  /\ tables_of (parse_structure sp fs OUTDIR dumped_statement)
     = Ok [("t", scenario_columns)].
Proof.
  intros Ht Hn Hsemi Hs1 Hs2 Hfmt Hf Hw.
  split; [now apply table_pattern_matches|].
  split; [vm_compute; reflexivity|].
  split; [now apply parse_statement_skips, search_needs_semicolon|].
  split.
  - unfold parse_structure. rewrite Hs1. cbn [parse_statements].
    rewrite parse_statement_skips; [reflexivity|].
    apply search_needs_semicolon. reflexivity.
  - unfold parse_structure. rewrite Hs2. cbn [parse_statements].
    unfold parse_statement.
    replace (re_search create_pattern dumped_statement)
      with (Some ("t", dumped_body)) by (vm_compute; reflexivity).
    cbv iota beta zeta. cbn [files tables]. rewrite Hw.
    unfold parse_body. rewrite Hfmt. cbn [bind].
    rewrite collect_columns_kept, Hf. vm_compute. reflexivity.
Qed.

Lemma table_parser_scenario_witness :
  tables_of (parse_structure sqlparse_plain fs_writable "dump" dumped_statement)
  = Ok [("t", scenario_columns)].
Proof.
  exact (proj2 (proj2 (proj2 (proj2
           (table_parser_scenario sqlparse_plain fs_writable "dump" "t"
              "`id` int NOT NULL, PRIMARY KEY (`id`)" "DROP TABLE `t`"
              dumped_body (mkParse [] [])
              eq_refl eq_refl eq_refl eq_refl eq_refl eq_refl eq_refl
              eq_refl))))).
Defined.

(** C7, the claim as stated fails: [parse_structure] reads no column map
    from the one-line statement of the scenario (it has no semicolon), and
    with a semicolon added it reads the column id alone. *)
Lemma scenario_statement_yields_no_table :
  tables_of (parse_structure sqlparse_plain fs_writable "dump" scenario_statement)
  = Ok []
  /\ tables_of (parse_structure sqlparse_plain fs_writable "dump"
                  (scenario_statement ++ ";"))
     = Ok [("t", [("id", mkInfo "INTEGER" None (Some false) (Some true) (Some true))])]
  /\ tables_of (parse_structure sqlparse_plain fs_writable "dump" scenario_statement)
     <> Ok [("t", scenario_columns)]
  /\ tables_of (parse_structure sqlparse_plain fs_writable "dump"
                  (scenario_statement ++ ";"))
     <> Ok [("t", scenario_columns)].
Proof.
  repeat split; try (vm_compute; reflexivity); vm_compute; discriminate.
Qed.




(** ** Further properties: the type mapper *)

Lemma type_map_canonical (base : string) :
  In (dict_get_or TYPE_MAP base "STRING") canonical_types.
Proof.
  unfold dict_get_or, TYPE_MAP, canonical_types. cbn [dict_get].
  repeat (match goal with
          | |- context [String.eqb ?a ?b] => destruct (String.eqb a b)
          end; [cbn; tauto|]).
  cbn. tauto.
Qed.

Lemma of_uint_nonneg (u : Decimal.uint) : (0 <= Z.of_uint u)%Z.
Proof. unfold Z.of_uint. apply N2Z.is_nonneg. Qed.

Lemma map_sql_type_info sql_type info :
  map_sql_type sql_type = Ok info ->
  set_in (c_type info) canonical_types = true
  /\ match c_length info with Some n => (0 <=? n)%Z | None => true end = true
  /\ acceptNULL info = None /\ required info = None /\ primary info = None.
Proof.
  unfold map_sql_type.
  assert (Hc : forall base,
             set_in (dict_get_or TYPE_MAP base "STRING") canonical_types = true)
    by (intros; apply set_in_In, type_map_canonical).
  destruct (re_sql_type sql_type) as [[base [digits|]]|].
  - destruct (Py.truthy digits).
    + destruct (py_int digits) as [n|e] eqn:E; [|discriminate].
      cbn [bind]. intros [= <-]. cbn. repeat split; [apply Hc|].
      unfold py_int in E.
      destruct (Nat.ltb int_max_str_digits (String.length digits));
        [discriminate|].
      destruct digits; [discriminate|].
      destruct (NilEmpty.uint_of_string _); [|discriminate].
      injection E as <-. apply Z.leb_le, of_uint_nonneg.
    + intros [= <-]. cbn. repeat split. apply Hc.
  - intros [= <-]. cbn. repeat split. apply Hc.
  - intros [= <-]. cbn. repeat split.
Qed.

(** X1. Whatever the raw type, [map_sql_type] either returns or raises
    ValueError. It raises exactly when the raw type is a base name followed
    at once by a parenthesised run of more than 4300 digits, the most that
    [int] converts. What it returns has one of the four canonical types, a
    length that is absent or not negative, and none of the keys acceptNULL,
    required and primary. *)
Theorem map_sql_type_is_canonical (sql_type : string) :
  match map_sql_type sql_type with
  | Ok info =>
      length_fits sql_type = true
      /\ In (c_type info) canonical_types
      /\ (forall n, c_length info = Some n -> (0 <= n)%Z)
      /\ acceptNULL info = None /\ required info = None /\ primary info = None
  | Raise e =>
      e = ValueError
      /\ length_fits sql_type = false
      /\ exists base digits rest,
           sql_type = base ++ "(" ++ digits ++ ")" ++ rest
           /\ Py.truthy base = true /\ all_chars Py.isword base = true
           /\ all_chars Py.isdigit digits = true
           /\ int_max_str_digits < String.length digits
  end.
Proof.
  destruct (length_fits sql_type) eqn:F.
  - destruct (map_sql_type_fits _ F) as [info E]. rewrite E.
    destruct (map_sql_type_info _ _ E) as (H1 & H2 & H3 & H4 & H5).
    split; [reflexivity|]. split; [now apply set_in_In|].
    split; [|auto]. intros n Hn. rewrite Hn in H2. now apply Z.leb_le.
  - rewrite (map_sql_type_overflows _ F). split; [reflexivity|].
    split; [reflexivity|]. unfold length_fits in F.
    destruct (re_sql_type sql_type) as [[base [digits|]]|] eqn:E;
      try discriminate.
    apply Nat.leb_gt in F.
    destruct (re_sql_type_shape _ _ _ E) as (rest & Hs & Hb & Hw & _ & Hd).
    exists base, digits, rest. repeat split; assumption.
Qed.

(** Characters and their lower-case form. *)

Ltac by_cases_on c :=
  destruct c as [[|] [|] [|] [|] [|] [|] [|] [|]]; reflexivity.

Lemma lower_char_idem c : Py.lower_char (Py.lower_char c) = Py.lower_char c.
Proof. by_cases_on c. Qed.

Lemma isword_lower_char c : Py.isword (Py.lower_char c) = Py.isword c.
Proof. by_cases_on c. Qed.

Lemma isdigit_lower_char c : Py.isdigit (Py.lower_char c) = Py.isdigit c.
Proof. by_cases_on c. Qed.

Lemma isspace_lower_char c : Py.isspace (Py.lower_char c) = Py.isspace c.
Proof. by_cases_on c. Qed.

Lemma lparen_lower_char c : Ascii.eqb (Py.lower_char c) "(" = Ascii.eqb c "(".
Proof. by_cases_on c. Qed.

Lemma rparen_lower_char c : Ascii.eqb (Py.lower_char c) ")" = Ascii.eqb c ")".
Proof. by_cases_on c. Qed.

Lemma lower_idem s : Py.lower (Py.lower s) = Py.lower s.
Proof. induction s as [|c s IH]; simpl; [reflexivity|]. now rewrite lower_char_idem, IH. Qed.

Lemma truthy_lower s : Py.truthy (Py.lower s) = Py.truthy s.
Proof. now destruct s. Qed.

Lemma span_lower (p : ascii -> bool) (s : string) :
  (forall c, p (Py.lower_char c) = p c) ->
  Py.span p (Py.lower s)
  = (Py.lower (fst (Py.span p s)), Py.lower (snd (Py.span p s))).
Proof.
  intros Hp. induction s as [|c s IH]; simpl; [reflexivity|].
  rewrite Hp. destruct (p c); [|reflexivity].
  rewrite IH. now destruct (Py.span p s).
Qed.

Lemma lower_digits s : all_chars Py.isdigit s = true -> Py.lower s = s.
Proof.
  induction s as [|c s IH]; simpl; [reflexivity|]. intros H.
  apply andb_true_iff in H. destruct H as [Hc Hs]. rewrite (IH Hs). f_equal.
  destruct c as [[|] [|] [|] [|] [|] [|] [|] [|]]; try discriminate Hc; reflexivity.
Qed.

(** The pattern of [map_sql_type], with its tests on characters spelled as
    comparisons. *)
Lemma re_sql_type_eq (sql_type : string) :
  re_sql_type sql_type
  = let (base, rest) := Py.span Py.isword sql_type in
    if Py.truthy base then
      match rest with
      | EmptyString => Some (base, None)
      | String c rest1 =>
          if Ascii.eqb c "(" then
            let (digits, rest2) := Py.span Py.isdigit rest1 in
            match rest2 with
            | EmptyString => Some (base, None)
            | String c2 _ =>
                if Ascii.eqb c2 ")" && Py.truthy digits
                then Some (base, Some digits) else Some (base, None)
            end
          else Some (base, None)
      end
    else None.
Proof.
  unfold re_sql_type. destruct (Py.span Py.isword sql_type) as [base rest].
  destruct (Py.truthy base); [|reflexivity].
  destruct rest as [|c rest1]; [reflexivity|].
  destruct (Ascii.eqb_spec c "(") as [->|Hc].
  - destruct (Py.span Py.isdigit rest1) as [digits rest2].
    destruct rest2 as [|c2 rest3]; [reflexivity|].
    destruct (Ascii.eqb_spec c2 ")") as [->|Hc2].
    + now destruct (Py.truthy digits).
    + destruct c2 as [[|] [|] [|] [|] [|] [|] [|] [|]]; try reflexivity.
      now contradiction Hc2.
  - destruct c as [[|] [|] [|] [|] [|] [|] [|] [|]]; try reflexivity.
    now contradiction Hc.
Qed.

Lemma re_sql_type_lower (sql_type : string) :
  re_sql_type (Py.lower sql_type)
  = match re_sql_type sql_type with
    | Some (base, length) => Some (Py.lower base, length)
    | None => None
    end.
Proof.
  rewrite !re_sql_type_eq. rewrite (span_lower _ _ isword_lower_char).
  destruct (Py.span Py.isword sql_type) as [base rest]. cbn [fst snd].
  rewrite truthy_lower. destruct (Py.truthy base); [|reflexivity].
  destruct rest as [|c rest1]; [reflexivity|]. cbn [Py.lower].
  rewrite lparen_lower_char. destruct (Ascii.eqb c "("); [|reflexivity].
  rewrite (span_lower _ _ isdigit_lower_char).
  pose proof (span_fst_all Py.isdigit rest1) as Hd.
  destruct (Py.span Py.isdigit rest1) as [digits rest2]. cbn [fst snd] in *.
  rewrite (lower_digits _ Hd).
  destruct rest2 as [|c2 rest3]; [reflexivity|]. cbn [Py.lower].
  rewrite rparen_lower_char. now destruct (Ascii.eqb c2 ")" && Py.truthy digits).
Qed.

Lemma map_sql_type_lower (sql_type : string) :
  map_sql_type (Py.lower sql_type) = map_sql_type sql_type.
Proof.
  unfold map_sql_type. rewrite re_sql_type_lower.
  destruct (re_sql_type sql_type) as [[base length]|]; [|reflexivity].
  now rewrite lower_idem.
Qed.

(** X2. On raw types whose characters are all in the range U+0000..U+00FF,
    as every text is here, the type mapper does not look at the case of the
    letters: two such raw types that are equal once lowercased map to the
    same result, or both make it raise. (Beyond that range lowercasing can
    turn one character into two, and the property is not stated.) *)
Theorem map_sql_type_ignores_case (raw1 raw2 : string) :
  Py.lower raw1 = Py.lower raw2 -> map_sql_type raw1 = map_sql_type raw2.
Proof.
  intros H. now rewrite <- (map_sql_type_lower raw1), H, map_sql_type_lower.
Qed.

Lemma map_sql_type_ignores_case_witness :
  map_sql_type "VarChar(255)" = map_sql_type "VARCHAR(255)".
Proof.
  exact (map_sql_type_ignores_case "VarChar(255)" "VARCHAR(255)" eq_refl).
Defined.

(** ** Further properties: type normalisation *)

Lemma all_chars_lstrip (p q : ascii -> bool) s :
  all_chars p s = true -> all_chars p (Py.lstrip_by q s) = true.
Proof.
  induction s as [|c s IH]; simpl; [reflexivity|]. intros H.
  destruct (q c); [|exact H]. apply IH. now apply andb_true_iff in H.
Qed.

Lemma all_chars_rstrip (p q : ascii -> bool) s :
  all_chars p s = true -> all_chars p (Py.rstrip_by q s) = true.
Proof.
  induction s as [|c s IH]; simpl; [reflexivity|]. intros H.
  apply andb_true_iff in H. destruct H as [Hc Hs]. specialize (IH Hs).
  destruct (Py.rstrip_by q s).
  - destruct (q c); simpl; [reflexivity | now rewrite Hc].
  - simpl in *. now rewrite Hc, IH.
Qed.

Lemma all_chars_strip (p q : ascii -> bool) s :
  all_chars p s = true -> all_chars p (Py.strip_by q s) = true.
Proof. intros H. now apply all_chars_rstrip, all_chars_lstrip. Qed.

Lemma all_chars_span_fst (p q : ascii -> bool) s :
  all_chars p s = true -> all_chars p (fst (Py.span q s)) = true.
Proof.
  induction s as [|c s IH]; simpl; [reflexivity|]. intros H.
  apply andb_true_iff in H. destruct H as [Hc Hs]. specialize (IH Hs).
  destruct (q c); [|reflexivity]. destruct (Py.span q s). simpl in *.
  now rewrite Hc, IH.
Qed.

Lemma rstrip_by_idem (p : ascii -> bool) s :
  Py.rstrip_by p (Py.rstrip_by p s) = Py.rstrip_by p s.
Proof.
  induction s as [|c s IH]; simpl; [reflexivity|].
  destruct (Py.rstrip_by p s) as [|d r] eqn:E.
  - destruct (p c) eqn:Hc; simpl; [reflexivity | now rewrite Hc].
  - simpl. simpl in IH. now rewrite IH.
Qed.

Lemma lstrip_starts_outside p s : starts_outside p (Py.lstrip_by p s) = true.
Proof.
  induction s as [|c s IH]; simpl; [reflexivity|].
  destruct (p c) eqn:Hc; [exact IH | simpl; now rewrite Hc].
Qed.

Lemma lstrip_fixed p s : starts_outside p s = true -> Py.lstrip_by p s = s.
Proof.
  destruct s as [|c s]; simpl; [reflexivity|]. intros H.
  apply negb_true_iff in H. now rewrite H.
Qed.

Lemma rstrip_starts_outside p s :
  starts_outside p s = true -> starts_outside p (Py.rstrip_by p s) = true.
Proof.
  destruct s as [|c s]; simpl; [reflexivity|]. intros H.
  destruct (Py.rstrip_by p s); [|exact H].
  apply negb_true_iff in H. rewrite H. simpl. now rewrite H.
Qed.

Lemma strip_by_idem p s : Py.strip_by p (Py.strip_by p s) = Py.strip_by p s.
Proof.
  unfold Py.strip_by.
  rewrite (lstrip_fixed p (Py.rstrip_by p (Py.lstrip_by p s))).
  - apply rstrip_by_idem.
  - apply rstrip_starts_outside, lstrip_starts_outside.
Qed.

Lemma hd_split_on sep s :
  forall cur,
    hd EmptyString (Py.split_on sep cur s)
    = cur ++ fst (Py.span (fun c => negb (Ascii.eqb c sep)) s).
Proof.
  induction s as [|c s IH]; intros cur; simpl.
  - now rewrite append_nil_r.
  - destruct (Ascii.eqb c sep); simpl.
    + now rewrite append_nil_r.
    + rewrite IH. destruct (Py.span _ s). simpl. now rewrite append_assoc.
Qed.

Lemma contains_lparen s : Py.contains s "(" = negb (all_chars not_lparen s).
Proof.
  induction s as [|c s IH]; [reflexivity|].
  cbn [Py.contains all_chars]. rewrite IH. unfold Py.startswith, not_lparen.
  cbn [Py.after_prefix]. rewrite (Ascii.eqb_sym "(" c).
  destruct (Ascii.eqb c "("); reflexivity.
Qed.

Lemma normalize_type_eq sql_type :
  normalize_type sql_type
  = Py.strip (fst (Py.span not_lparen (Py.lower sql_type))).
Proof.
  unfold normalize_type, Py.split. rewrite contains_lparen.
  destruct (all_chars not_lparen (Py.lower sql_type)) eqn:E; cbn [negb].
  - now rewrite (span_all_end _ _ E).
  - now rewrite hd_split_on.
Qed.

Lemma lower_app a b : Py.lower (a ++ b) = Py.lower a ++ Py.lower b.
Proof. induction a as [|c a IH]; simpl; [reflexivity | now rewrite IH]. Qed.

Lemma span_until_lparen a b :
  fst (Py.span not_lparen (a ++ String "(" b)) = fst (Py.span not_lparen a).
Proof.
  induction a as [|c a IH]; simpl; [reflexivity|].
  destruct (not_lparen c); [|reflexivity].
  destruct (Py.span not_lparen (a ++ String "(" b)), (Py.span not_lparen a).
  simpl in *. now rewrite IH.
Qed.

Lemma all_lowered_lower s : all_chars is_lowered (Py.lower s) = true.
Proof.
  induction s as [|c s IH]; simpl; [reflexivity|]. rewrite IH.
  unfold is_lowered. now rewrite lower_char_idem, Ascii.eqb_refl.
Qed.

Lemma lower_fixed s : all_chars is_lowered s = true -> Py.lower s = s.
Proof.
  induction s as [|c s IH]; simpl; [reflexivity|]. intros H.
  apply andb_true_iff in H. destruct H as [Hc Hs].
  apply Ascii.eqb_eq in Hc. now rewrite Hc, (IH Hs).
Qed.

(** X3. Normalising a type twice is normalising it once, and the normal
    form holds no opening parenthesis, is in lower case and has no blank
    at either end. The normal form does not depend on what follows the
    first opening parenthesis, nor on the case of the letters. *)
Theorem normalize_type_normal_form (sql_type rest : string) :
  normalize_type (normalize_type sql_type) = normalize_type sql_type
  /\ Py.contains (normalize_type sql_type) "(" = false
  /\ Py.lower (normalize_type sql_type) = normalize_type sql_type
  /\ Py.strip (normalize_type sql_type) = normalize_type sql_type
  /\ normalize_type (sql_type ++ String "(" rest) = normalize_type sql_type
  /\ normalize_type (Py.lower sql_type) = normalize_type sql_type.
Proof.
  assert (Hp : all_chars not_lparen (normalize_type sql_type) = true).
  { rewrite normalize_type_eq. apply all_chars_strip, span_fst_all. }
  assert (Hl : Py.lower (normalize_type sql_type) = normalize_type sql_type).
  { apply lower_fixed. rewrite normalize_type_eq.
    apply all_chars_strip, all_chars_span_fst, all_lowered_lower. }
  assert (Hs : Py.strip (normalize_type sql_type) = normalize_type sql_type).
  { rewrite normalize_type_eq. apply strip_by_idem. }
  split; [|split; [|split; [|split; [|split]]]]; try assumption.
  - rewrite (normalize_type_eq (normalize_type sql_type)), Hl.
    now rewrite (span_all_end _ _ Hp).
  - now rewrite contains_lparen, Hp.
  - rewrite !normalize_type_eq, lower_app. cbn [Py.lower].
    replace (Py.lower_char "(") with "("%char by reflexivity.
    now rewrite span_until_lparen.
  - now rewrite !normalize_type_eq, lower_idem.
Qed.

(** ** Further properties: the statement splitter *)

Lemma final_definition_trimmed buf :
  Forall (fun d => Py.strip d = d) (final_definition buf).
Proof.
  unfold final_definition. destruct (Py.truthy _); constructor; [|constructor].
  apply strip_by_idem.
Qed.

Lemma final_definition_length buf : length (final_definition buf) <= 1.
Proof. unfold final_definition. destruct (Py.truthy _); simpl; lia. Qed.

Lemma spec_split_shape (n : nat) :
  forall s state depth buf,
    String.length s <= n ->
    Forall (fun d => Py.strip d = d) (spec_split s state depth buf)
    /\ length (spec_split s state depth buf) <= 1 + count_char "," s.
Proof.
  induction n as [|n IH]; intros s state depth buf Hlen.
  - destruct s; [|simpl in Hlen; lia]. simpl.
    split; [apply final_definition_trimmed | apply final_definition_length].
  - destruct s as [|c rest].
    { simpl. split; [apply final_definition_trimmed | apply final_definition_length]. }
    simpl in Hlen. assert (Hrest : String.length rest <= n) by lia.
    cbn [spec_split count_char].
    destruct (closing_quote state) as [q|] eqn:Hq.
    + destruct (Ascii.eqb c q) eqn:E.
      * destruct rest as [|c' rest'].
        { destruct (IH EmptyString normal depth (buf ++ str1 c) Hrest) as [H1 H2].
          split; [exact H1 | simpl in *; lia]. }
        destruct (Ascii.eqb c' q) eqn:E'.
        -- destruct (IH rest' state depth (buf ++ String c (str1 c'))) as [H1 H2];
             [simpl in Hrest; lia|].
           split; [exact H1 | cbn [count_char]; lia].
        -- destruct (IH (String c' rest') normal depth (buf ++ str1 c) Hrest)
             as [H1 H2].
           split; [exact H1 | lia].
      * destruct (IH rest state depth (buf ++ str1 c) Hrest) as [H1 H2].
        split; [exact H1 | lia].
    + assert (Hstep : forall st d b,
                 Forall (fun d => Py.strip d = d) (spec_split rest st d b)
                 /\ length (spec_split rest st d b)
                    <= 1 + ((if Ascii.eqb c "," then 1 else 0) + count_char "," rest)).
      { intros st d b. destruct (IH rest st d b Hrest) as [H1 H2].
        split; [exact H1 | lia]. }
      destruct (Ascii.eqb c "'"); [apply Hstep|].
      destruct (Ascii.eqb c "034"); [apply Hstep|].
      destruct (Ascii.eqb c "("); [apply Hstep|].
      destruct (Ascii.eqb c ")"); [apply Hstep|].
      destruct (Ascii.eqb c ",") eqn:Ec; cbn [andb]; [|apply Hstep].
      destruct (depth =? 0)%Z.
      2:{ destruct (IH rest normal depth (buf ++ str1 c) Hrest) as [H1 H2].
          split; [exact H1 | lia]. }
      destruct (IH rest normal depth EmptyString Hrest) as [H1 H2]. split.
      * constructor; [apply strip_by_idem | exact H1].
      * simpl. lia.
Qed.

Lemma lstrip_all p s : all_chars p s = true -> Py.lstrip_by p s = EmptyString.
Proof.
  induction s as [|c s IH]; simpl; [reflexivity|]. intros H.
  apply andb_true_iff in H. destruct H as [Hc Hs]. now rewrite Hc, IH.
Qed.

Lemma isspace_ordinary c : Py.isspace c = true -> ordinary c = true.
Proof.
  destruct c as [[|] [|] [|] [|] [|] [|] [|] [|]]; intros H;
    try discriminate H; reflexivity.
Qed.

Lemma blank_ordinary s : all_chars Py.isspace s = true -> all_chars ordinary s = true.
Proof.
  induction s as [|c s IH]; simpl; [reflexivity|]. intros H.
  apply andb_true_iff in H. destruct H as [Hc Hs].
  now rewrite (isspace_ordinary c Hc), (IH Hs).
Qed.

(** X4. Every definition the splitter returns is trimmed, there is at most
    one more definition than the text has commas, and a text of blanks (the
    empty text among them) gives no definition at all. *)
Theorem splitter_output_shape (definition_block blank : string) :
  all_chars Py.isspace blank = true ->
  Forall (fun d => Py.strip d = d) (split_sql_definitions definition_block)
  /\ length (split_sql_definitions definition_block)
     <= 1 + count_char "," definition_block
  /\ split_sql_definitions blank = [].
Proof.
  intros Hb. rewrite !split_refines. unfold spec_split_definitions.
  destruct (spec_split_shape (String.length definition_block) definition_block
              normal 0 EmptyString (le_n _)) as [H1 H2].
  split; [exact H1|]. split; [exact H2|].
  rewrite <- (append_nil_r blank) at 1.
  rewrite (spec_split_copies blank EmptyString 0 EmptyString
             (ordinary_no_quote_or_paren _ (blank_ordinary _ Hb))
             (or_intror (blank_ordinary _ Hb))).
  cbn [spec_split append]. unfold final_definition, Py.strip, Py.strip_by.
  now rewrite (lstrip_all _ _ Hb).
Qed.

Lemma splitter_output_shape_witness :
  split_sql_definitions (String " " (String "009" (String "010" " "))) = [].
Proof.
  exact (proj2 (proj2 (splitter_output_shape "`a` int,,`b` text"
                         (String " " (String "009" (String "010" " ")))
                         eq_refl))).
Defined.

(** ** Further properties: the table definition parser *)

Lemma classify_definitions (definitions : list string) :
  forall column_defs index_defs,
    fold_left
      (fun '(column_defs, index_defs) line =>
         let line_upper := Py.upper line in
         if Py.startswith_any line_upper index_prefixes
         then (column_defs, (index_defs ++ [line])%list)
         else ((column_defs ++ [line])%list, index_defs))
      definitions (column_defs, index_defs)
    = ((column_defs
        ++ filter (fun d => negb (is_index_definition d)) definitions)%list,
       (index_defs ++ filter is_index_definition definitions)%list).
Proof.
  induction definitions as [|d definitions IH]; intros column_defs index_defs.
  - simpl. now rewrite !app_nil_r.
  - cbn [fold_left filter]. cbv beta zeta iota.
    change (Py.startswith_any (Py.upper d) index_prefixes)
      with (is_index_definition d).
    destruct (is_index_definition d); cbn [negb];
      rewrite IH, <- app_assoc; reflexivity.
Qed.

(** X5. From a statement that opens with CREATE TABLE and a name between
    backticks, [split_create_table_statement] makes one CREATE TABLE
    statement out of the definitions that do not start with an index or
    constraint keyword, and one ALTER TABLE ... ADD statement for each
    definition that does, both in the order of the text; no definition is
    lost and none is used twice. *)
Theorem split_create_table_partitions (name body : string) :
  Py.truthy name = true ->
  all_chars (fun c => negb (is_backtick c)) name = true ->
  split_create_table_statement ("CREATE TABLE `" ++ name ++ "` (" ++ body)
  = (["CREATE TABLE `" ++ name ++ "` (" ++ nl ++ "    "
      ++ Py.join ("," ++ nl ++ "    ")
           (filter (fun d => negb (is_index_definition d))
                   (split_sql_definitions (Py.strip body)))
      ++ nl ++ ");"],
     map (fun index => "ALTER TABLE `" ++ name ++ "` ADD " ++ index ++ ";")
         (filter is_index_definition (split_sql_definitions (Py.strip body))))
  /\ length (filter (fun d => negb (is_index_definition d))
                    (split_sql_definitions (Py.strip body)))
     + length (snd (split_create_table_statement
                      ("CREATE TABLE `" ++ name ++ "` (" ++ body)))
     = length (split_sql_definitions (Py.strip body)).
Proof.
  intros Ht Hn.
  assert (H : split_create_table_statement
                ("CREATE TABLE `" ++ name ++ "` (" ++ body)
              = (["CREATE TABLE `" ++ name ++ "` (" ++ nl ++ "    "
                  ++ Py.join ("," ++ nl ++ "    ")
                       (filter (fun d => negb (is_index_definition d))
                               (split_sql_definitions (Py.strip body)))
                  ++ nl ++ ");"],
                 map (fun index =>
                        "ALTER TABLE `" ++ name ++ "` ADD " ++ index ++ ";")
                     (filter is_index_definition
                             (split_sql_definitions (Py.strip body))))).
  { unfold split_create_table_statement.
    rewrite (table_pattern_matches name body Ht Hn).
    cbv iota beta. rewrite classify_definitions. reflexivity. }
  split; [exact H|]. rewrite H. cbn [snd]. rewrite length_map, Nat.add_comm.
  apply filter_length.
Qed.

Lemma split_create_table_partitions_witness :
  snd (split_create_table_statement
         ("CREATE TABLE `" ++ "orders" ++ "` ("
          ++ "`id` int NOT NULL,`total` decimal(10,2),primary key (`id`),KEY `k` (`total`)"))
  = ["ALTER TABLE `orders` ADD primary key (`id`);";
     "ALTER TABLE `orders` ADD KEY `k` (`total`);"].
Proof.
  rewrite (proj1 (split_create_table_partitions "orders"
             "`id` int NOT NULL,`total` decimal(10,2),primary key (`id`),KEY `k` (`total`)"
             eq_refl eq_refl)).
  reflexivity.
Defined.

Lemma startswith_contains pre sub :
  forall s, Py.startswith s (pre ++ sub) = true -> Py.contains s sub = true.
Proof.
  induction pre as [|a pre IH]; intros s H.
  - destruct s; cbn [Py.contains]; cbn [append] in H; now rewrite H.
  - destruct s as [|b s]; [discriminate|].
    unfold Py.startswith in H. cbn [append Py.after_prefix] in H.
    destruct (Ascii.eqb a b); [|discriminate].
    cbn [Py.contains]. rewrite (IH s); [apply orb_true_r|exact H].
Qed.

Lemma contains_longer pre sub s :
  Py.contains s (pre ++ sub) = true -> Py.contains s sub = true.
Proof.
  induction s as [|c s IH]; cbn [Py.contains]; intros H.
  - rewrite orb_false_r in H. apply startswith_contains in H. exact H.
  - apply orb_true_iff in H. destruct H as [H|H].
    + apply startswith_contains in H. exact H.
    + rewrite (IH H). apply orb_true_r.
Qed.

Lemma no_key_no_primary_key line :
  Py.contains line "KEY" = false -> Py.contains line "PRIMARY KEY" = false.
Proof.
  intros H. destruct (Py.contains line "PRIMARY KEY") eqn:E; [|reflexivity].
  apply (contains_longer "PRIMARY " "KEY") in E. congruence.
Qed.

(** X6. The first loop of [parse_structure] lets go of a last line that is
    not blank and neither ends in a comma or a closing parenthesis nor holds
    the word KEY: the columns collected are those of the lines before it.
    (Such is the last column of a table that has no key, unless its type
    ends the line with a parenthesis.) *)
Theorem unterminated_last_line_is_lost
    (lines : list string) (line current : string) (columns : list string) :
  Py.truthy (Py.strip line) = true ->
  Py.endswith (Py.strip line) "," = false ->
  Py.endswith (Py.strip line) ")" = false ->
  Py.contains (Py.strip line) "KEY" = false ->
  collect_columns (lines ++ [line]) current columns
  = collect_columns lines current columns.
Proof.
  intros Ht Hc Hp Hk. revert current columns.
  induction lines as [|l lines IH]; intros current columns.
  - rewrite app_nil_l. cbn [collect_columns]. cbv zeta.
    rewrite Ht, Hc, Hp, Hk, (no_key_no_primary_key _ Hk). reflexivity.
  - rewrite <- app_comm_cons. cbn [collect_columns]. cbv zeta.
    destruct (negb (Py.truthy (Py.strip l))); [apply IH|].
    destruct (_ || _ || _ || _); apply IH.
Qed.

Lemma unterminated_last_line_is_lost_witness :
  collect_columns (["`id` int NOT NULL,"; "`email` varchar(80) NOT NULL,"]
                   ++ ["  `note` text DEFAULT NULL"]) EmptyString []
  = collect_columns ["`id` int NOT NULL,"; "`email` varchar(80) NOT NULL,"]
                    EmptyString [].
Proof.
  exact (unterminated_last_line_is_lost
           ["`id` int NOT NULL,"; "`email` varchar(80) NOT NULL,"]
           "  `note` text DEFAULT NULL" EmptyString []
           eq_refl eq_refl eq_refl eq_refl).
Defined.




(** ** Further properties: what [parse_structure] stores *)

Lemma dict_all_set {V} (p : V -> bool) (d : dict V) k v :
  dict_all p d = true -> p v = true -> dict_all p (dict_set d k v) = true.
Proof.
  unfold dict_all. induction d as [|[k' v'] d IH]; simpl; intros Hd Hv.
  - now rewrite Hv.
  - apply andb_true_iff in Hd. destruct Hd as [H1 H2].
    destruct (String.eqb k' k); simpl.
    + now rewrite Hv, H2.
    + now rewrite H1, IH.
Qed.

Lemma dict_all_get {V} (p : V -> bool) (d : dict V) k v :
  dict_all p d = true -> dict_get d k = Some v -> p v = true.
Proof.
  unfold dict_all. induction d as [|[k' v'] d IH]; simpl; intros Hd Hg.
  - discriminate.
  - apply andb_true_iff in Hd. destruct Hd as [H1 H2].
    destruct (String.eqb k' k); [now injection Hg as <- | now apply IH].
Qed.

Lemma default_getitem_ok (t : Tables) k :
  tables_ok t = true ->
  tables_ok (fst (default_getitem t k)) = true
  /\ dict_all column_ok (snd (default_getitem t k)) = true.
Proof.
  intros Ht. unfold default_getitem.
  destruct (dict_get t k) as [d|] eqn:E; cbn [fst snd].
  - split; [exact Ht | exact (dict_all_get _ _ _ _ Ht E)].
  - split; [|reflexivity]. now apply dict_all_set.
Qed.

Lemma foldM_preserves {A B} (P : A -> Prop) (f : A -> B -> result A) :
  (forall a b a', P a -> f a b = Ok a' -> P a') ->
  forall l a a', P a -> foldM f l a = Ok a' -> P a'.
Proof.
  intros Hf. induction l as [|b l IH]; intros a a' Ha; simpl.
  - now intros [= <-].
  - destruct (f a b) as [a1|e] eqn:E; [|discriminate]. cbn [bind].
    apply IH. exact (Hf _ _ _ Ha E).
Qed.

Lemma parse_column_ok table_name t col_line t' :
  tables_ok t = true ->
  parse_column table_name t col_line = Ok t' ->
  tables_ok t' = true.
Proof.
  intros Ht. unfold parse_column.
  destruct (Py.startswith_any _ _); [now intros [= <-]|].
  destruct (column_pattern col_line) as [[[[col_name col_type] g3] rest]|];
    [|now intros [= <-]].
  destruct (map_sql_type col_type) as [info|e] eqn:E; [|discriminate].
  cbn [bind]. destruct (map_sql_type_info _ _ E) as (H1 & H2 & H3 & H4 & _).
  destruct (default_getitem_ok t table_name Ht) as [Ht1 Hc].
  destruct (default_getitem t table_name) as [t1 cols]. cbn [fst snd] in *.
  intros [= <-]. apply dict_all_set; [exact Ht1|].
  apply dict_all_set; [exact Hc|].
  unfold column_ok.
  destruct (Py.contains (Py.upper rest) "NOT NULL");
    cbn [with_acceptNULL with_required c_type c_length acceptNULL required negb];
    rewrite H1, H2; [reflexivity | now rewrite H4].
Qed.

Lemma mark_primary_ok table_name t k t' :
  tables_ok t = true ->
  mark_primary table_name t k = Ok t' ->
  tables_ok t' = true.
Proof.
  intros Ht. unfold mark_primary.
  pose proof (default_getitem_again t table_name) as Hagain.
  destruct (default_getitem_ok t table_name Ht) as [Ht1 Hc].
  destruct (default_getitem t table_name) as [t1 cols]. cbn [fst snd] in *.
  destruct (dict_in cols k); [|now intros [= <-]].
  rewrite Hagain. unfold dict_getitem.
  destruct (dict_get cols k) as [info|] eqn:E; [|discriminate].
  cbn [bind]. intros [= <-].
  apply dict_all_set; [exact Ht1|]. apply dict_all_set; [exact Hc|].
  pose proof (dict_all_get _ _ _ _ Hc E) as Hi. exact Hi.
Qed.

Lemma parse_body_ok sp table_name body t t' :
  tables_ok t = true ->
  parse_body sp table_name body t = Ok t' ->
  tables_ok t' = true.
Proof.
  intros Ht. unfold parse_body.
  destruct (sqlparse_format sp body) as [formatted|e]; [|discriminate].
  cbn [bind].
  destruct (foldM (parse_column table_name) _ t) as [t1|e] eqn:E1;
    [|discriminate].
  cbn [bind]. intros E2.
  assert (H1 : tables_ok t1 = true).
  { refine (foldM_preserves (fun t => tables_ok t = true) _ _ _ _ _ Ht E1).
    intros a b a'. apply parse_column_ok. }
  refine (foldM_preserves (fun t => tables_ok t = true) _ _ _ _ _ H1 E2).
  intros a b a' Ha. apply (foldM_preserves (fun t => tables_ok t = true));
    [|exact Ha].
  intros a0 b0 a0'. apply mark_primary_ok.
Qed.

Lemma parse_statement_ok sp fs OUTDIR st stmt st' :
  tables_ok (tables st) = true ->
  parse_statement sp fs OUTDIR st stmt = Done st' ->
  tables_ok (tables st') = true.
Proof.
  intros Ht. unfold parse_statement.
  destruct (re_search create_pattern stmt) as [[table_name body]|];
    [|now intros [= <-]].
  destruct (fs_write fs (files st) _ _); [discriminate|].
  destruct (parse_body sp table_name body (tables st)) as [t2|e] eqn:E;
    [|discriminate].
  intros [= <-]. cbn [tables]. exact (parse_body_ok _ _ _ _ _ Ht E).
Qed.

Lemma parse_statements_ok sp fs OUTDIR statements :
  forall st st',
    tables_ok (tables st) = true ->
    parse_statements sp fs OUTDIR statements st = Done st' ->
    tables_ok (tables st') = true.
Proof.
  induction statements as [|stmt statements IH]; intros st st' Ht.
  - now intros [= <-].
  - cbn [parse_statements].
    destruct (parse_statement sp fs OUTDIR st stmt) as [st1|e w] eqn:E;
      [|discriminate].
    apply IH. exact (parse_statement_ok _ _ _ _ _ _ Ht E).
Qed.

(** X8. Every column that [parse_structure] stores when it returns, in
    every table and for every input, has one of the four canonical types, a
    length that is absent or not negative, the key acceptNULL, and the key
    required (set to true) exactly when acceptNULL is false. *)
Theorem parse_structure_stores_canonical_columns
    (sp : SqlParse) (fs : FileSystem) (OUTDIR sql_text : string)
    (st : ParseState) :
  parse_structure sp fs OUTDIR sql_text = Done st ->
  tables_ok (tables st) = true
  /\ (forall table c info,
        column_of (tables st) table c = Some info ->
        In (c_type info) canonical_types
        /\ (forall n, c_length info = Some n -> (0 <= n)%Z)
        /\ exists b, acceptNULL info = Some b
                     /\ required info = (if b then None else Some true)).
Proof.
  intros Hst. unfold parse_structure in Hst.
  destruct (sqlparse_split sp sql_text) as [statements|e]; [|discriminate].
  assert (Hok : tables_ok (tables st) = true).
  { apply (parse_statements_ok sp fs OUTDIR statements (mkParse [] []) st);
      [reflexivity | exact Hst]. }
  split; [exact Hok|].
  intros table c info Hc. unfold column_of, dict_get_or in Hc.
  destruct (dict_get (tables st) table) as [cols|] eqn:E; [|discriminate].
  pose proof (dict_all_get _ _ _ _ (dict_all_get _ _ _ _ Hok E) Hc) as Hi.
  unfold column_ok in Hi. rewrite !andb_true_iff in Hi.
  destruct Hi as [[H1 H2] H3].
  split; [now apply set_in_In|]. split.
  - intros n Hn. rewrite Hn in H2. now apply Z.leb_le.
  - destruct (acceptNULL info) as [[|]|], (required info) as [[|]|];
      try discriminate; eexists; split; reflexivity.
Qed.

Lemma parse_structure_stores_canonical_columns_witness :
  tables_ok [("t", scenario_columns)] = true.
Proof.
  exact (proj1 (parse_structure_stores_canonical_columns
                  sqlparse_plain fs_writable "dump" dumped_statement
                  (mkParse [("t", scenario_columns)]
                           [("dump/t.sql", dumped_statement ++ nl)])
                  eq_refl)).
Defined.

Lemma dict_get_set_other {V} (d : dict V) k k' v :
  k <> k' -> dict_get (dict_set d k v) k' = dict_get d k'.
Proof.
  intros Hne. induction d as [|[k0 v0] d IH]; simpl.
  - apply String.eqb_neq in Hne. now rewrite Hne.
  - destruct (String.eqb_spec k0 k) as [->|H0]; simpl.
    + apply String.eqb_neq in Hne. now rewrite Hne.
    + now rewrite IH.
Qed.

Lemma dict_get_set {V} (d : dict V) k k' v :
  dict_get (dict_set d k v) k'
  = if String.eqb k k' then Some v else dict_get d k'.
Proof.
  destruct (String.eqb_spec k k') as [->|Hne].
  - apply dict_get_set_same.
  - now apply dict_get_set_other.
Qed.



Lemma forget_primary_with i b :
  forget_primary (with_primary i b) = forget_primary i.
Proof. reflexivity. Qed.


(** ** Further properties: the index parser *)

Lemma index_info_of_ok action :
  Py.truthy action = true ->
  Py.strip_chars ",;" action = action ->
  index_ok (index_info_of action) = true.
Proof.
  intros Ht Hs. unfold index_ok, index_info_of.
  destruct (index_pattern action) as [[[u name] cols]|]; cbn [idx_raw idx_name idx_columns idx_unique];
    now rewrite Ht, Hs, String.eqb_refl.
Qed.

Lemma parse_action_ok table_name m action :
  dict_all (forallb index_ok) m = true ->
  dict_all (forallb index_ok) (parse_action table_name m action) = true.
Proof.
  intros Hm. unfold parse_action.
  destruct (Py.truthy (Py.strip_chars ",;" (Py.strip action))) eqn:Ht;
    cbn [negb]; [|exact Hm].
  apply dict_all_set; [exact Hm|].
  rewrite forallb_app. cbn [forallb].
  fold (index_info_of (Py.strip_chars ",;" (Py.strip action))).
  rewrite index_info_of_ok; [|exact Ht|apply strip_by_idem].
  rewrite andb_true_r. unfold dict_get_or.
  destruct (dict_get m table_name) as [l|] eqn:E; [|reflexivity].
  exact (dict_all_get _ _ _ _ Hm E).
Qed.

Lemma fold_left_preserves {A B} (P : A -> Prop) (f : A -> B -> A) :
  (forall a b, P a -> P (f a b)) ->
  forall l a, P a -> P (fold_left f l a).
Proof.
  intros Hf. induction l as [|b l IH]; intros a Ha; simpl; [exact Ha|].
  apply IH, Hf, Ha.
Qed.

(** X10. Every entry that [parse_indexes] returns, for every input, has a
    raw text that is not empty and has no comma or semicolon at either end,
    and has the keys name, columns and unique all together or not at all.
    [parse_indexes] raises only when the library raises on the text. *)
Theorem parse_indexes_entries_are_well_formed
    (sp : SqlParse) (sql_text : string) :
  match parse_indexes sp sql_text with
  | Ok index_map =>
      dict_all (forallb index_ok) index_map = true
      /\ (forall table entries i,
            dict_get index_map table = Some entries ->
            In i entries ->
            idx_raw i <> EmptyString
            /\ (idx_name i = None <-> idx_columns i = None)
            /\ (idx_name i = None <-> idx_unique i = None))
  | Raise e => sqlparse_split sp sql_text = Raise e
  end.
Proof.
  unfold parse_indexes.
  destruct (sqlparse_split sp sql_text) as [statements|e]; [|reflexivity].
  cbn [bind].
  assert (H : dict_all (forallb index_ok)
                (fold_left parse_index_statement statements []) = true).
  { apply (fold_left_preserves (fun m => dict_all (forallb index_ok) m = true));
      [|reflexivity].
    intros m stmt Hm. unfold parse_index_statement.
    destruct (re_search alter_pattern stmt) as [[table_name actions]|];
      [|exact Hm].
    apply (fold_left_preserves (fun m => dict_all (forallb index_ok) m = true));
      [|exact Hm].
    intros a b. apply parse_action_ok. }
  split; [exact H|]. intros table entries i Hg Hi.
  pose proof (dict_all_get _ _ _ _ H Hg) as He.
  rewrite forallb_forall in He. specialize (He i Hi).
  unfold index_ok in He. rewrite !andb_true_iff in He.
  destruct He as [[Ht _] Hk]. split.
  - intros E. rewrite E in Ht. discriminate.
  - destruct (idx_name i), (idx_columns i), (idx_unique i);
      try discriminate; split; split; congruence.
Qed.

Lemma split_str_none sep s :
  Py.contains s sep = false ->
  forall cur, split_str_from sep cur s 0 = [cur ++ s].
Proof.
  induction s as [|c s IH]; intros H cur.
  - simpl. now rewrite append_nil_r.
  - cbn [Py.contains] in H. apply orb_false_iff in H. destruct H as [H1 H2].
    cbn [split_str_from]. rewrite H1, (IH H2), append_assoc. reflexivity.
Qed.

Lemma alter_pattern_matches name rest :
  Py.truthy name = true -> all_chars Py.isword name = true ->
  Py.truthy rest = true ->
  re_search alter_pattern ("ALTER TABLE `" ++ name ++ "` ADD " ++ rest)
  = Some (name, "ADD " ++ rest).
Proof.
  intros Ht Hn Hr.
  assert (H : alter_pattern ("ALTER TABLE `" ++ name ++ "` ADD " ++ rest)
              = Some (name, "ADD " ++ rest)).
  { unfold alter_pattern.
    change (after_prefix_ci "ALTER TABLE " ("ALTER TABLE `" ++ name ++ "` ADD " ++ rest))
      with (Some (String "`" (name ++ String "`" (" ADD " ++ rest)))).
    cbv iota. cbn [skip_backtick].
    rewrite (span_append Py.isword name "`" _ Hn eq_refl), Ht.
    cbn [skip_backtick].
    change (Py.span Py.isspace (" ADD " ++ rest)) with (" ", "ADD " ++ rest).
    cbv iota beta. cbn [Py.truthy].
    destruct rest as [|c rest]; [discriminate|]. reflexivity. }
  destruct ("ALTER TABLE `" ++ name ++ "` ADD " ++ rest); cbn [re_search];
    now rewrite H.
Qed.

(** X11. The statements that [split_create_table_statement] writes come
    back from [parse_indexes]: a statement ALTER TABLE `name` ADD action;
    whose action holds no further ADD and is what trimming leaves of it is
    filed as one more entry of the table, with the action as raw text. When
    the action is a key, KEY `k` (cols) or UNIQUE KEY `k` (cols), the entry
    has the name k, the columns of cols and the unique flag; an action that
    starts with PRIMARY KEY, CONSTRAINT or FOREIGN KEY has the raw text
    alone. *)
Theorem alter_statement_round_trip
    (m : dict (list IndexInfo)) (name action k cols tail : string) :
  Py.truthy name = true -> all_chars Py.isword name = true ->
  Py.truthy action = true ->
  Py.contains action "ADD " = false ->
  Py.strip_chars ",;" (Py.strip (action ++ ";")) = action ->
  Py.truthy k = true -> all_chars Py.isword k = true ->
  Py.truthy cols = true ->
  all_chars (fun c => negb (Ascii.eqb c ")") && not_newline c) cols = true ->
  parse_index_statement m ("ALTER TABLE `" ++ name ++ "` ADD " ++ action ++ ";")
  = dict_set m name (dict_get_or m name [] ++ [index_info_of action])%list
  /\ index_info_of ("KEY `" ++ k ++ "` (" ++ cols ++ ")" ++ tail)
     = mkIndex ("KEY `" ++ k ++ "` (" ++ cols ++ ")" ++ tail) (Some k)
         (Some (map (Py.strip_chars "` ") (Py.split cols ","))) (Some false)
  /\ index_info_of ("UNIQUE KEY `" ++ k ++ "` (" ++ cols ++ ")" ++ tail)
     = mkIndex ("UNIQUE KEY `" ++ k ++ "` (" ++ cols ++ ")" ++ tail) (Some k)
         (Some (map (Py.strip_chars "` ") (Py.split cols ","))) (Some true)
  /\ index_info_of ("PRIMARY KEY" ++ tail)
     = mkIndex ("PRIMARY KEY" ++ tail) None None None
  /\ index_info_of ("CONSTRAINT" ++ tail)
     = mkIndex ("CONSTRAINT" ++ tail) None None None
  /\ index_info_of ("FOREIGN KEY" ++ tail)
     = mkIndex ("FOREIGN KEY" ++ tail) None None None.
Proof.
  intros Hname Hword Hact Hadd Htrim Hk Hkw Hcols Hc.
  assert (Hkey : forall s0,
             match Py.after_prefix "KEY " ("KEY `" ++ k ++ "` (" ++ cols ++ ")" ++ tail) with
             | None => None
             | Some s1 =>
                 let (name0, s2) := Py.span Py.isword (skip_backtick s1) in
                 if Py.truthy name0 then
                   match Py.after_prefix " (" (skip_backtick s2) with
                   | Some (String c0 s3) =>
                       if not_newline c0 then
                         let (more, s4) :=
                           Py.span (fun c => negb (Ascii.eqb c ")") && not_newline c) s3 in
                         match s4 with
                         | String ")" _ => Some (s0, name0, String c0 more)
                         | _ => None
                         end
                       else None
                   | _ => None
                   end
                 else None
             end = Some (s0 : option string, k, cols)).
  { intros s0.
    change (Py.after_prefix "KEY " ("KEY `" ++ k ++ "` (" ++ cols ++ ")" ++ tail))
      with (Some (String "`" (k ++ String "`" (" (" ++ cols ++ ")" ++ tail)))).
    cbv iota. cbn [skip_backtick].
    rewrite (span_append Py.isword k "`" _ Hkw eq_refl), Hk.
    cbn [skip_backtick].
    change (Py.after_prefix " (" (" (" ++ cols ++ ")" ++ tail))
      with (Some (cols ++ ")" ++ tail)).
    destruct cols as [|c0 cols']; [discriminate|].
    cbn [all_chars] in Hc. apply andb_true_iff in Hc. destruct Hc as [Hc0 Hc'].
    apply andb_true_iff in Hc0. destruct Hc0 as [_ Hnl].
    cbn [append]. rewrite Hnl.
    change (cols' ++ String ")" tail) with (cols' ++ String ")" tail).
    rewrite (span_append _ cols' ")" tail Hc' eq_refl). reflexivity. }
  split; [|split; [|split; [|repeat split]]].
  - unfold parse_index_statement.
    rewrite (alter_pattern_matches name (action ++ ";") Hname Hword)
      by (destruct action; [discriminate | reflexivity]).
    unfold split_str.
    change (split_str_from "ADD " EmptyString ("ADD " ++ action ++ ";") 0)
      with (EmptyString :: split_str_from "ADD " EmptyString (action ++ ";") 0).
    rewrite split_str_none.
    + cbn [fold_left append]. unfold parse_action at 2. cbn [negb].
      change (Py.truthy (Py.strip_chars ",;" (Py.strip EmptyString))) with false.
      cbv iota. cbn [negb]. unfold parse_action. rewrite Htrim, Hact. cbn [negb].
      reflexivity.
    + clear -Hadd. induction action as [|c action IH]; [reflexivity|].
      cbn [append Py.contains] in *. apply orb_false_iff in Hadd.
      destruct Hadd as [H1 H2]. rewrite (IH H2), orb_false_r.
      unfold Py.startswith in *. cbn [Py.after_prefix] in *.
      destruct (Ascii.eqb "A" c); [|reflexivity].
      destruct action as [|c1 action]; [reflexivity|]. cbn [append] in *.
      destruct (Ascii.eqb "D" c1); [|reflexivity].
      destruct action as [|c2 action]; [destruct (Ascii.eqb "D" ";"); reflexivity|].
      cbn [append] in *.
      destruct (Ascii.eqb "D" c2); [|reflexivity].
      destruct action as [|c3 action]; [reflexivity|]. cbn [append] in *.
      destruct (Ascii.eqb " " c3); [discriminate | reflexivity].
  - unfold index_info_of, index_pattern.
    change (Py.after_prefix "UNIQUE" ("KEY `" ++ k ++ "` (" ++ cols ++ ")" ++ tail))
      with (@None string).
    cbv iota beta. now rewrite Hkey.
  - unfold index_info_of, index_pattern.
    change (Py.after_prefix "UNIQUE" ("UNIQUE KEY `" ++ k ++ "` (" ++ cols ++ ")" ++ tail))
      with (Some (" KEY `" ++ k ++ "` (" ++ cols ++ ")" ++ tail)).
    cbv iota.
    change (Py.span Py.isspace (" KEY `" ++ k ++ "` (" ++ cols ++ ")" ++ tail))
      with (" ", "KEY `" ++ k ++ "` (" ++ cols ++ ")" ++ tail).
    cbv iota beta. cbn [Py.truthy]. now rewrite Hkey.
Qed.

Lemma alter_statement_round_trip_witness :
  parse_index_statement [] "ALTER TABLE `orders` ADD UNIQUE KEY `idx_a` (`a`,`b`);"
  = [("orders",
      [mkIndex "UNIQUE KEY `idx_a` (`a`,`b`)" (Some "idx_a")
               (Some ["a"; "b"]) (Some true)])].
Proof.
  exact (proj1 (alter_statement_round_trip [] "orders"
                  "UNIQUE KEY `idx_a` (`a`,`b`)" "idx_a" "`a`,`b`" EmptyString
                  eq_refl eq_refl eq_refl eq_refl eq_refl
                  eq_refl eq_refl eq_refl eq_refl)).
Defined.

(** ** Further properties: the reader of the structure file *)

Lemma concat_empty_cons (x : string) (l : list string) :
  String.concat EmptyString (x :: l) = x ++ String.concat EmptyString l.
Proof.
  destruct l as [|y l]; [now rewrite append_nil_r | reflexivity].
Qed.

Lemma read_lines_block (block : list string) :
  forall current_line tables rest,
    forallb (fun l => negb (Py.endswith l (";" ++ nl))) block = true ->
    read_lines (block ++ rest) current_line tables
    = read_lines rest
        (current_line ++ String.concat EmptyString (map Py.strip block)) tables.
Proof.
  induction block as [|l block IH]; intros current_line tables rest H.
  - cbn [app map String.concat]. now rewrite append_nil_r.
  - cbn [forallb] in H. apply andb_true_iff in H. destruct H as [Hl Hb].
    apply negb_true_iff in Hl.
    rewrite <- app_comm_cons. cbn [read_lines]. rewrite Hl.
    rewrite (IH _ _ _ Hb). cbn [map]. now rewrite concat_empty_cons, append_assoc.
Qed.

(** X12. The reader of the structure file joins the trimmed lines of a
    statement with nothing between them and discards the line that closes
    the statement, the one that ends with a semicolon and a line feed: its
    text never reaches the statement. A file made of one such statement
    gives the joined lines, when they start with CREATE TABLE and a blank,
    and nothing otherwise. *)
Theorem dump_reader_drops_closing_line
    (block : list string) (closing : string) (rest : list string)
    (current_line : string) (tables : list string) :
  forallb (fun l => negb (Py.endswith l (";" ++ nl))) block = true ->
  Py.endswith closing (";" ++ nl) = true ->
  read_lines (block ++ closing :: rest) current_line tables
  = read_lines rest EmptyString
      (keep_table (current_line ++ String.concat EmptyString (map Py.strip block))
                  tables)
  /\ dumped_tables (block ++ [closing])
     = keep_table (String.concat EmptyString (map Py.strip block)) [].
Proof.
  intros Hb Hc. split.
  - rewrite (read_lines_block block _ _ _ Hb). cbn [read_lines]. now rewrite Hc.
  - unfold dumped_tables. rewrite (read_lines_block block _ _ _ Hb).
    cbn [read_lines]. rewrite Hc. reflexivity.
Qed.

Lemma dump_reader_drops_closing_line_witness :
  dumped_tables
    ["CREATE TABLE `t` (" ++ nl; "  `id` int NOT NULL," ++ nl;
     "  PRIMARY KEY (`id`)" ++ nl; ") ENGINE=InnoDB;" ++ nl]
  = ["CREATE TABLE `t` (`id` int NOT NULL,PRIMARY KEY (`id`)"].
Proof.
  exact (proj2 (dump_reader_drops_closing_line
                  ["CREATE TABLE `t` (" ++ nl; "  `id` int NOT NULL," ++ nl;
                   "  PRIMARY KEY (`id`)" ++ nl]
                  (") ENGINE=InnoDB;" ++ nl) [] EmptyString []
                  eq_refl eq_refl)).
Defined.

Lemma replace_char_none (a b : ascii) (s : string) :
  Ascii.eqb b a = false ->
  all_chars (fun c => negb (Ascii.eqb c a)) (replace_char a b s) = true.
Proof.
  intros H. induction s as [|c s IH]; [reflexivity|].
  cbn [replace_char all_chars]. rewrite IH, andb_true_r.
  destruct (Ascii.eqb c a) eqn:E; [now rewrite H | now rewrite E].
Qed.

Lemma keep_table_shape (P := fun t => Py.startswith t "CREATE TABLE " = true
                                      /\ all_chars not_newline t = true)
    current_line tables :
  Forall P tables -> Forall P (keep_table current_line tables).
Proof.
  intros H. unfold keep_table.
  destruct (Py.startswith (replace_char "010" " " current_line) "CREATE TABLE ")
    eqn:E; [|exact H].
  apply Forall_app. split; [exact H|]. constructor; [|constructor].
  split; [exact E|]. now apply replace_char_none.
Qed.

Lemma read_lines_shape (P := fun t => Py.startswith t "CREATE TABLE " = true
                                      /\ all_chars not_newline t = true)
    lines :
  forall current_line tables,
    Forall P tables -> Forall P (fst (read_lines lines current_line tables)).
Proof.
  induction lines as [|l lines IH]; intros current_line tables H; [exact H|].
  cbn [read_lines]. destruct (Py.endswith l (";" ++ nl)).
  - apply IH. now apply keep_table_shape.
  - now apply IH.
Qed.

Lemma read_lines_terminated lines :
  forallb (fun l => Py.endswith l (";" ++ nl)) lines = true ->
  read_lines lines EmptyString [] = ([], EmptyString).
Proof.
  induction lines as [|l lines IH]; intros H; [reflexivity|].
  cbn [forallb] in H. apply andb_true_iff in H. destruct H as [Hl Hr].
  cbn [read_lines]. rewrite Hl. exact (IH Hr).
Qed.

Lemma read_lines_count lines :
  forall current_line tables,
    length (fst (read_lines lines current_line tables))
    <= length tables
       + length (filter (fun l => Py.endswith l (";" ++ nl)) lines).
Proof.
  induction lines as [|l lines IH]; intros current_line tables;
    [simpl; lia|].
  cbn [read_lines filter]. destruct (Py.endswith l (";" ++ nl)).
  - etransitivity; [apply IH|]. cbn [length]. unfold keep_table.
    destruct (Py.startswith _ _); [rewrite length_app|]; cbn [length]; lia.
  - apply IH.
Qed.

(** X13. Every statement that the reader of the structure file hands to
    [split_create_table_statement] starts with CREATE TABLE and a blank and
    holds no line feed; there is at most one statement for each line that
    ends with a semicolon and a line feed, and one more for the text after
    the last such line. A file whose lines all end with a semicolon and a
    line feed, one statement to a line, gives no statement at all, so
    nothing is written to the index file. *)
Theorem dumped_tables_shape (lines terminated : list string) :
  forallb (fun l => Py.endswith l (";" ++ nl)) terminated = true ->
  Forall (fun t => Py.startswith t "CREATE TABLE " = true
                   /\ all_chars not_newline t = true)
         (dumped_tables lines)
  /\ length (dumped_tables lines)
     <= 1 + length (filter (fun l => Py.endswith l (";" ++ nl)) lines)
  /\ dumped_tables terminated = []
  /\ indexes_file terminated = EmptyString.
Proof.
  intros Ht. split; [|split; [|split]].
  - unfold dumped_tables.
    pose proof (read_lines_shape lines EmptyString [] (Forall_nil _)) as H.
    destruct (read_lines lines EmptyString []) as [tables current_line].
    cbn [fst] in H.
    destruct (negb (String.eqb current_line EmptyString)); [|exact H].
    now apply keep_table_shape.
  - unfold dumped_tables.
    pose proof (read_lines_count lines EmptyString []) as H.
    destruct (read_lines lines EmptyString []) as [tables current_line].
    cbn [fst length] in H.
    destruct (negb (String.eqb current_line EmptyString)); [|lia].
    unfold keep_table. destruct (Py.startswith _ _); [rewrite length_app|];
      cbn [length]; lia.
  - unfold dumped_tables. now rewrite (read_lines_terminated _ Ht).
  - unfold indexes_file, dumped_indexes, dumped_tables.
    now rewrite (read_lines_terminated _ Ht).
Qed.

Lemma dumped_tables_shape_witness :
  dumped_tables
    ["CREATE TABLE `a` (`id` int);" ++ nl; "CREATE TABLE `b` (`id` int);" ++ nl]
  = [].
Proof.
  exact (proj1 (proj2 (proj2 (dumped_tables_shape []
     ["CREATE TABLE `a` (`id` int);" ++ nl; "CREATE TABLE `b` (`id` int);" ++ nl]
     eq_refl)))).
Defined.

(** ** Further properties: the differ and the update scripts *)

Lemma column_def_as_read col spec :
  column_def col (as_read spec) = column_def col spec.
Proof. reflexivity. Qed.

Lemma differs_as_read spec actual :
  differs (as_read spec) actual = differs spec actual.
Proof. reflexivity. Qed.

Lemma keys_map_values {V W} (f : V -> W) (d : dict V) :
  keys (map_values f d) = keys d.
Proof. unfold keys, map_values. rewrite map_map. reflexivity. Qed.

Lemma clauses_map_values (clause : string * ColumnInfo -> string)
    (p : string * ColumnInfo -> bool) (f : ColumnInfo -> ColumnInfo)
    (d : dict ColumnInfo) :
  (forall k v, clause (k, f v) = clause (k, v)) ->
  (forall k v, p (k, f v) = p (k, v)) ->
  map clause (filter p (map_values f d)) = map clause (filter p d).
Proof.
  intros Hc Hp. induction d as [|[k v] d IH]; [reflexivity|].
  cbn [map_values map filter fst snd]. rewrite Hp.
  destruct (p (k, v)); cbn [map]; [rewrite Hc; f_equal|]; exact IH.
Qed.

(** X14. The differ reads three things of a target column: its type, its
    length and its nullability, a missing acceptNULL counting as true. The
    keys required and primary that the parser stores have no effect on the
    three lists, whatever the live structure and the set order. *)
Theorem differ_ignores_required_and_primary
    (o : SetOrder) (target : dict ColumnInfo) (actual_fields : list ActualRow) :
  compare_and_generate_sql o (map_values as_read target) actual_fields
  = compare_and_generate_sql o target actual_fields
  /\ compare_and_generate_sql o (map_values forget_primary target) actual_fields
     = compare_and_generate_sql o target actual_fields.
Proof.
  rewrite !compare_decomposed. unfold added, modified, dropped.
  rewrite !keys_map_values.
  rewrite !(clauses_map_values add_clause (is_added actual_fields) as_read),
          !(clauses_map_values modify_clause (is_modified actual_fields) as_read),
          !(clauses_map_values add_clause (is_added actual_fields) forget_primary),
          !(clauses_map_values modify_clause (is_modified actual_fields)
                               forget_primary);
    try reflexivity.
  split; reflexivity.
Qed.

Lemma write_all_app table (a b : list string) :
  write_all table (a ++ b) = write_all table a ++ write_all table b.
Proof.
  unfold write_all. induction a as [|x a IH]; [reflexivity|].
  rewrite <- app_comm_cons. cbn [map].
  now rewrite !concat_empty_cons, IH, append_assoc.
Qed.

Lemma write_all_guard table (l : list string) :
  (if nonempty l then write_all table l else EmptyString) = write_all table l.
Proof. destruct l; reflexivity. Qed.

Lemma table_script_eq o actual_struct table expected :
  table_script o actual_struct table expected
  = (if dict_in actual_struct table then EmptyString else missing_note table)
    ++ write_all table
         (adds_of (diff_table o actual_struct table expected)
          ++ modifies_of (diff_table o actual_struct table expected)
          ++ drops_of (diff_table o actual_struct table expected)).
Proof.
  unfold table_script, diff_table.
  destruct (compare_and_generate_sql o expected
              (dict_get_or actual_struct table [])) as [[adds modifies] drops].
  unfold adds_of, modifies_of, drops_of. cbn [fst snd].
  rewrite write_all_guard.
  assert (G : (if nonempty adds || nonempty modifies
               then write_all table (adds ++ modifies) else EmptyString)
              = write_all table (adds ++ modifies)).
  { destruct adds; [destruct modifies|]; reflexivity. }
  rewrite G, app_assoc, (write_all_app table (adds ++ modifies) drops).
  destruct (dict_in actual_struct table); reflexivity.
Qed.

Lemma write_all_empty table (l : list string) :
  write_all table l = EmptyString -> l = [].
Proof.
  destruct l as [|x l]; [reflexivity|]. unfold write_all. cbn [map].
  rewrite concat_empty_cons. discriminate.
Qed.

(** X15. The file that [main] writes for a table is the note, when the
    table is missing from the database, followed by one ALTER TABLE line
    for each clause: the adds, then the modifies, then the drops. The tests
    on the lists before the two loops change nothing. The file is empty
    exactly when the table is in the database and the three lists are
    empty. *)
Theorem table_script_is_note_and_clauses
    (o : SetOrder) (actual_struct : dict (list ActualRow))
    (table : string) (expected : dict ColumnInfo) :
  table_script o actual_struct table expected
  = (if dict_in actual_struct table then EmptyString else missing_note table)
    ++ write_all table
         (adds_of (diff_table o actual_struct table expected)
          ++ modifies_of (diff_table o actual_struct table expected)
          ++ drops_of (diff_table o actual_struct table expected))
  /\ (table_script o actual_struct table expected = EmptyString
      <-> dict_in actual_struct table = true
          /\ diff_table o actual_struct table expected = ([], [], [])).
Proof.
  split; [apply table_script_eq|].
  rewrite table_script_eq.
  destruct (diff_table o actual_struct table expected) as [[adds modifies] drops].
  unfold adds_of, modifies_of, drops_of. cbn [fst snd].
  destruct (dict_in actual_struct table); cbn [append].
  - split.
    + intros H. apply write_all_empty in H.
      apply app_eq_nil in H. destruct H as [Ha H].
      apply app_eq_nil in H. destruct H as [Hm Hd]. subst. now split.
    + intros [_ H]. inversion H. reflexivity.
  - split; [discriminate | intros [H _]; discriminate].
Qed.

Lemma compare_against_no_column o target :
  compare_and_generate_sql o target [] = (map add_clause target, [], []).
Proof.
  rewrite compare_decomposed. unfold added, modified, dropped.
  rewrite (filter_all (is_added []) target) by reflexivity.
  rewrite (filter_none (is_modified []) target) by reflexivity.
  cbn. now rewrite set_iter_nil.
Qed.

Lemma compare_against_stub o target type_ null :
  dict_in target "dummy_column" = false ->
  compare_and_generate_sql o target [dummy_row type_ null]
  = (map add_clause target, [], ["DROP COLUMN `dummy_column`"]).
Proof.
  intros Hd. unfold dict_in in Hd.
  assert (Hn : ~ In "dummy_column" (keys target)).
  { apply dict_get_keys. destruct (dict_get target "dummy_column");
      [discriminate | reflexivity]. }
  assert (Hk : forall k v, In (k, v) target -> String.eqb k "dummy_column" = false).
  { intros k v Hin. apply String.eqb_neq. intros ->. apply Hn.
    apply (in_map fst) in Hin. exact Hin. }
  rewrite compare_decomposed.
  assert (Ha : added target [dummy_row type_ null] = target).
  { apply filter_all. intros [k v] Hin. unfold is_added. cbn.
    now rewrite (Hk k v Hin). }
  assert (Hm : modified target [dummy_row type_ null] = []).
  { apply filter_none. intros [k v] Hin. unfold is_modified, is_checked. cbn.
    now rewrite (Hk k v Hin). }
  assert (Hr : dropped o target [dummy_row type_ null] = ["dummy_column"]).
  { apply Permutation_length_1_inv, Permutation_sym.
    eapply Permutation_trans; [apply dropped_perm|].
    unfold actual_only. cbn.
    destruct (set_in "dummy_column" (keys target)) eqn:E;
      [apply set_in_In in E; contradiction | apply Permutation_refl]. }
  rewrite Ha, Hm, Hr. reflexivity.
Qed.

(** X16. For a table that is missing from the database the file holds the
    note and one ADD COLUMN line for each target column, in target order:
    the structure was read before the stub table was created, so no line
    drops the stub's column. A later run finds the stub, with its one column
    dummy_column; when the target has no column of that name, that run
    writes the same ADD COLUMN lines, no note, and a last line that drops
    dummy_column. *)
Theorem script_of_missing_table
    (o : SetOrder) (actual_struct : dict (list ActualRow))
    (table : string) (expected : dict ColumnInfo) (type_ null : string) :
  dict_in actual_struct table = false ->
  dict_in expected "dummy_column" = false ->
  table_script o actual_struct table expected
  = missing_note table ++ write_all table (map add_clause expected)
  /\ table_script o (dict_set actual_struct table [dummy_row type_ null])
                  table expected
     = write_all table (map add_clause expected ++ ["DROP COLUMN `dummy_column`"]).
Proof.
  intros Hmiss Hd. split.
  - rewrite table_script_eq, Hmiss. unfold diff_table, dict_get_or.
    unfold dict_in in Hmiss.
    destruct (dict_get actual_struct table); [discriminate|].
    rewrite compare_against_no_column. unfold adds_of, modifies_of, drops_of.
    cbn [fst snd]. now rewrite !app_nil_r.
  - rewrite table_script_eq. unfold dict_in, diff_table, dict_get_or.
    rewrite dict_get_set_same. cbn [append].
    rewrite (compare_against_stub o expected type_ null Hd).
    reflexivity.
Qed.

Lemma script_of_missing_table_witness :
  table_script reverse_order [("other", [mkRow "x" "int" "NO"])] "t"
    [("id", mkInfo "INTEGER" None (Some false) (Some true) (Some true));
     ("name", mkInfo "STRING" (Some 50%Z) (Some true) None None)]
  = "// Table t created with dummy_column" ++ nl
    ++ "ALTER TABLE `t` ADD COLUMN `id` int NOT NULL;" ++ nl
    ++ "ALTER TABLE `t` ADD COLUMN `name` varchar(50) NULL;" ++ nl.
Proof.
  exact (proj1 (script_of_missing_table reverse_order
                  [("other", [mkRow "x" "int" "NO"])] "t"
                  [("id", mkInfo "INTEGER" None (Some false) (Some true) (Some true));
                   ("name", mkInfo "STRING" (Some 50%Z) (Some true) None None)]
                  "bigint" "NO" eq_refl eq_refl)).
Defined.

(** ** Further properties: the files between the two scripts *)

Lemma after_prefix_app (p s r : string) :
  Py.after_prefix p s = Some r -> s = p ++ r.
Proof.
  revert s. induction p as [|a p IH]; intros s H.
  - cbn in H. now inversion H.
  - destruct s as [|b s]; [discriminate|]. cbn [Py.after_prefix] in H.
    destruct (Ascii.eqb a b) eqn:E; [|discriminate].
    apply Ascii.eqb_eq in E. subst b. cbn [append]. f_equal. now apply IH.
Qed.

Lemma endswith_split (s p : string) :
  Py.endswith s p = true -> exists x, s = x ++ p.
Proof.
  unfold Py.endswith, Py.startswith. intros H.
  destruct (Py.after_prefix (Py.rev_string p) (Py.rev_string s)) as [r|] eqn:E;
    [|discriminate].
  apply after_prefix_app in E. exists (Py.rev_string r).
  apply (f_equal Py.rev_string) in E.
  now rewrite rev_string_involutive, rev_string_app, rev_string_involutive in E.
Qed.

Lemma startswith_past_slash (q : string) :
  all_chars not_slash q = true ->
  forall x y, Py.startswith (x ++ String "/" y) q = Py.startswith x q.
Proof.
  unfold Py.startswith.
  induction q as [|c q IH]; intros Hq x y; [reflexivity|].
  cbn [all_chars] in Hq. apply andb_true_iff in Hq. destruct Hq as [Hc Hq].
  destruct x as [|d x]; cbn [append Py.after_prefix].
  - unfold not_slash in Hc. apply negb_true_iff in Hc. now rewrite Hc.
  - destruct (Ascii.eqb c d); [apply (IH Hq) | reflexivity].
Qed.

Lemma rev_json_path (base x : string) :
  Py.rev_string (base ++ "/" ++ x ++ ".json")
  = "nosj." ++ Py.rev_string x ++ String "/" (Py.rev_string base).
Proof.
  rewrite rev_string_app. cbn [append Py.rev_string].
  rewrite rev_string_app. change (Py.rev_string ".json") with "nosj.".
  now rewrite !append_assoc.
Qed.

Lemma stem_json (base x : string) :
  Py.truthy x = true -> all_chars not_slash x = true ->
  stem (base ++ "/" ++ x ++ ".json") = x.
Proof.
  intros Ht Hs.
  assert (Hb : basename (base ++ "/" ++ x ++ ".json") = x ++ ".json").
  { unfold basename. rewrite rev_json_path.
    change ("nosj." ++ Py.rev_string x ++ String "/" (Py.rev_string base))
      with (("nosj." ++ Py.rev_string x) ++ String "/" (Py.rev_string base)).
    rewrite (span_append not_slash); [| |reflexivity].
    - cbn [fst]. rewrite rev_string_app, rev_string_involutive. reflexivity.
    - rewrite all_chars_app, all_chars_rev, Hs. reflexivity. }
  unfold stem. rewrite Hb, rev_string_app.
  change (Py.rev_string ".json") with "nosj.".
  change (Py.span not_dot ("nosj." ++ Py.rev_string x))
    with ("nosj", String "." (Py.rev_string x)).
  cbv iota beta. rewrite truthy_rev, Ht. cbn [Py.truthy andb].
  apply rev_string_involutive.
Qed.

Lemma skipped_json (base x : string) :
  Py.endswith (base ++ "/" ++ x ++ ".json") "indexes.json"
  = Py.endswith x "indexes".
Proof.
  unfold Py.endswith. rewrite rev_json_path.
  change (Py.rev_string "indexes.json") with ("nosj." ++ "sexedni").
  change (Py.rev_string "indexes") with "sexedni".
  change (Py.startswith ("nosj." ++ Py.rev_string x ++ String "/" (Py.rev_string base))
                        ("nosj." ++ "sexedni"))
    with (Py.startswith (Py.rev_string x ++ String "/" (Py.rev_string base))
                        "sexedni").
  now apply startswith_past_slash.
Qed.

Lemma fold_set_get {A V} (key : A -> string) (val : A -> V) (k : string) (v : V)
    (l : list A) :
  (forall f, In f l -> key f = k -> val f = v) ->
  forall d0,
    dict_get d0 k = Some v \/ (exists f, In f l /\ key f = k) ->
    dict_get (fold_left (fun d f => dict_set d (key f) (val f)) l d0) k = Some v.
Proof.
  induction l as [|a l IH]; intros Hv d0 H.
  - destruct H as [H|[f [[] _]]]. exact H.
  - cbn [fold_left]. apply IH.
    + intros f Hf. apply Hv. now right.
    + rewrite dict_get_set. destruct (String.eqb_spec (key a) k) as [E|E].
      * left. f_equal. apply Hv; [now left | exact E].
      * destruct H as [H|[f [[->|Hf] Hk]]]; [now left | contradiction |].
        right. now exists f.
Qed.

Lemma fold_set_none {A V} (key : A -> string) (val : A -> V) (k : string)
    (l : list A) :
  (forall f, In f l -> key f <> k) ->
  forall d0,
    dict_get (fold_left (fun d f => dict_set d (key f) (val f)) l d0) k
    = dict_get d0 k.
Proof.
  induction l as [|a l IH]; intros Hk d0; [reflexivity|].
  cbn [fold_left]. rewrite IH by (intros f Hf; apply Hk; now right).
  apply dict_get_set_other. apply Hk. now left.
Qed.

Lemma loaded_paths (base_path : string) (entries : list string) (f : string) :
  Forall (fun name => all_chars not_slash name = true) entries ->
  In f (filter (fun f => negb (Py.endswith f "indexes.json"))
               (glob_json base_path entries)) ->
  exists x, f = json_path base_path x /\ stem f = x
            /\ In (x ++ ".json") entries /\ Py.endswith x "indexes" = false.
Proof.
  intros Hall Hin. apply filter_In in Hin. destruct Hin as [Hg Hskip].
  unfold glob_json in Hg. apply in_map_iff in Hg.
  destruct Hg as [name [<- Hname]]. apply filter_In in Hname.
  destruct Hname as [Hentry Hmatch]. apply andb_true_iff in Hmatch.
  destruct Hmatch as [Hjson Hdot].
  rewrite Forall_forall in Hall. specialize (Hall _ Hentry).
  destruct (endswith_split _ _ Hjson) as [x ->].
  rewrite all_chars_app in Hall. apply andb_true_iff in Hall.
  destruct Hall as [Hx _].
  assert (Ht : Py.truthy x = true).
  { destruct x; [discriminate Hdot | reflexivity]. }
  exists x. split; [reflexivity|]. split; [now apply stem_json|].
  split; [exact Hentry|].
  rewrite (skipped_json base_path x) in Hskip.
  now apply negb_true_iff in Hskip.
Qed.

(** X17. Of the files in the dump directory, [load_json_tables] loads the
    table named [table] exactly when the directory has the file of that
    name with the suffix .json and the name does not end with indexes. So
    the file of the indexes is left out, and so is the file that
    [write_jsons] wrote for any table whose name ends with indexes: such a
    table is never compared. A loaded table comes under its own name, and
    [write_jsons] writes the files of the tables and the file of the
    indexes, no other. *)
Theorem tables_named_indexes_are_not_loaded
    {V} (base_path : string) (entries : list string) (load : string -> V)
    (table : string) :
  Forall (fun name => all_chars not_slash name = true) entries ->
  Py.truthy table = true ->
  all_chars not_slash table = true ->
  Py.startswith table "." = false ->
  dict_get (load_json_tables base_path entries load) table
  = (if set_in (table ++ ".json") entries && negb (Py.endswith table "indexes")
     then Some (load (json_path base_path table))
     else None)
  /\ stem (json_path base_path table) = table
  /\ stem (indexes_json_path base_path) = "all-tables-indexes"
  /\ dict_get (load_json_tables base_path entries load) "all-tables-indexes"
     = None
  /\ (forall structure indexes path value,
        In (path, value) (write_jsons base_path structure indexes) ->
        In path (map (json_path base_path) (keys structure))
        \/ path = indexes_json_path base_path).
Proof.
  intros Hall Ht Hs Hdot.
  assert (Hnone : forall k,
             (set_in (k ++ ".json") entries && negb (Py.endswith k "indexes"))
             = false ->
             dict_get (load_json_tables base_path entries load) k = None).
  { intros k Hk. unfold load_json_tables. rewrite fold_set_none; [reflexivity|].
    intros f Hf E. destruct (loaded_paths base_path entries f Hall Hf)
      as [x [_ [Hstem [Hentry Hskip]]]].
    rewrite Hstem in E. subst x.
    apply set_in_In in Hentry. now rewrite Hentry, Hskip in Hk. }
  split; [|split; [|split; [|split]]].
  - destruct (set_in (table ++ ".json") entries
              && negb (Py.endswith table "indexes")) eqn:E;
      [|now apply Hnone].
    apply andb_true_iff in E. destruct E as [Hentry Hskip].
    apply set_in_In in Hentry.
    unfold load_json_tables. apply fold_set_get.
    + intros f Hf Hstem.
      destruct (loaded_paths base_path entries f Hall Hf) as [x [-> [Hx _]]].
      rewrite Hx in Hstem. now subst x.
    + right. exists (json_path base_path table). split.
      * apply filter_In. split.
        -- unfold glob_json, json_path.
           apply (in_map (fun name => base_path ++ "/" ++ name)
                         _ (table ++ ".json")).
           apply filter_In. split; [exact Hentry|].
           apply andb_true_iff. split.
           ++ unfold Py.endswith. rewrite rev_string_app. reflexivity.
           ++ destruct table as [|c t]; [discriminate|].
              cbn [append]. unfold Py.startswith in *.
              cbn [Py.after_prefix] in *.
              destruct (Ascii.eqb "." c); [discriminate | reflexivity].
        -- unfold json_path. now rewrite (skipped_json base_path table).
      * now apply stem_json.
  - now apply stem_json.
  - exact (stem_json base_path "all-tables-indexes" eq_refl eq_refl).
  - apply Hnone. apply andb_false_r.
  - intros structure indexes path value Hin. unfold write_jsons in Hin.
    apply in_app_iff in Hin. destruct Hin as [Hin|[Hin|[]]].
    + left. apply in_map_iff in Hin. destruct Hin as [[k v] [E Hk]].
      inversion E. subst. apply in_map. apply (in_map fst) in Hk. exact Hk.
    + right. now inversion Hin.
Qed.

Lemma tables_named_indexes_are_not_loaded_witness :
  dict_get (load_json_tables "dump/h/d/2025-01-01-10"
              ["users.json"; "user_indexes.json"; "all-tables-indexes.json";
               "users.sql"]
              (fun f => f))
           "user_indexes"
  = None.
Proof.
  refine (proj1 (tables_named_indexes_are_not_loaded "dump/h/d/2025-01-01-10"
                   ["users.json"; "user_indexes.json"; "all-tables-indexes.json";
                    "users.sql"]
                   (fun f => f) "user_indexes" _ eq_refl eq_refl eq_refl)).
  repeat (constructor; [reflexivity|]). constructor.
Defined.
